(** * The article and full-text batch pipelines of dbSNP.py

    A shallow embedding of [get_articles] and [get_full_text_markdown]
    (src/dbSNP.py) together with the properties the specification states
    about them.

    The two tools are Python coroutines that talk to remote services,
    write to a temporary directory and catch exceptions per identifier.
    They are modelled in a state-and-exception monad: the state holds the
    files of the temporary directory, the chronological trace of
    effects, the number of remote calls made so far and the
    function-level local variable [filename]; the remote services and the
    library routines whose code is outside the repository are the fields
    of a [world].

    What the model leaves out: exceptions that are not subclasses of
    [Exception] (cancellation), failures of [tempfile.mkdtemp] and of
    opening or closing the [httpx.AsyncClient], failures of [os.remove]
    on a file that exists, and JSON numbers that are not integers. *)

From Stdlib Require Import ZArith Ascii DecimalString.
From stdpp Require Import gmap strings list fin_maps.

Local Open Scope string_scope.

(** ** Strings *)

Module Str.

(** [str.lower()] on the ASCII range. *)
Definition lower_ascii (c : ascii) : ascii :=
  let n := Ascii.nat_of_ascii c in
  if (65 <=? n)%nat && (n <=? 90)%nat then Ascii.ascii_of_nat (n + 32) else c.

Fixpoint lower (s : string) : string :=
  match s with
  | EmptyString => EmptyString
  | String c s' => String (lower_ascii c) (lower s')
  end.

(** [sub in s] for strings. *)
Fixpoint contains (sub s : string) : bool :=
  if String.prefix sub s then true
  else match s with
       | EmptyString => false
       | String _ s' => contains sub s'
       end.

(** [s.replace(a, b)] for single characters [a] and [b]. *)
Fixpoint replace_char (a b : ascii) (s : string) : string :=
  match s with
  | EmptyString => EmptyString
  | String c s' =>
      String (if Ascii.eqb c a then b else c) (replace_char a b s')
  end.

(** [sep.join(l)]. *)
Definition join (sep : string) (l : list string) : string :=
  String.concat sep l.

Definition of_Z (z : Z) : string := NilZero.string_of_int (Z.to_int z).

End Str.

(** ** Exceptions *)

(** The subclasses of [Exception] the two tools can meet.  The [except]
    clauses only tell [httpx.HTTPError] (with its subclasses, such as
    [HTTPStatusError]) from the rest; the other constructors keep the
    class of the error for the reader.  Exceptions outside [Exception]
    (cancellation, keyboard interrupt) are not modelled. *)
Inductive exn : Type :=
| HTTPError (msg : string)
| ValueError (msg : string)
| TypeError (msg : string)
| AttributeError (msg : string)
| IndexError (msg : string)
| KeyError (key : string)
| UnboundLocalError (var : string)
| OSError (msg : string)
| OtherException (msg : string).

(** [isinstance(e, httpx.HTTPError)]. *)
Definition is_http_error (e : exn) : bool :=
  match e with HTTPError _ => true | _ => false end.

(** [str(e)].  The text of [UnboundLocalError] is CPython's (3.11 and
    later); a [KeyError] prints the [repr] of its key. *)
Definition str_exn (e : exn) : string :=
  match e with
  | HTTPError m | ValueError m | TypeError m | AttributeError m
  | IndexError m | OSError m | OtherException m => m
  | KeyError k => k
  | UnboundLocalError x =>
      "cannot access local variable '" +:+ x
        +:+ "' where it is not associated with a value"
  end.

(** The outcome of a Python expression or statement. *)
Inductive outcome (A : Type) : Type :=
| Ok (a : A)
| Raise (e : exn).
Arguments Ok {A} a.
Arguments Raise {A} e.

#[global] Instance outcome_ret : MRet outcome := @Ok.
#[global] Instance outcome_bind : MBind outcome := λ A B k o,
  match o with
  | Ok a => k a
  | Raise e => Raise e
  end.

(** ** JSON values as Python objects *)

(** What [response.json()] returns.  Numbers are kept to integers. *)
#[warnings="-register-all"]
Inductive json : Type :=
| JNull
| JBool (b : bool)
| JInt (z : Z)
| JStr (s : string)
| JArr (items : list json)
| JObj (fields : list (string * json)).

Module Py.

(** Truth value of an object ([if x], [not x], [x or y]). *)
Definition truthy (v : json) : bool :=
  match v with
  | JNull => false
  | JBool b => b
  | JInt z => negb (Z.eqb z 0)
  | JStr s => negb (String.eqb s "")
  | JArr l => match l with [] => false | _ => true end
  | JObj kvs => match kvs with [] => false | _ => true end
  end.

(** [type(v).__name__]. *)
Definition type_name (v : json) : string :=
  match v with
  | JNull => "NoneType"
  | JBool _ => "bool"
  | JInt _ => "int"
  | JStr _ => "str"
  | JArr _ => "list"
  | JObj _ => "dict"
  end.

Fixpoint assoc (k : string) (kvs : list (string * json)) : option json :=
  match kvs with
  | [] => None
  | (k', v) :: rest => if String.eqb k k' then Some v else assoc k rest
  end.

(** [v.get(k, dflt)]: only a dict has the method. *)
Definition get (v : json) (k : string) (dflt : json) : outcome json :=
  match v with
  | JObj kvs => Ok (default dflt (assoc k kvs))
  | _ => Raise (AttributeError
                  ("'" +:+ type_name v +:+ "' object has no attribute 'get'"))
  end.

Fixpoint chars (s : string) : list json :=
  match s with
  | EmptyString => []
  | String c s' => JStr (String c EmptyString) :: chars s'
  end.

(** The elements [for x in v] runs through. *)
Definition iter (v : json) : outcome (list json) :=
  match v with
  | JArr l => Ok l
  | JObj kvs => Ok (map (λ kv, JStr (fst kv)) kvs)
  | JStr s => Ok (chars s)
  | _ => Raise (TypeError
                  ("'" +:+ type_name v +:+ "' object is not iterable"))
  end.

(** [v[0]]. *)
Definition index0 (v : json) : outcome json :=
  match v with
  | JArr (x :: _) => Ok x
  | JArr [] => Raise (IndexError "list index out of range")
  | JStr (String c _) => Ok (JStr (String c EmptyString))
  | JStr EmptyString => Raise (IndexError "string index out of range")
  | JObj _ => Raise (KeyError "0")
  | _ => Raise (TypeError
                  ("'" +:+ type_name v +:+ "' object is not subscriptable"))
  end.

End Py.

(** ** The world outside the repository *)

(** An [httpx.Response], as far as the tools look at it. *)
Record response : Type := {
  status_code : Z;
  content_type : option string;  (* the content-type header, if present *)
  json_body : outcome json;      (* what [response.json()] does *)
  content : list Byte.byte;      (* [response.content] *)
}.

(** A [metapub] article record.  The fields interpolated in f-strings
    are kept as the text [str] gives for them. *)
Record article : Type := {
  title : string;
  authors : list string;
  journal : string;
  year : string;
  citation : string;
  abstract : option string;
}.

(** A [metapub.FindIt] object: [url] is [None] or a string. *)
Record finder : Type := {
  url : option string;
  reason : string;
}.

(** The remote services and the library routines used by the tools.
    Each routine that depends on the outside takes as first argument the
    number of remote calls made before it in the batch, so that the same
    request can be answered differently later on. *)
Record world : Type := {
  (* urllib.parse.quote *)
  quote : string → string;
  (* repr of a list or a dict *)
  py_repr : json → string;
  (* the directory tempfile.mkdtemp(prefix="pdf_processing_") returns *)
  mkdtemp : string;
  (* client.get(url, follow_redirects=...) *)
  http_get : nat → string → bool → outcome response;
  (* the text of the HTTPStatusError of raise_for_status *)
  status_message : response → string;
  (* the text of the TypeError httpx raises for a url that is no string *)
  invalid_url_message : json → string;
  (* aiofiles.open(path, 'wb') and f.write(content): the error, if any *)
  file_open : nat → string → option exn;
  file_write : nat → string → list Byte.byte → option exn;
  (* pymupdf4llm.to_markdown on a file with the given content *)
  to_markdown : nat → string → list Byte.byte → outcome string;
  (* an error of os.rmdir other than a directory that is not empty *)
  rmdir_error : option exn;
  (* metapub: convert.doi2pmid, PubMedFetcher.article_by_pmid, FindIt *)
  doi2pmid : nat → string → outcome (option string);
  article_by_pmid : nat → string → outcome (option article);
  FindIt : nat → string → outcome finder;
}.

(** ** Effects *)

Inductive event : Type :=
| LogInfo (msg : string)
| LogError (msg : string)
| CallDoi2pmid (doi : string)
| CallArticleByPmid (pmid : string)
| CallFindIt (pmid : string)
| HttpGet (url : string) (follow_redirects : bool)
| Mkdtemp (path : string)
| FileOpen (path : string)
| FileWrite (path : string) (data : list Byte.byte)
| ToMarkdown (path : string)
| PathExists (path : string)
| Remove (path : string)
| Rmdir (path : string).

Record state : Type := mkState {
  st_files : gmap string (list Byte.byte); (* the files under the temp dir *)
  st_trace : list event;                   (* effects so far, oldest first *)
  st_clock : nat;                          (* remote calls made so far *)
  st_filename : option string;             (* the local [filename]; None: unbound *)
}.

Definition init : state :=
  {| st_files := ∅; st_trace := []; st_clock := 0; st_filename := None |}.

(** Computations that read and write the state and may raise. *)
Definition M (A : Type) : Type := state → outcome A * state.

#[global] Instance M_ret : MRet M := λ A a s, (Ok a, s).
#[global] Instance M_bind : MBind M := λ A B k m s,
  match m s with
  | (Ok a, s') => k a s'
  | (Raise e, s') => (Raise e, s')
  end.

Definition raise {A} (e : exn) : M A := λ s, (Raise e, s).

Definition lift {A} (o : outcome A) : M A := λ s, (o, s).

(** [try: m  except Exception as e: h e]. *)
Definition try_except {A} (m : M A) (h : exn → M A) : M A := λ s,
  match m s with
  | (Ok a, s') => (Ok a, s')
  | (Raise e, s') => h e s'
  end.

(** [try: m  finally: f].  An exception raised by [f] replaces the
    outcome of [m]. *)
Definition try_finally {A} (m : M A) (f : M unit) : M A := λ s,
  match m s with
  | (r, s') =>
      match f s' with
      | (Ok _, s'') => (r, s'')
      | (Raise e, s'') => (Raise e, s'')
      end
  end.

(** Runs [m] and hands its outcome over as a value. *)
Definition attempt {A} (m : M A) : M (outcome A) :=
  try_except (a ← m; mret (Ok a)) (λ e, mret (Raise e)).

Definition emit (ev : event) : M unit := λ s,
  (Ok (), {| st_files := st_files s; st_trace := (st_trace s ++ [ev])%list;
             st_clock := st_clock s; st_filename := st_filename s |}).

(** The number of remote calls so far, which the call being made
    increments. *)
Definition tick : M nat := λ s,
  (Ok (st_clock s),
   {| st_files := st_files s; st_trace := st_trace s;
      st_clock := S (st_clock s); st_filename := st_filename s |}).

Definition clock : M nat := λ s, (Ok (st_clock s), s).

Definition set_filename (f : string) : M unit := λ s,
  (Ok (), {| st_files := st_files s; st_trace := st_trace s;
             st_clock := st_clock s; st_filename := Some f |}).

Definition set_files (fs : gmap string (list Byte.byte)) : M unit := λ s,
  (Ok (), {| st_files := fs; st_trace := st_trace s;
             st_clock := st_clock s; st_filename := st_filename s |}).

Definition get_files : M (gmap string (list Byte.byte)) := λ s,
  (Ok (st_files s), s).

(** Reading the local variable [filename]. *)
Definition read_filename : M string := λ s,
  match st_filename s with
  | Some f => (Ok f, s)
  | None => (Raise (UnboundLocalError "filename"), s)
  end.

Definition log_info (msg : string) : M unit := emit (LogInfo msg).
Definition log_error (msg : string) : M unit := emit (LogError msg).

(** ** Library calls *)

(** [str(v)], as an f-string interpolates [v]. *)
Definition py_str (w : world) (v : json) : string :=
  match v with
  | JNull => "None"
  | JBool true => "True"
  | JBool false => "False"
  | JInt z => Str.of_Z z
  | JStr s => s
  | JArr _ | JObj _ => py_repr w v
  end.

(** [os.path.join(a, b)] on a POSIX system. *)
Definition path_join (a b : string) : string :=
  if String.prefix "/" b then b
  else if String.eqb a "" || String.eqb (String.substring (String.length a - 1) 1 a) "/"
       then a +:+ b
       else a +:+ "/" +:+ b.

(** [await client.get(url, follow_redirects=follow)].  httpx rejects a
    url that is not a string before any request is made. *)
Definition client_get (w : world) (url : json) (follow : bool) : M response :=
  match url with
  | JStr u =>
      n ← tick;
      emit (HttpGet u follow);;
      lift (http_get w n u follow)
  | _ => raise (TypeError (invalid_url_message w url))
  end.

(** [response.is_success]: the status is 2xx. *)
Definition is_success (r : response) : bool :=
  ((200 <=? status_code r) && (status_code r <? 300))%Z.

(** [response.raise_for_status()]: an [HTTPStatusError] unless the
    status is 2xx. *)
Definition raise_for_status (w : world) (r : response) : M unit :=
  if is_success r then mret ()
  else raise (HTTPError (status_message w r)).

(** [async with aiofiles.open(path, 'wb') as f: await f.write(data)].
    Opening creates the (empty) file; a failed write leaves it there. *)
Definition write_file (w : world) (path : string) (data : list Byte.byte)
  : M unit :=
  n ← clock;
  emit (FileOpen path);;
  match file_open w n path with
  | Some e => raise e
  | None =>
      fs ← get_files;
      set_files (<[path := []]> fs);;
      emit (FileWrite path data);;
      match file_write w n path data with
      | Some e => raise e
      | None => set_files (<[path := data]> fs)
      end
  end.

(** [pymupdf4llm.to_markdown(path)]. *)
Definition convert_to_markdown (w : world) (path : string) : M string :=
  n ← clock;
  emit (ToMarkdown path);;
  fs ← get_files;
  match fs !! path with
  | Some data => lift (to_markdown w n path data)
  | None => raise (OSError ("no such file: '" +:+ path +:+ "'"))
  end.

(** [os.path.exists(path)] and [os.remove(path)]. *)
Definition path_exists (path : string) : M bool :=
  emit (PathExists path);;
  fs ← get_files;
  mret (match fs !! path with Some _ => true | None => false end).

Definition os_remove (path : string) : M unit :=
  emit (Remove path);;
  fs ← get_files;
  match fs !! path with
  | Some _ => set_files (delete path fs)
  | None => raise (OSError ("[Errno 2] No such file or directory: '"
                              +:+ path +:+ "'"))
  end.

(** [os.rmdir(path)] of the temporary directory. *)
Definition os_rmdir (w : world) (path : string) : M unit :=
  emit (Rmdir path);;
  fs ← get_files;
  if bool_decide (fs = ∅) then
    match rmdir_error w with
    | Some e => raise e
    | None => mret ()
    end
  else raise (OSError ("[Errno 39] Directory not empty: '" +:+ path +:+ "'")).

(** ** The batch loop *)

(** [for x in xs: results.append(body(x))], the shape of the loop of
    both tools: each turn ends by appending one string to [results]. *)
Fixpoint for_each (body : string → M string) (xs : list string)
    (results : list string) : M (list string) :=
  match xs with
  | [] => mret results
  | x :: rest =>
      fragment ← body x;
      for_each body rest (results ++ [fragment])%list
  end.

(** ** [get_full_text_markdown] *)

Module FullText.

Definition email : string := "matthews1000140@gmail.com".

Definition separator : string :=
  String "010" (String "010" ("==========" +:+ String "010" (String "010" ""))).

Definition nl : string := String "010" "".

Definition sentinel : string := "No PDFs were processed successfully.".

Definition unpaywall_url (w : world) (doi : string) : string :=
  "https://api.unpaywall.org/v2/" +:+ quote w doi +:+ "?email=" +:+ email.

(** The [for location in oa_locations] loop: the first location whose
    [url_for_pdf] is truthy, or [None] when the loop ends without
    [break]. *)
Fixpoint first_pdf_location (locations : list json) : outcome json :=
  match locations with
  | [] => Ok JNull
  | location :: rest =>
      u ← Py.get location "url_for_pdf" JNull;
      if Py.truthy u then Ok location else first_pdf_location rest
  end.

(** Lines 295-305: the value of [best_oa_location]. *)
Definition best_oa_location (data : json) : outcome json :=
  is_oa ← Py.get data "is_oa" (JBool false);
  if Py.truthy is_oa then
    oa_locations ← Py.get data "oa_locations" (JArr []);
    locations ← Py.iter oa_locations;
    best ← first_pdf_location locations;
    if negb (Py.truthy best) && Py.truthy oa_locations
    then Py.index0 oa_locations
    else Ok best
  else Ok JNull.

(** Lines 295-312: [best_oa_location] and [pdf_url]. *)
Definition choose_pdf_url (data : json) : outcome (json * json) :=
  best ← best_oa_location data;
  if negb (Py.truthy best)
  then Raise (ValueError "No open access PDF available")
  else
    u ← Py.get best "url_for_pdf" JNull;
    pdf_url ← (if Py.truthy u then Ok u else Py.get best "url" JNull);
    if negb (Py.truthy pdf_url)
    then Raise (ValueError "No PDF URL found in open access location")
    else Ok (best, pdf_url).

(** The body of the inner [try] (lines 289-338): the lines it adds to
    [result_info]. *)
Definition fetch_and_convert (w : world) (temp_dir doi : string)
  : M (list string) :=
  response ← client_get w (JStr (unpaywall_url w doi)) false;
  raise_for_status w response;;
  data ← lift (json_body response);
  '(best, pdf_url) ← lift (choose_pdf_url data);
  let filename :=
    path_join temp_dir (Str.replace_char "/" "_" doi +:+ ".pdf") in
  set_filename filename;;
  pdf_response ← client_get w pdf_url true;
  raise_for_status w pdf_response;;
  let ct := default "" (content_type pdf_response) in
  if negb (Str.contains "pdf" (Str.lower ct))
  then raise (ValueError ("Not a PDF file (content-type: " +:+ ct +:+ ")"))
  else
    write_file w filename (content pdf_response);;
    md_text ← convert_to_markdown w filename;
    host ← lift (Py.get best "host_type" (JStr "unknown"));
    mret ["Open Access Source: " +:+ py_str w host;
          "";
          "Markdown Content:";
          md_text].

(** The [finally] clause of the inner [try] (lines 346-349). *)
Definition cleanup : M unit :=
  filename ← read_filename;
  present ← path_exists filename;
  if (present : bool) then os_remove filename else mret ().

Definition header (doi : string) : list string :=
  ["PDF Processing Results:"; "DOI: " +:+ doi].

(** One turn of the [for doi in dois] loop (lines 280-360): the string
    appended to [results]. *)
Definition process_doi (w : world) (temp_dir doi : string) : M string :=
  result_info ←
    try_except
      (log_info ("[PDF] Processing DOI: " +:+ doi);;
       try_finally
         (try_except
            (lines ← fetch_and_convert w temp_dir doi;
             mret (header doi ++ lines)%list)
            (λ e,
               if is_http_error e then
                 log_error ("[Error] API or download error for DOI "
                              +:+ doi +:+ ": " +:+ str_exn e);;
                 mret (header doi ++
                       ["Error: Failed to retrieve or download PDF - "
                          +:+ str_exn e])%list
               else
                 log_error ("[Error] Failed to process PDF for DOI "
                              +:+ doi +:+ ": " +:+ str_exn e);;
                 mret (header doi ++
                       ["Error: Failed to process PDF - " +:+ str_exn e])%list))
         cleanup)
      (λ e,
         log_error ("[Error] Unexpected error processing DOI "
                      +:+ doi +:+ ": " +:+ str_exn e);;
         mret (header doi ++ ["Error: " +:+ str_exn e])%list);
  mret (Str.join nl result_info).

(** The [for doi in dois] loop, started with [results = []]. *)
Definition process_all (w : world) (temp_dir : string) (dois : list string)
  : M (list string) :=
  for_each (process_doi w temp_dir) dois [].

(** The outer [finally] (lines 362-367). *)
Definition remove_temp_dir (w : world) (temp_dir : string) : M unit :=
  try_except (os_rmdir w temp_dir)
    (λ e, log_error ("[Error] Failed to clean up temporary directory: "
                       +:+ str_exn e)).

(** Lines 369-373. *)
Definition report (results : list string) : string :=
  match results with
  | [] => sentinel
  | _ => Str.join separator results
  end.

(** The list [results] at the end of the loop, after the temporary
    directory is dealt with. *)
Definition collect (w : world) (dois : list string) : M (list string) :=
  let temp_dir := mkdtemp w in
  emit (Mkdtemp temp_dir);;
  try_finally (process_all w temp_dir dois) (remove_temp_dir w temp_dir).

Definition get_full_text_markdown (w : world) (dois : list string) : M string :=
  results ← collect w dois;
  mret (report results).

End FullText.

(** ** [get_articles] *)

Module Articles.

Definition separator : string := FullText.separator.

Definition nl : string := FullText.nl.

Definition sentinel : string := "No articles were processed successfully.".

Definition header (doi : string) : list string :=
  ["Article Information:"; "DOI: " +:+ doi].

(** Truth value of what [doi2pmid] returns ([None] or a string). *)
Definition pmid_of (r : option string) : option string :=
  match r with
  | Some p => if String.eqb p "" then None else Some p
  | None => None
  end.

(** The first inner [try] (lines 190-193): the PMID. *)
Definition resolve (w : world) (doi : string) : M string :=
  n ← tick;
  emit (CallDoi2pmid doi);;
  r ← lift (doi2pmid w n doi);
  match pmid_of r with
  | Some pmid => mret pmid
  | None => raise (ValueError "Could not convert DOI to PMID")
  end.

(** The second inner [try] (lines 202-219): the lines it adds. *)
Definition fetch_metadata (w : world) (pmid : string) : M (list string) :=
  n ← tick;
  emit (CallArticleByPmid pmid);;
  r ← lift (article_by_pmid w n pmid);
  match r with
  | None => raise (ValueError "No article data returned")
  | Some a =>
      mret ["Title: " +:+ title a;
            "Authors: " +:+ Str.join "; " (authors a);
            "Journal: " +:+ journal a +:+ " (" +:+ year a +:+ ")";
            "Citation: " +:+ citation a;
            "";
            "Abstract:";
            match abstract a with
            | Some t => if String.eqb t "" then "Not available" else t
            | None => "Not available"
            end]
  end.

(** The third inner [try] (lines 228-239): the lines it adds. *)
Definition locate_full_text (w : world) (pmid : string) : M (list string) :=
  n ← tick;
  emit (CallFindIt pmid);;
  f ← lift (FindIt w n pmid);
  match url f with
  | Some u =>
      if String.eqb u "" then
        mret [""; "Full Text Access:"; "Full text URL not available";
              "Reason: " +:+ reason f]
      else mret [""; "Full Text Access:"; "URL: " +:+ u]
  | None =>
      mret [""; "Full Text Access:"; "Full text URL not available";
            "Reason: " +:+ reason f]
  end.

(** One turn of the [for doi in dois] loop (lines 181-253): the string
    appended to [results], on each of its three ways out ([continue]
    twice, and the end of the body). *)
Definition process_doi (w : world) (doi : string) : M string :=
  try_except
    (log_info ("[Article] Processing DOI: " +:+ doi);;
     r1 ← attempt (resolve w doi);
     match r1 with
     | Raise e =>
         log_error ("[Error] Failed to get PMID for DOI " +:+ doi +:+ ": "
                      +:+ str_exn e);;
         mret (Str.join nl
                 (header doi ++
                  ["Error: Could not retrieve PMID - " +:+ str_exn e])%list)
     | Ok pmid =>
         let info1 := (header doi ++ ["PMID: " +:+ pmid])%list in
         r2 ← attempt (fetch_metadata w pmid);
         match r2 with
         | Raise e =>
             log_error ("[Error] Failed to fetch article data for PMID "
                          +:+ pmid +:+ ": " +:+ str_exn e);;
             mret (Str.join nl
                     (info1 ++
                      ["Error: Could not retrieve article data - "
                         +:+ str_exn e])%list)
         | Ok meta =>
             let info2 := (info1 ++ meta)%list in
             r3 ← attempt (locate_full_text w pmid);
             match r3 with
             | Raise e =>
                 log_error ("[Error] Failed to find full text for PMID "
                              +:+ pmid +:+ ": " +:+ str_exn e);;
                 mret (Str.join nl
                         (info2 ++
                          [""; "Full Text Access:";
                           "Error: Could not retrieve full text URL - "
                             +:+ str_exn e])%list)
             | Ok lines => mret (Str.join nl (info2 ++ lines)%list)
             end
         end
     end)
    (λ e,
       log_error ("[Error] Unexpected error processing DOI " +:+ doi +:+ ": "
                    +:+ str_exn e);;
       mret ("Failed to process DOI: " +:+ doi +:+ nl +:+ "Error: "
               +:+ str_exn e)).

(** The [for doi in dois] loop, started with [results = []]. *)
Definition process_all (w : world) (dois : list string) : M (list string) :=
  for_each (process_doi w) dois [].

(** Lines 255-259. *)
Definition report (results : list string) : string :=
  match results with
  | [] => sentinel
  | _ => Str.join separator results
  end.

Definition collect (w : world) (dois : list string) : M (list string) :=
  process_all w dois.

Definition get_articles (w : world) (dois : list string) : M string :=
  results ← collect w dois;
  mret (report results).

End Articles.

(** ** Vocabulary of the properties *)

Local Open Scope list_scope.

(** The fragment of an identifier opens with the tool's header lines,
    the second of which names the identifier. *)
Definition fragment_of (header : string → list string) (doi frag : string)
  : Prop :=
  ∃ lines, frag = Str.join FullText.nl (header doi ++ lines).

(** Calls to the metapub services: resolver, metadata, primary finder. *)
Definition is_metapub_call (ev : event) : bool :=
  match ev with
  | CallDoi2pmid _ | CallArticleByPmid _ | CallFindIt _ => true
  | _ => false
  end.

Definition is_http_get (ev : event) : bool :=
  match ev with HttpGet _ _ => true | _ => false end.

(** The state in which the loop of [get_full_text_markdown] starts. *)
Definition loop_start (w : world) : state :=
  {| st_files := ∅; st_trace := [Mkdtemp (mkdtemp w)]; st_clock := 0;
     st_filename := None |}.

(** What the outer [finally] of [get_full_text_markdown] leaves in the
    trace when the directory holds no file. *)
Definition rmdir_events (w : world) : list event :=
  Rmdir (mkdtemp w) ::
  match rmdir_error w with
  | Some e => [LogError ("[Error] Failed to clean up temporary directory: "
                           +:+ str_exn e)]
  | None => []
  end.

(** The invariants of the two loops: the temporary directory holds no
    file and the primary services are never called, for the full-text
    tool; no HTTP request is made, for the article tool. *)
Definition full_text_inv (s : state) : Prop :=
  st_files s = ∅ ∧ Forall (λ ev, is_metapub_call ev = false) (st_trace s).

Definition articles_inv (s : state) : Prop :=
  Forall (λ ev, is_http_get ev = false) (st_trace s).

(** The state after the outer [finally], from the state [s] at the end
    of the loop. *)
Definition after_rmdir (w : world) (s : state) : state :=
  {| st_files := st_files s; st_trace := st_trace s ++ rmdir_events w;
     st_clock := st_clock s; st_filename := st_filename s |}.

(** ** Failing before [filename] is assigned *)

(** The turn of [get_full_text_markdown] for [doi], when [n] remote
    calls were made before it, raises before line 315 assigns
    [filename]: the aggregator request raises or is not a 2xx answer,
    its body is no JSON, or no PDF URL can be chosen from it. *)
Definition fails_before_filename (w : world) (n : nat) (doi : string)
  : bool :=
  match http_get w n (FullText.unpaywall_url w doi) false with
  | Raise _ => true
  | Ok r =>
      if is_success r then
        match json_body r with
        | Raise _ => true
        | Ok data =>
            match FullText.choose_pdf_url data with
            | Raise _ => true
            | Ok _ => false
            end
        end
      else true
  end.

(** The fragment the outer [except] builds from the error of reading
    the unbound [filename]. *)
Definition unbound_fragment (doi : string) : string :=
  Str.join FullText.nl
    (FullText.header doi
       ++ ["Error: " +:+ str_exn (UnboundLocalError "filename")]).

(** ** Sample worlds *)

(** A world given by its HTTP answers and its resolver; everything else
    works: files can be written, conversion gives a short document, the
    directory can be removed. *)
Definition sample_world (get : nat → string → bool → outcome response)
    (resolver : string → outcome (option string)) : world :=
  {| quote := λ s, s;
     py_repr := λ _, "[...]";
     mkdtemp := "/tmp/pdf_processing_a1b2";
     http_get := get;
     status_message := λ r, "status " +:+ Str.of_Z (status_code r);
     invalid_url_message := λ _, "Invalid type for url.";
     file_open := λ _ _, None;
     file_write := λ _ _ _, None;
     to_markdown := λ _ _ _, Ok "# Title";
     rmdir_error := None;
     doi2pmid := λ _ doi, resolver doi;
     article_by_pmid := λ _ _,
       Ok (Some {| title := "A title"; authors := ["A. Author"; "B. Author"];
                   journal := "A journal"; year := "2020";
                   citation := "A citation"; abstract := Some "An abstract" |});
     FindIt := λ _ _, Ok {| url := None; reason := "NOFORMAT" |} |}.

(** Every request is refused. *)
Definition refusing_world : world :=
  sample_world (λ _ _ _, Raise (HTTPError "connection refused"))
    (λ _, Raise (OtherException "resolver down")).

(** ** The selection policy, in the words of the specification *)

Definition is_dict (v : json) : Prop :=
  match v with JObj _ => True | _ => False end.

(** The value of a field of a candidate location ([None] if absent). *)
Definition field (k : string) (candidate : json) : json :=
  match candidate with
  | JObj fields => default JNull (Py.assoc k fields)
  | _ => JNull
  end.

(** The candidate exposes a PDF URL. *)
Definition exposes_pdf_url (candidate : json) : bool :=
  Py.truthy (field "url_for_pdf" candidate).

(** "Prefer the first candidate exposing a direct PDF URL; if none
    expose a PDF URL, fall back to the first candidate's generic URL." *)
Definition selected_url (candidates : list json) : json :=
  match List.find exposes_pdf_url candidates with
  | Some c => field "url_for_pdf" c
  | None =>
      match candidates with
      | c :: _ => field "url" c
      | [] => JNull
      end
  end.

(** The requests of the download step for a selected URL: one request
    when there is a URL, none when the selection found no URL. *)
Definition download_requests (selected : json) : list event :=
  match selected with
  | JStr u => if String.eqb u "" then [] else [HttpGet u true]
  | _ => []
  end.

(** The request of the download step after [choose_pdf_url]. *)
Definition download_events (chosen : outcome (json * json)) : list event :=
  match chosen with
  | Ok (_, JStr u) => [HttpGet u true]
  | _ => []
  end.

(** ** Records that are not open access *)

(** The aggregator reports "not open access" ([is_oa] missing or
    falsy) or gives an empty collection of candidates ([oa_locations]
    missing or the empty list). *)
Definition not_open_access (data : json) : bool :=
  match data with
  | JObj fields =>
      negb (Py.truthy (default (JBool false) (Py.assoc "is_oa" fields)))
      || match Py.assoc "oa_locations" fields with
         | None | Some (JArr []) => true
         | _ => false
         end
  | _ => false
  end.

Definition not_open_access_fragment (doi : string) : string :=
  Str.join FullText.nl
    (FullText.header doi
       ++ ["Error: Failed to process PDF - No open access PDF available"]).

Definition transport_failure_fragment (doi msg : string) : string :=
  Str.join FullText.nl
    (FullText.header doi
       ++ ["Error: Failed to retrieve or download PDF - " +:+ msg]).

(** ** Failed resolution *)

(** The text of the error of the first inner [try] of [get_articles],
    when [doi2pmid] raises or returns nothing. *)
Definition resolution_error (w : world) (n : nat) (doi : string)
  : option string :=
  match doi2pmid w n doi with
  | Raise e => Some (str_exn e)
  | Ok r =>
      match Articles.pmid_of r with
      | Some _ => None
      | None => Some "Could not convert DOI to PMID"
      end
  end.

Definition unresolved_fragment (doi msg : string) : string :=
  Str.join Articles.nl
    (Articles.header doi ++ ["Error: Could not retrieve PMID - " +:+ msg]).

(** ** More sample worlds *)

Definition pdf_bytes : list Byte.byte :=
  [Byte.x25; Byte.x50; Byte.x44; Byte.x46].

Definition json_response (data : json) : response :=
  {| status_code := 200; content_type := Some "application/json";
     json_body := Ok data; content := [] |}.

Definition file_response (ct : string) : response :=
  {| status_code := 200; content_type := Some ct;
     json_body := Raise (ValueError "Expecting value: line 1 column 1 (char 0)");
     content := pdf_bytes |}.

(** An aggregator answer with two candidates, of which only the second
    exposes a PDF URL. *)
Definition two_candidates : list json :=
  [JObj [("url", JStr "https://publisher.example/article");
         ("url_for_pdf", JNull);
         ("host_type", JStr "publisher")];
   JObj [("url", JStr "https://repository.example/record");
         ("url_for_pdf", JStr "https://repository.example/paper.pdf");
         ("host_type", JStr "repository")]].

Definition open_access_fields : list (string * json) :=
  [("doi", JStr "10.1000/open"); ("is_oa", JBool true);
   ("oa_locations", JArr two_candidates)].

(** An aggregator answer for a record that is not open access, which
    says why. *)
Definition closed_access_data : json :=
  JObj [("doi", JStr "10.1000/closed"); ("is_oa", JBool false);
        ("oa_locations", JArr []);
        ("reason", JStr "embargoed until 2031")].

(** The aggregator knows the record as open access; every download is
    answered with a file of the content type [ct]. *)
Definition open_access_world (ct : string) : world :=
  sample_world
    (λ _ url _,
       if String.prefix "https://api.unpaywall.org/" url
       then Ok (json_response (JObj open_access_fields))
       else Ok (file_response ct))
    (λ _, Ok (Some "31452104")).

(** The aggregator knows "10.1000/open" as open access and every other
    record as closed; downloads are answered with a PDF. *)
Definition mixed_world : world :=
  sample_world
    (λ _ url _,
       if String.eqb url
            "https://api.unpaywall.org/v2/10.1000/open?email=matthews1000140@gmail.com"
       then Ok (json_response (JObj open_access_fields))
       else if String.prefix "https://api.unpaywall.org/" url
       then Ok (json_response closed_access_data)
       else Ok (file_response "application/pdf"))
    (λ _, Ok None).

(** ** Rejected content types *)

Definition item_path (td doi : string) : string :=
  path_join td (Str.replace_char "/" "_" doi +:+ ".pdf").

Definition not_a_pdf_message (ct : string) : string :=
  "Not a PDF file (content-type: " +:+ ct +:+ ")".

Definition not_a_pdf_fragment (doi ct : string) : string :=
  Str.join FullText.nl
    (FullText.header doi
       ++ ["Error: Failed to process PDF - " +:+ not_a_pdf_message ct]).

(** ** The internal identifier *)

(** The PMID the resolver gives for [doi] when [n] remote calls were
    made before, if it gives one. *)
Definition resolved_pmid (w : world) (n : nat) (doi : string)
  : option string :=
  match doi2pmid w n doi with
  | Ok r => Articles.pmid_of r
  | Raise _ => None
  end.

(** The calls to the metadata service and to the primary finder are
    made with the PMID [pmid]. *)
Definition keyed_by (pmid : option string) (ev : event) : Prop :=
  match ev with
  | CallArticleByPmid p | CallFindIt p => pmid = Some p
  | _ => True
  end.
(** * Further properties: definitions *)

(** ** The turn of [get_full_text_markdown], stage by stage *)

(** The [host_type] the success fragment shows for the chosen location:
    [best_oa_location.get('host_type', 'unknown')]. *)
Definition host_type_of (best : json) : json :=
  match best with
  | JObj fields => default (JStr "unknown") (Py.assoc "host_type" fields)
  | _ => JStr "unknown"
  end.

Definition markdown_fragment (w : world) (doi : string) (best : json)
    (md_text : string) : string :=
  Str.join FullText.nl
    (FullText.header doi
       ++ ["Open Access Source: " +:+ py_str w (host_type_of best);
           ""; "Markdown Content:"; md_text]).

Definition processing_failure_fragment (doi msg : string) : string :=
  Str.join FullText.nl
    (FullText.header doi ++ ["Error: Failed to process PDF - " +:+ msg]).

(** The download of [u], as the request number [n], fails as an HTTP
    error: the transport raises one, or the answer is not 2xx. *)
Definition download_failure (w : world) (n : nat) (u : string)
  : option string :=
  match http_get w n u true with
  | Raise (HTTPError msg) => Some msg
  | Raise _ => None
  | Ok r => if is_success r then None else Some (status_message w r)
  end.

(** The effects of a turn on files name only paths that satisfy
    [allowed]. *)
Definition touches_only (allowed : string → Prop) (ev : event) : Prop :=
  match ev with
  | FileOpen p | FileWrite p _ | ToMarkdown p | PathExists p | Remove p =>
      allowed p
  | _ => True
  end.

(** The file name of an identifier inside the temporary directory. *)
Definition item_name (doi : string) : string :=
  Str.replace_char "/" "_" doi +:+ ".pdf".

(** The paths of the identifiers of a batch. *)
Definition batch_path (td : string) (dois : list string) (p : string)
  : Prop :=
  ∃ doi, doi ∈ dois ∧ p = item_path td doi.

(** ** Sample worlds for the stages *)

(** [w] with another converter. *)
Definition with_converter (w : world)
    (conv : nat → string → list Byte.byte → outcome string) : world :=
  {| quote := quote w; py_repr := py_repr w; mkdtemp := mkdtemp w;
     http_get := http_get w; status_message := status_message w;
     invalid_url_message := invalid_url_message w;
     file_open := file_open w; file_write := file_write w;
     to_markdown := conv; rmdir_error := rmdir_error w;
     doi2pmid := doi2pmid w; article_by_pmid := article_by_pmid w;
     FindIt := FindIt w |}.

(** The record is open access but the file downloaded for it cannot
    be read as a PDF. *)
Definition broken_pdf_world : world :=
  with_converter (open_access_world "application/pdf")
    (λ _ _ _, Raise (OtherException "Failed to open file")).

(** The record is open access but its download answers 404. *)
Definition missing_file_world : world :=
  sample_world
    (λ _ url _,
       if String.prefix "https://api.unpaywall.org/" url
       then Ok (json_response (JObj open_access_fields))
       else Ok {| status_code := 404; content_type := Some "text/html";
                  json_body := Raise (ValueError "Expecting value");
                  content := [] |})
    (λ _, Ok None).

Definition repository_location : json :=
  JObj [("url", JStr "https://repository.example/record");
        ("url_for_pdf", JStr "https://repository.example/paper.pdf");
        ("host_type", JStr "repository")].

(** ** Counting requests *)

(** The number of HTTP requests in a trace. *)
Definition http_requests (t : list event) : nat :=
  length (List.filter is_http_get t).

(** The number of calls to the metapub services in a trace. *)
Definition metapub_calls (t : list event) : nat :=
  length (List.filter is_metapub_call t).

(** A path directly inside the directory [td], under the file name of
    one of the identifiers of [dois]; the name has no "/". *)
Definition inside (td : string) (dois : list string) (p : string) : Prop :=
  ∃ doi, doi ∈ dois
    ∧ p = path_join td (item_name doi)
    ∧ Str.contains "/" (item_name doi) = false.

(** ** The turn of [get_articles], stage by stage *)

(** The text of the error of the second inner [try] of [get_articles],
    when the metadata service raises or returns nothing for [pmid]. *)
Definition metadata_error (w : world) (n : nat) (pmid : string)
  : option string :=
  match article_by_pmid w n pmid with
  | Raise e => Some (str_exn e)
  | Ok None => Some "No article data returned"
  | Ok (Some _) => None
  end.

(** The lines of a fragment that describe the article. *)
Definition metadata_lines (a : article) : list string :=
  ["Title: " +:+ title a;
   "Authors: " +:+ Str.join "; " (authors a);
   "Journal: " +:+ journal a +:+ " (" +:+ year a +:+ ")";
   "Citation: " +:+ citation a;
   "";
   "Abstract:";
   match abstract a with
   | Some t => if String.eqb t "" then "Not available" else t
   | None => "Not available"
   end].

(** The "Full Text Access" section, by what the primary finder did. *)
Definition access_lines (r : outcome finder) : list string :=
  [""; "Full Text Access:"] ++
  match r with
  | Ok f =>
      match url f with
      | Some u =>
          if String.eqb u ""
          then ["Full text URL not available"; "Reason: " +:+ reason f]
          else ["URL: " +:+ u]
      | None => ["Full text URL not available"; "Reason: " +:+ reason f]
      end
  | Raise e => ["Error: Could not retrieve full text URL - " +:+ str_exn e]
  end.

(** The log line of a finder that raised. *)
Definition access_log (pmid : string) (r : outcome finder) : list event :=
  match r with
  | Ok _ => []
  | Raise e =>
      [LogError ("[Error] Failed to find full text for PMID " +:+ pmid
                   +:+ ": " +:+ str_exn e)]
  end.

(** The resolver fails and the metadata service is down. *)
Definition no_metadata_world : world :=
  {| quote := λ s, s; py_repr := λ _, "[...]";
     mkdtemp := "/tmp/pdf_processing_a1b2";
     http_get := λ _ _ _, Raise (HTTPError "connection refused");
     status_message := λ _, "status"; invalid_url_message := λ _, "url";
     file_open := λ _ _, None; file_write := λ _ _ _, None;
     to_markdown := λ _ _ _, Ok "# Title"; rmdir_error := None;
     doi2pmid := λ _ _, Ok (Some "31452104");
     article_by_pmid := λ _ _, Raise (OtherException "efetch timed out");
     FindIt := λ _ _, Raise (OtherException "unreachable") |}.

(** * The SNP tools of dbSNP.py *)

(** ** More of Python on JSON values *)

Module Pyx.

Definition of_nat (n : nat) : string := Str.of_Z (Z.of_nat n).

(** [len(v)].  A string is taken as the sequence of its bytes. *)
Definition len (v : json) : outcome nat :=
  match v with
  | JArr l => Ok (length l)
  | JObj kvs => Ok (length kvs)
  | JStr s => Ok (String.length s)
  | _ => Raise (TypeError
                  ("object of type '" +:+ Py.type_name v +:+ "' has no len()"))
  end.

(** [v[n]] for a constant index [n >= 0]. *)
Definition index (v : json) (n : nat) : outcome json :=
  match v with
  | JArr l =>
      match l !! n with
      | Some x => Ok x
      | None => Raise (IndexError "list index out of range")
      end
  | JStr s =>
      match String.get n s with
      | Some c => Ok (JStr (String c EmptyString))
      | None => Raise (IndexError "string index out of range")
      end
  | JObj _ => Raise (KeyError (of_nat n))
  | _ => Raise (TypeError
                  ("'" +:+ Py.type_name v +:+ "' object is not subscriptable"))
  end.

(** Running [f] on the elements of a list in order, as a loop that
    appends the results does: the first exception ends it. *)
Fixpoint map_all {A B} (f : A → outcome B) (l : list A) : outcome (list B) :=
  match l with
  | [] => Ok []
  | x :: rest =>
      y ← f x;
      ys ← map_all f rest;
      Ok (y :: ys)
  end.

(** [l[:k]] on a list: a negative [k] counts from the end. *)
Definition take_to {A} (l : list A) (k : Z) : list A :=
  take (Z.to_nat (if (k <? 0)%Z then Z.of_nat (length l) + k else k)) l.

(** [v[:k]].  A list or a string can be sliced; what slicing a dict
    raises is [dict_error].  A string is taken as the sequence of its
    bytes. *)
Definition slice_to (dict_error : exn) (v : json) (k : Z) : outcome json :=
  match v with
  | JArr l => Ok (JArr (take_to l k))
  | JStr s =>
      Ok (JStr (String.string_of_list_ascii
                 (take_to (String.list_ascii_of_string s) k)))
  | JObj _ => Raise dict_error
  | _ => Raise (TypeError
                  ("'" +:+ Py.type_name v +:+ "' object is not subscriptable"))
  end.

End Pyx.

(** ** [format_snp_data], [fetch_snp_data], [search_snp], [get_snp_info] *)

Module Snp.

Definition NWS_API_BASE : string :=
  "https://clinicaltables.nlm.nih.gov/api/snps/v3/search".

Definition DISPLAY_FIELDS : list string :=
  ["rsNum";
   "38.chr"; "38.pos"; "38.alleles"; "38.gene"; "38.assembly";
   "37.chr"; "37.pos"; "37.alleles"; "37.gene"; "37.assembly"].

Definition nl : string := FullText.nl.

Definition separator : string := FullText.separator.

(** [data[k]] on the dict [dict(zip(DISPLAY_FIELDS, item))]. *)
Definition lookup (data : list (string * json)) (k : string) : outcome json :=
  match Py.assoc k data with
  | Some v => Ok v
  | None => Raise (KeyError ("'" +:+ k +:+ "'"))
  end.

(** [x or 'Not specified'], interpolated. *)
Definition or_not_specified (w : world) (v : json) : string :=
  if Py.truthy v then py_str w v else "Not specified".

(** [format_snp_data(item)] (lines 57-89). *)
Definition format_snp_data (w : world) (item : json) : outcome string :=
  n ← Pyx.len item;
  if negb (n =? length DISPLAY_FIELDS)%nat then
    first ← Pyx.index item 0;
    Ok ("SNP ID: " +:+ py_str w first +:+ " (incomplete data)")
  else
    values ← Py.iter item;
    let data := zip DISPLAY_FIELDS values in
    chr38 ← lookup data "38.chr";
    pos38 ← lookup data "38.pos";
    alleles38 ← lookup data "38.alleles";
    gene38 ← lookup data "38.gene";
    chr37 ← lookup data "37.chr";
    pos37 ← lookup data "37.pos";
    alleles37 ← lookup data "37.alleles";
    gene37 ← lookup data "37.gene";
    rs ← lookup data "rsNum";
    Ok (Str.join nl
          ["SNP ID: " +:+ py_str w rs;
           "";
           "GRCh38 Assembly:";
           "  Chromosome: " +:+ py_str w chr38;
           "  Position: " +:+ py_str w pos38;
           "  Alleles: " +:+ py_str w alleles38;
           "  Gene: " +:+ or_not_specified w gene38;
           "";
           "GRCh37 Assembly:";
           "  Chromosome: " +:+ py_str w chr37;
           "  Position: " +:+ py_str w pos37;
           "  Alleles: " +:+ py_str w alleles37;
           "  Gene: " +:+ or_not_specified w gene37]).

(** The query parameters of the request of [fetch_snp_data]. *)
Definition search_params (query : string) : list (string * string) :=
  [("terms", query); ("df", Str.join "," DISPLAY_FIELDS)].

(** [fetch_snp_data(query)] (lines 33-55).  [with_params] is the URL
    httpx builds from a base URL and the query parameters. *)
Definition fetch_snp_data (w : world)
    (with_params : string → list (string * string) → string)
    (query : string) : M json :=
  log_info ("[API] Fetching SNP data for query: " +:+ query);;
  try_except
    (response ←
       client_get w (JStr (with_params NWS_API_BASE (search_params query)))
         false;
     raise_for_status w response;;
     data ← lift (json_body response);
     log_info ("[API] Successfully fetched data for " +:+ query);;
     mret data)
    (λ e,
       (if is_http_error e
        then log_error ("[Error] HTTP error occurred: " +:+ str_exn e)
        else log_error ("[Error] Unexpected error: " +:+ str_exn e));;
       raise e).

(** [not data or len(data) < 4 or not data[3]]. *)
Definition no_results (data : json) : outcome bool :=
  if negb (Py.truthy data) then Ok true
  else
    n ← Pyx.len data;
    if (n <? 4)%nat then Ok true
    else
      matches ← Pyx.index data 3;
      Ok (negb (Py.truthy matches)).

(** [search_snp(query)] (lines 92-115). *)
Definition search_snp (w : world)
    (with_params : string → list (string * string) → string)
    (query : string) : M string :=
  try_except
    (data ← fetch_snp_data w with_params query;
     none ← lift (no_results data);
     if (none : bool)
     then mret ("No SNP information found for query: " +:+ query)
     else
       matches ← lift (Pyx.index data 3);
       items ← lift (Py.iter matches);
       results ← lift (Pyx.map_all (format_snp_data w) items);
       total_results ← lift (Pyx.index data 0);
       mret ("Found " +:+ py_str w total_results
               +:+ " matching SNPs. Showing first "
               +:+ Pyx.of_nat (length results) +:+ ":" +:+ nl +:+ nl
               +:+ Str.join separator results))
    (λ e, mret ("Error searching for SNP: " +:+ str_exn e)).

(** [get_snp_info(rsid)] (lines 118-136). *)
Definition get_snp_info (w : world)
    (with_params : string → list (string * string) → string)
    (rsid : string) : M string :=
  try_except
    (data ← fetch_snp_data w with_params rsid;
     none ← lift (no_results data);
     if (none : bool)
     then mret ("No information found for SNP: " +:+ rsid)
     else
       matches ← lift (Pyx.index data 3);
       first ← lift (Pyx.index matches 0);
       lift (format_snp_data w first))
    (λ e, mret ("Error retrieving SNP information: " +:+ str_exn e)).

End Snp.

(** ** Vocabulary for the SNP tools *)

(** The request of [fetch_snp_data], as the request number [n], fails
    as an HTTP error: the transport raises one, or the answer is not
    2xx. *)
Definition fetch_failure (w : world) (n : nat) (url : string)
  : option string :=
  match http_get w n url false with
  | Raise (HTTPError msg) => Some msg
  | Raise _ => None
  | Ok r => if is_success r then None else Some (status_message w r)
  end.

(** The URL of the request of [fetch_snp_data]. *)
Definition search_url (with_params : string → list (string * string) → string)
    (query : string) : string :=
  with_params Snp.NWS_API_BASE (Snp.search_params query).

(** A record of the answer that is a non-empty list. *)
Definition is_record (item : json) : Prop :=
  ∃ v rest, item = JArr (v :: rest).

(** The summary line of [search_snp] and the blank line after it. *)
Definition summary (w : world) (total : json) (shown : nat) : string :=
  "Found " +:+ py_str w total +:+ " matching SNPs. Showing first "
    +:+ Pyx.of_nat shown +:+ ":" +:+ Snp.nl +:+ Snp.nl.

(** A world where the SNP service answers [data] to every request. *)
Definition snp_world (data : json) : world :=
  sample_world (λ _ _ _, Ok (json_response data)) (λ _, Ok None).

(** The URL httpx builds, for the sample worlds: the parameters are
    appended without escaping. *)
Fixpoint plain_query (params : list (string * string)) : string :=
  match params with
  | [] => ""
  | [(k, v)] => k +:+ "=" +:+ v
  | (k, v) :: rest => k +:+ "=" +:+ v +:+ "&" +:+ plain_query rest
  end.

Definition plain_params (base : string) (params : list (string * string))
  : string :=
  base +:+ "?" +:+ plain_query params.

Definition record_rs6311 : json :=
  JArr [JStr "rs6311"; JStr "13"; JStr "46897343"; JStr "C/T"; JStr "HTR2A";
        JStr "GRCh38"; JStr "13"; JStr "47471478"; JStr "C/T"; JStr "";
        JStr "GRCh37"].

Definition record_short : json := JArr [JStr "rs6313"; JStr "13"].

(** The state after [fetch_snp_data] has returned an answer: one
    request was made and two lines were logged. *)
Definition after_fetch
    (with_params : string → list (string * string) → string)
    (query : string) (s : state) : state :=
  {| st_files := st_files s;
     st_trace :=
       st_trace s ++
         [LogInfo ("[API] Fetching SNP data for query: " +:+ query);
          HttpGet (search_url with_params query) false;
          LogInfo ("[API] Successfully fetched data for " +:+ query)];
     st_clock := S (st_clock s);
     st_filename := st_filename s |}.

(** An answer without records: a falsy value, or a list that has fewer
    than four elements or whose fourth element is falsy. *)
Definition answer_is_empty (data : json) : Prop :=
  Py.truthy data = false
  ∨ ∃ items,
      data = JArr items
      ∧ ((length items < 4)%nat
         ∨ ∃ m, items !! 3 = Some m ∧ Py.truthy m = false).

(** An answer of the SNP service with two records, the second one
    incomplete. *)
Definition two_records : json :=
  JArr [JInt 2; JArr [JStr "rs6311"; JStr "rs6313"]; JNull;
        JArr [record_rs6311; record_short]].

(** An answer of the SNP service without records. *)
Definition no_records : json :=
  JArr [JInt 0; JArr []; JNull; JArr []].

(** An answer whose second record is an empty list. *)
Definition empty_record : json :=
  JArr [JInt 2; JArr [JStr "rs6311"; JStr "rs6313"]; JNull;
        JArr [record_rs6311; JArr []]].

(** * The dbSNP functions of server.py *)

(** The functions are modelled as they are written: the decorator
    [server.function] is taken to register a function and leave it as it
    is, so that [get_snp_clinical_significance] calls the
    [get_snp_by_rs] of line 51. *)

(** What server.py takes from its platform. *)
Record platform : Type := {
  (* os.environ.get("NCBI_API_KEY") *)
  api_key : option string;
  (* the URL requests builds from a base URL and the query parameters *)
  request_url : string → list (string * string) → string;
  (* response.text *)
  response_text : response → string;
  (* json.dumps *)
  json_dumps : json → string;
  (* int(v) on a value that is no int *)
  py_int : json → outcome Z;
  (* what d[:n] raises on a dict: a TypeError before Python 3.12, a
     KeyError from it on *)
  dict_slice_error : Z → exn;
}.

Module Server.

Definition BASE_URL : string := "https://api.ncbi.nlm.nih.gov/variation/v0".

Definition ESEARCH_URL : string :=
  "https://eutils.ncbi.nlm.nih.gov/entrez/eutils/esearch.fcgi".

Definition no_clinical_data : string := "No clinical significance data found".

(** [s.replace("rs", "")]: the occurrences are removed from left to
    right, and what is left is not scanned again. *)
Fixpoint remove_rs (s : string) : string :=
  match s with
  | EmptyString => EmptyString
  | String c rest =>
      match rest with
      | String c' rest' =>
          if (Ascii.eqb c "r" && Ascii.eqb c' "s")%bool
          then remove_rs rest'
          else String c (remove_rs rest)
      | EmptyString => String c EmptyString
      end
  end.

(** [f"rs{rs_id.lower().replace('rs', '')}"] (lines 62-63 and 165-166). *)
Definition normalize (rs_id : string) : string :=
  "rs" +:+ remove_rs (Str.lower rs_id).

(** [requests.get(url, ...)]: requests follows redirects unless it is
    told not to. *)
Definition requests_get (w : world) (url : string) : M response :=
  client_get w (JStr url) true.

(** [int(v)]. *)
Definition to_int (p : platform) (v : json) : outcome Z :=
  match v with
  | JInt z => Ok z
  | _ => py_int p v
  end.

(** The [error_data] of [handle_api_error]: the body as JSON, or the
    text of the body when it is no JSON. *)
Definition error_data (p : platform) (r : response) : json :=
  match json_body r with
  | Ok data => data
  | Raise _ => JObj [("raw_text", JStr (response_text p r))]
  end.

(** [handle_api_error(response)] (lines 36-48). *)
Definition handle_api_error (p : platform) (r : response) : M json :=
  let error_data := error_data p r in
  log_error ("[API] Error " +:+ Str.of_Z (status_code r) +:+ ": "
               +:+ json_dumps p error_data);;
  mret (JObj [("success", JBool false);
              ("status_code", JInt (status_code r));
              ("error", error_data)]).

(** [get_snp_by_rs(rs_id)] (lines 51-87). *)
Definition get_snp_by_rs (w : world) (p : platform) (rs_id : string)
  : M json :=
  let normalized_rs_id := normalize rs_id in
  log_info ("[API] Requesting SNP data for " +:+ normalized_rs_id);;
  let url := BASE_URL +:+ "/refsnp/" +:+ normalized_rs_id in
  try_except
    (response ← requests_get w url;
     if (status_code response =? 200)%Z then
       data ← lift (json_body response);
       log_info ("[API] Successfully retrieved data for "
                   +:+ normalized_rs_id);;
       mret (JObj [("success", JBool true);
                   ("data", data);
                   ("rs_id", JStr normalized_rs_id)])
     else handle_api_error p response)
    (λ e,
       log_error ("[Error] Failed to retrieve SNP data: " +:+ str_exn e);;
       mret (JObj [("success", JBool false);
                   ("error", JStr (str_exn e))])).

(** The query parameters of the request of [search_snps]. *)
Definition search_params (p : platform) (term : string) (limit : Z)
  : list (string * string) :=
  [("db", "snp"); ("term", term); ("retmode", "json");
   ("retmax", Str.of_Z limit)]
  ++ match api_key p with
     | Some key => if String.eqb key "" then [] else [("api_key", key)]
     | None => []
     end.

(** One element of [snp_details]. *)
Definition snp_detail (w : world) (snp_id : json) : json :=
  JObj [("rs_id", JStr ("rs" +:+ py_str w snp_id)); ("numeric_id", snp_id)].

(** The loop of lines 126-134. *)
Definition snp_details (w : world) (p : platform) (id_list : json)
    (limit : Z) : outcome (list json) :=
  if Py.truthy id_list then
    shown ← Pyx.slice_to (dict_slice_error p limit) id_list limit;
    ids ← Py.iter shown;
    Ok (map (snp_detail w) ids)
  else Ok [].

(** What [search_snps] returns for the answer [data] (lines 122-142);
    nothing but an exception can come in the way. *)
Definition search_result (w : world) (p : platform) (term : string)
    (limit : Z) (data : json) : outcome json :=
  esearchresult ← Py.get data "esearchresult" (JObj []);
  id_list ← Py.get esearchresult "idlist" (JArr []);
  details ← snp_details w p id_list limit;
  esearchresult' ← Py.get data "esearchresult" (JObj []);
  count ← Py.get esearchresult' "count" (JInt 0);
  total_count ← to_int p count;
  returned_count ← Pyx.len id_list;
  Ok (JObj [("success", JBool true);
            ("search_term", JStr term);
            ("total_count", JInt total_count);
            ("returned_count", JInt (Z.of_nat returned_count));
            ("results", JArr details)]).

(** [search_snps(term, limit)] (lines 90-151). *)
Definition search_snps (w : world) (p : platform) (term : string)
    (limit : Z) : M json :=
  log_info ("[API] Searching SNPs with term: " +:+ term +:+ ", limit: "
              +:+ Str.of_Z limit);;
  let params := search_params p term limit in
  try_except
    (response ← requests_get w (request_url p ESEARCH_URL params);
     if (status_code response =? 200)%Z then
       data ← lift (json_body response);
       log_info ("[API] Successfully retrieved search results for '"
                   +:+ term +:+ "'");;
       lift (search_result w p term limit data)
     else handle_api_error p response)
    (λ e,
       log_error ("[Error] Failed to search SNPs: " +:+ str_exn e);;
       mret (JObj [("success", JBool false);
                   ("error", JStr (str_exn e))])).

(** [d.get("name")] in the comprehension of line 189. *)
Definition disease_name (d : json) : outcome json := Py.get d "name" JNull.

(** The dict appended for one clinical annotation (lines 186-191). *)
Definition clinical_entry (clinical_annotation : json) : outcome json :=
  accession ← Py.get clinical_annotation "accession" JNull;
  significance ← Py.get clinical_annotation "clinical_significance" JNull;
  diseases ← Py.get clinical_annotation "disease_names" (JArr []);
  ds ← Py.iter diseases;
  names ← Pyx.map_all disease_name ds;
  review_status ← Py.get clinical_annotation "review_status" JNull;
  Ok (JObj [("accession", accession);
            ("clinical_significance", significance);
            ("disease_names", JArr names);
            ("review_status", review_status)]).

(** The inner loop (lines 185-191) for one allele annotation. *)
Definition annotation_entries (annotation : json) : outcome (list json) :=
  clinical ← Py.get annotation "clinical" (JArr []);
  clinical_annotations ← Py.iter clinical;
  Pyx.map_all clinical_entry clinical_annotations.

(** [clinical_info] after the loops of lines 182-191: the first
    exception ends them. *)
Definition clinical_info (data : json) : outcome (list json) :=
  snapshot ← Py.get data "primary_snapshot_data" (JObj []);
  allele_annotations ← Py.get snapshot "allele_annotations" (JArr []);
  annotations ← Py.iter allele_annotations;
  entries ← Pyx.map_all annotation_entries annotations;
  Ok (concat entries).

(** [get_snp_clinical_significance(rs_id)] (lines 154-206). *)
Definition get_snp_clinical_significance (w : world) (p : platform)
    (rs_id : string) : M json :=
  let normalized_rs_id := normalize rs_id in
  log_info ("[API] Requesting clinical significance data for "
              +:+ normalized_rs_id);;
  full_data_result ← get_snp_by_rs w p normalized_rs_id;
  success ← lift (Py.get full_data_result "success" (JBool false));
  if negb (Py.truthy success) then mret full_data_result
  else
    data ← lift (Py.get full_data_result "data" (JObj []));
    try_except
      (info ← lift (clinical_info data);
       log_info ("[API] Successfully extracted clinical data for "
                   +:+ normalized_rs_id);;
       mret (JObj [("success", JBool true);
                   ("rs_id", JStr normalized_rs_id);
                   ("clinical_significance",
                    match info with
                    | [] => JStr no_clinical_data
                    | _ => JArr info
                    end)]))
      (λ e,
         log_error ("[Error] Failed to parse clinical significance: "
                      +:+ str_exn e);;
         mret (JObj [("success", JBool false);
                     ("rs_id", JStr normalized_rs_id);
                     ("error",
                      JStr ("Failed to parse clinical data: "
                              +:+ str_exn e))])).

End Server.

(** ** Vocabulary for server.py *)

(** The URL [get_snp_by_rs] requests. *)
Definition refsnp_url (rs_id : string) : string :=
  Server.BASE_URL +:+ "/refsnp/" +:+ Server.normalize rs_id.

(** The URL [search_snps] requests. *)
Definition esearch_url (p : platform) (term : string) (limit : Z) : string :=
  request_url p Server.ESEARCH_URL (Server.search_params p term limit).

(** The dict the two [except Exception] handlers of lines 82-87 and
    146-151 return. *)
Definition failure (msg : string) : json :=
  JObj [("success", JBool false); ("error", JStr msg)].

(** The dict [handle_api_error] returns. *)
Definition api_error (p : platform) (r : response) : json :=
  JObj [("success", JBool false);
        ("status_code", JInt (status_code r));
        ("error", Server.error_data p r)].

(** The state after a function of server.py has logged [first], made
    its request to [url] and logged [logs]. *)
Definition after_request (first : string) (url : string) (logs : list event)
    (s : state) : state :=
  {| st_files := st_files s;
     st_trace := st_trace s ++ LogInfo first :: HttpGet url true :: logs;
     st_clock := S (st_clock s);
     st_filename := st_filename s |}.

Definition is_digit (c : ascii) : bool :=
  (48 <=? Ascii.nat_of_ascii c)%nat && (Ascii.nat_of_ascii c <=? 57)%nat.

Fixpoint all_digits (s : string) : bool :=
  match s with
  | EmptyString => true
  | String c rest => is_digit c && all_digits rest
  end.

(** A platform without API key, whose [int] reads decimal numerals. *)
Definition sample_platform : platform :=
  {| api_key := None;
     request_url := plain_params;
     response_text := λ _, "<html>Not Found</html>";
     json_dumps := λ _, "{...}";
     py_int := λ v,
       match v with
       | JStr s =>
           match NilZero.int_of_string s with
           | Some i => Ok (Z.of_int i)
           | None => Raise (ValueError
                              ("invalid literal for int() with base 10: '"
                                 +:+ s +:+ "'"))
           end
       | _ => Raise (TypeError "int() argument must be a string or a number")
       end;
     dict_slice_error := λ _, TypeError "unhashable type: 'slice'" |}.

(** A world where every request is answered with the status [code] and
    a body that is no JSON. *)
Definition status_world (code : Z) : world :=
  sample_world
    (λ _ _ _,
       Ok {| status_code := code; content_type := Some "text/html";
             json_body := Raise (ValueError
                                   "Expecting value: line 1 column 1 (char 0)");
             content := [] |})
    (λ _, Ok None).

(** The state after [ev] was logged. *)
Definition logged (ev : event) (s : state) : state :=
  {| st_files := st_files s;
     st_trace := st_trace s ++ [ev];
     st_clock := st_clock s;
     st_filename := st_filename s |}.

(** The clinical annotations of an allele annotation. *)
Definition clinical_of (annotation : json) : list json :=
  match annotation with
  | JObj fields =>
      match default (JArr []) (Py.assoc "clinical" fields) with
      | JArr clinical => clinical
      | _ => []
      end
  | _ => []
  end.

(** A clinical annotation that is a dict whose "disease_names", when it
    has some, is a list of dicts. *)
Definition wf_clinical (clinical_annotation : json) : Prop :=
  ∃ fields ds,
    clinical_annotation = JObj fields
    ∧ default (JArr []) (Py.assoc "disease_names" fields) = JArr ds
    ∧ Forall is_dict ds.

(** An allele annotation that is a dict whose "clinical", when it has
    one, is a list of such clinical annotations. *)
Definition wf_annotation (annotation : json) : Prop :=
  ∃ fields clinical,
    annotation = JObj fields
    ∧ default (JArr []) (Py.assoc "clinical" fields) = JArr clinical
    ∧ Forall wf_clinical clinical.

(** A dict with exactly the four keys of an element of [clinical_info]. *)
Definition is_clinical_entry (entry : json) : Prop :=
  ∃ accession significance names review_status,
    entry = JObj [("accession", accession);
                  ("clinical_significance", significance);
                  ("disease_names", JArr names);
                  ("review_status", review_status)].

(** The number of clinical annotations of a list of allele annotations. *)
Definition clinical_count (annotations : list json) : nat :=
  sum_list (map (λ a, length (clinical_of a)) annotations).

(** What [get_snp_clinical_significance] returns when it has parsed
    the data. *)
Definition clinical_result (rs_id : string) (entries : list json) : json :=
  JObj [("success", JBool true);
        ("rs_id", JStr (Server.normalize rs_id));
        ("clinical_significance",
         match entries with
         | [] => JStr Server.no_clinical_data
         | _ => JArr entries
         end)].

(** What [get_snp_clinical_significance] returns when parsing the data
    raised. *)
Definition clinical_failure (rs_id msg : string) : json :=
  JObj [("success", JBool false);
        ("rs_id", JStr (Server.normalize rs_id));
        ("error", JStr ("Failed to parse clinical data: " +:+ msg))].

(** Two allele annotations, the first with two clinical annotations
    and the second with none. *)
Definition two_annotations : list json :=
  [JObj [("clinical",
          JArr [JObj [("accession", JStr "RCV000031194.5");
                      ("clinical_significance", JArr [JStr "pathogenic"]);
                      ("disease_names",
                       JArr [JObj [("name", JStr "Breast cancer")]; JObj []])];
                JObj [("review_status", JStr "reviewed_by_expert_panel")]])];
   JObj [("frequency", JArr [])]].

(** An answer of the variation service with these annotations. *)
Definition two_clinical : json :=
  JObj [("refsnp_id", JStr "397507444");
        ("primary_snapshot_data",
         JObj [("allele_annotations", JArr two_annotations)])].

(** An answer whose "primary_snapshot_data" is null. *)
Definition null_snapshot : json :=
  JObj [("refsnp_id", JStr "6311"); ("primary_snapshot_data", JNull)].

(** The state in which [get_snp_clinical_significance] returns when
    [get_snp_by_rs] got the data and [last] was logged after it. *)
Definition after_clinical (rs_id : string) (last : event) (s : state)
  : state :=
  logged last
    (after_request
       ("[API] Requesting SNP data for "
          +:+ Server.normalize (Server.normalize rs_id))
       (refsnp_url (Server.normalize rs_id))
       [LogInfo ("[API] Successfully retrieved data for "
                   +:+ Server.normalize (Server.normalize rs_id))]
       (logged (LogInfo ("[API] Requesting clinical significance data for "
                           +:+ Server.normalize rs_id)) s)).

(** An answer of esearch with three identifiers. *)
Definition three_ids : json :=
  JObj [("header", JObj [("type", JStr "esearch")]);
        ("esearchresult",
         JObj [("count", JStr "12"); ("retmax", JStr "3");
               ("idlist", JArr [JStr "6311"; JStr "6313"; JStr "6314"])])].

(** An answer of esearch whose "idlist" is null. *)
Definition null_idlist : json :=
  JObj [("esearchresult",
         JObj [("count", JStr "0"); ("idlist", JNull)])].

(** * Properties *)

(** ** The loop *)

Section Loop.
Variable body : string → M string.
Variable I : state → Prop.
Variable Q : string → string → Prop.
Hypothesis body_ok : ∀ x s, I s →
  ∃ frag s', body x s = (Ok frag, s') ∧ Q x frag ∧ I s'.

Lemma for_each_inv xs : ∀ results s, I s →
  ∃ frags s', for_each body xs results s = (Ok (results ++ frags), s')
    ∧ Forall2 Q xs frags ∧ I s'.
Proof.
  induction xs as [|x xs IH]; intros results s Hs.
  - exists [], s. rewrite app_nil_r. auto.
  - destruct (body_ok x s Hs) as (frag & s1 & Hb & Hq & Hs1).
    destruct (IH (results ++ [frag]) s1 Hs1)
      as (frags & s2 & Hl & Hqs & Hs2).
    exists (frag :: frags), s2. split; [|auto].
    cbn [for_each]. unfold mbind, M_bind. rewrite Hb, Hl.
    by rewrite <- app_assoc.
Qed.
End Loop.

Lemma for_each_app body xs ys : ∀ results s frags s',
  for_each body xs results s = (Ok frags, s') →
  for_each body (xs ++ ys) results s = for_each body ys frags s'.
Proof.
  induction xs as [|x xs IH]; intros results s frags s' H.
  - cbn in H. injection H as <- <-. reflexivity.
  - cbn [for_each app] in *. unfold mbind, M_bind in *.
    destruct (body x s) as [[frag|e] s1]; [|discriminate].
    by apply IH.
Qed.

(** ** Running one turn of a loop on an unknown world *)

Ltac exec :=
  cbv [FullText.process_doi FullText.fetch_and_convert FullText.cleanup
       Articles.process_doi Articles.resolve Articles.fetch_metadata
       Articles.locate_full_text
       client_get raise_for_status
       write_file convert_to_markdown path_exists os_remove read_filename
       try_except try_finally attempt mbind M_bind mret M_ret raise lift emit
       tick clock set_filename set_files get_files log_info log_error
       st_files st_trace st_clock st_filename].

Ltac run :=
  exec; repeat (rewrite ?lookup_insert_eq; case_match; simplify_eq; exec).

Ltac fs_done :=
  repeat match goal with
  | H : context [∅ !! _] |- _ => rewrite lookup_empty in H
  | H : context [<[?k:=_]> _ !! ?k] |- _ => rewrite lookup_insert_eq in H
  end; simplify_eq;
  rewrite ?delete_insert_eq, ?delete_empty; try done.

Ltac trace_eq := rewrite <- ?app_assoc; cbn [app]; reflexivity.

Lemma full_text_step w td doi s :
  ∃ frag evs s',
    FullText.process_doi w td doi s = (Ok frag, s')
    ∧ fragment_of FullText.header doi frag
    ∧ st_trace s' =
        st_trace s ++ LogInfo ("[PDF] Processing DOI: " +:+ doi)
          :: HttpGet (FullText.unpaywall_url w doi) false :: evs
    ∧ Forall (λ ev, is_metapub_call ev = false) evs
    ∧ (st_files s = ∅ → st_files s' = ∅).
Proof.
  destruct s as [fs tr ck fn]. run.
  all: eexists _, _, _; split; [reflexivity|].
  all: split; [eexists; reflexivity|].
  all: split; [cbn; trace_eq|].
  all: split; [repeat constructor|].
  all: cbn; intros ->; fs_done.
Qed.

Lemma articles_step w doi s :
  ∃ frag evs s',
    Articles.process_doi w doi s = (Ok frag, s')
    ∧ fragment_of Articles.header doi frag
    ∧ st_trace s' =
        st_trace s ++ LogInfo ("[Article] Processing DOI: " +:+ doi)
          :: CallDoi2pmid doi :: evs
    ∧ Forall (λ ev, is_http_get ev = false) evs
    ∧ st_files s' = st_files s.
Proof.
  destruct s as [fs tr ck fn]. run.
  all: eexists _, _, _; split; [reflexivity|].
  all: split; [eexists; rewrite <- ?app_assoc; reflexivity|].
  all: split; [cbn; trace_eq|].
  all: split; [repeat constructor|reflexivity].
Qed.

(** ** The two loops *)

Lemma full_text_turn w doi s :
  full_text_inv s →
  ∃ frag s',
    FullText.process_doi w (mkdtemp w) doi s = (Ok frag, s')
    ∧ fragment_of FullText.header doi frag
    ∧ full_text_inv s'.
Proof.
  intros [Hfs Htr].
  destruct (full_text_step w (mkdtemp w) doi s)
    as (frag & evs & s' & Hrun & Hfrag & Htr' & Hevs & Hfs').
  exists frag, s'. repeat split; auto.
  rewrite Htr'. apply Forall_app. split; [done|].
  by repeat constructor.
Qed.

Lemma full_text_loop_from w dois results s :
  full_text_inv s →
  ∃ frags s',
    for_each (FullText.process_doi w (mkdtemp w)) dois results s
      = (Ok (results ++ frags), s')
    ∧ Forall2 (fragment_of FullText.header) dois frags
    ∧ full_text_inv s'.
Proof.
  apply (for_each_inv _ full_text_inv (fragment_of FullText.header)).
  apply full_text_turn.
Qed.

Lemma full_text_loop w dois s :
  full_text_inv s →
  ∃ frags s',
    FullText.process_all w (mkdtemp w) dois s = (Ok frags, s')
    ∧ Forall2 (fragment_of FullText.header) dois frags
    ∧ full_text_inv s'.
Proof. apply (full_text_loop_from w dois []). Qed.

Lemma articles_loop w dois s :
  articles_inv s →
  ∃ frags s',
    Articles.process_all w dois s = (Ok frags, s')
    ∧ Forall2 (fragment_of Articles.header) dois frags
    ∧ articles_inv s'.
Proof.
  intros Hs. unfold Articles.process_all.
  apply (for_each_inv _ articles_inv (fragment_of Articles.header))
    with (results := []); [|done].
  clear. intros doi s Htr.
  destruct (articles_step w doi s)
    as (frag & evs & s' & Hrun & Hfrag & Htr' & Hevs & _).
  exists frag, s'. repeat split; auto.
  unfold articles_inv. rewrite Htr'. apply Forall_app. split; [done|].
  by repeat constructor.
Qed.

Lemma loop_start_inv w : full_text_inv (loop_start w).
Proof. split; [done|]. by repeat constructor. Qed.

Lemma collect_run w dois frags s :
  FullText.process_all w (mkdtemp w) dois (loop_start w) = (Ok frags, s) →
  st_files s = ∅ →
  FullText.collect w dois init = (Ok frags, after_rmdir w s).
Proof.
  intros Hloop Hfs.
  unfold FullText.collect, try_finally, mbind, M_bind.
  cbv [emit init st_files st_trace st_clock st_filename app].
  unfold loop_start in Hloop. rewrite Hloop.
  cbv [FullText.remove_temp_dir try_except os_rmdir mbind M_bind get_files
       log_error emit raise mret M_ret after_rmdir rmdir_events
       st_files st_trace st_clock st_filename].
  rewrite bool_decide_true by done.
  destruct (rmdir_error w); by rewrite <- ?app_assoc.
Qed.

Lemma report_cases_full_text (dois frags : list string) :
  Forall2 (fragment_of FullText.header) dois frags →
  FullText.report frags =
    match dois with
    | [] => FullText.sentinel
    | _ => Str.join FullText.separator frags
    end.
Proof. by destruct 1. Qed.

Lemma report_cases_articles (dois frags : list string) :
  Forall2 (fragment_of Articles.header) dois frags →
  Articles.report frags =
    match dois with
    | [] => Articles.sentinel
    | _ => Str.join Articles.separator frags
    end.
Proof. by destruct 1. Qed.

(** ** One fragment per identifier *)

(** C1. For every batch, each of the two tools returns a report built
    from a list of fragments that has exactly one fragment per input
    identifier, in the order of the input (the i-th fragment opens with
    the header lines naming the i-th identifier); the report is these
    fragments joined with the separator made of a blank line, ten equals
    signs and a blank line (for an empty batch, the sentinel). *)
Theorem one_fragment_per_identifier (w : world) (dois : list string) :
  (∃ frags s',
     FullText.collect w dois init = (Ok frags, s')
     ∧ Forall2 (fragment_of FullText.header) dois frags
     ∧ length frags = length dois
     ∧ FullText.get_full_text_markdown w dois init =
         (Ok match dois with
             | [] => FullText.sentinel
             | _ => Str.join FullText.separator frags
             end, s'))
  ∧
  (∃ frags s',
     Articles.collect w dois init = (Ok frags, s')
     ∧ Forall2 (fragment_of Articles.header) dois frags
     ∧ length frags = length dois
     ∧ Articles.get_articles w dois init =
         (Ok match dois with
             | [] => Articles.sentinel
             | _ => Str.join Articles.separator frags
             end, s')).
Proof.
  split.
  - destruct (full_text_loop w dois (loop_start w) (loop_start_inv w))
      as (frags & s & Hloop & Hfrags & Hfs & _).
    pose proof (collect_run w dois frags s Hloop Hfs) as Hc.
    exists frags, (after_rmdir w s). repeat split; auto.
    + symmetry. by eapply Forall2_length.
    + unfold FullText.get_full_text_markdown, mbind, M_bind. rewrite Hc.
      by rewrite (report_cases_full_text dois).
  - destruct (articles_loop w dois init) as (frags & s & Hloop & Hfrags & _).
    { constructor. }
    exists frags, s. repeat split; auto.
    + symmetry. by eapply Forall2_length.
    + unfold Articles.get_articles, Articles.collect, mbind, M_bind.
      rewrite Hloop. by rewrite (report_cases_articles dois).
Qed.

(** ** The temporary files *)

(** C2. While [get_full_text_markdown] runs on a batch, at every return
    to the loop (after the identifiers of any prefix [pre] of the batch,
    whatever happened to them: success, a rejected content type, any
    exception) the temporary directory holds no file; at the end of the
    batch [os.rmdir] is attempted on the directory, and when it fails the
    failure is logged and the tool still returns its report. *)
Theorem temporary_files_are_removed (w : world) (pre post : list string) :
  ∃ frags s1 frags' s2,
    FullText.process_all w (mkdtemp w) pre (loop_start w) = (Ok frags, s1)
    ∧ st_files s1 = ∅
    ∧ FullText.process_all w (mkdtemp w) (pre ++ post) (loop_start w) =
        for_each (FullText.process_doi w (mkdtemp w)) post frags s1
    ∧ FullText.process_all w (mkdtemp w) (pre ++ post) (loop_start w) =
        (Ok frags', s2)
    ∧ FullText.get_full_text_markdown w (pre ++ post) init =
        (Ok (FullText.report frags'), after_rmdir w s2)
    ∧ st_files (after_rmdir w s2) = ∅
    ∧ st_trace (after_rmdir w s2) = st_trace s2 ++ rmdir_events w.
Proof.
  destruct (full_text_loop w pre (loop_start w) (loop_start_inv w))
    as (frags & s1 & Hpre & _ & Hfs1 & _).
  destruct (full_text_loop w (pre ++ post) (loop_start w) (loop_start_inv w))
    as (frags' & s2 & Hall & _ & Hfs2 & _).
  exists frags, s1, frags', s2. repeat split; auto.
  - unfold FullText.process_all in *. by apply for_each_app.
  - unfold FullText.get_full_text_markdown, mbind, M_bind.
    by rewrite (collect_run w _ _ _ Hall Hfs2).
Qed.

(** ** The empty batch *)

(** C9. On an empty list of identifiers [get_full_text_markdown] returns
    "No PDFs were processed successfully." and [get_articles] returns
    "No articles were processed successfully."; neither is the empty
    string. *)
Theorem empty_batch_gives_sentinel (w : world) :
  fst (FullText.get_full_text_markdown w [] init)
    = Ok "No PDFs were processed successfully."
  ∧ fst (Articles.get_articles w [] init)
    = Ok "No articles were processed successfully."
  ∧ FullText.sentinel ≠ "" ∧ Articles.sentinel ≠ "".
Proof.
  repeat split; try discriminate.
  unfold FullText.get_full_text_markdown, mbind, M_bind.
  by rewrite (collect_run w [] [] (loop_start w)).
Qed.

(** ** The unbound [filename] *)

Lemma unbound_step w td doi s :
  st_filename s = None →
  fails_before_filename w (st_clock s) doi = true →
  ∃ s', FullText.process_doi w td doi s = (Ok (unbound_fragment doi), s')
        ∧ st_filename s' = None ∧ st_files s' = st_files s.
Proof.
  destruct s as [fs tr ck fn]. cbn [st_filename st_clock st_files].
  intros -> Hfail. unfold fails_before_filename in Hfail.
  run; eexists; repeat split; reflexivity.
Qed.

(** C10. When the turn of the first identifier of a batch fails before
    its file name is computed (the aggregator request raises or is
    refused, its body is no JSON, or no PDF URL can be chosen), the
    [finally] clause reads the unbound [filename]; the fragment of that
    identifier is the header followed by the text of that name-binding
    error, whatever the first failure was, and the batch goes on: there
    is still one fragment for it and one for each later identifier. *)
Theorem unbound_filename_replaces_first_error (w : world) (doi : string)
    (rest : list string) :
  fails_before_filename w 0 doi = true →
  ∃ frags s',
    FullText.collect w (doi :: rest) init
      = (Ok (unbound_fragment doi :: frags), s')
    ∧ Forall2 (fragment_of FullText.header) rest frags
    ∧ fst (FullText.get_full_text_markdown w (doi :: rest) init)
      = Ok (Str.join FullText.separator (unbound_fragment doi :: frags))
    ∧ unbound_fragment doi =
        "PDF Processing Results:" +:+ FullText.nl +:+ "DOI: " +:+ doi
          +:+ FullText.nl
          +:+ "Error: cannot access local variable 'filename' where it is not associated with a value".
Proof.
  intros Hfail.
  destruct (unbound_step w (mkdtemp w) doi (loop_start w) eq_refl Hfail)
    as (s1 & Hstep & _ & Hfs1).
  destruct (full_text_step w (mkdtemp w) doi (loop_start w))
    as (frag & evs & s1' & Hstep' & _ & Htr & Hevs & _).
  rewrite Hstep in Hstep'. injection Hstep' as <- <-.
  assert (full_text_inv s1) as Hinv.
  { split; [by rewrite Hfs1|]. rewrite Htr. by repeat constructor. }
  destruct (full_text_loop_from w rest [unbound_fragment doi] s1 Hinv)
    as (frags & s2 & Hrest & Hfrags & Hfs2 & _).
  assert (FullText.process_all w (mkdtemp w) (doi :: rest) (loop_start w)
          = (Ok (unbound_fragment doi :: frags), s2)) as Hall.
  { unfold FullText.process_all. cbn [for_each]. unfold mbind, M_bind.
    by rewrite Hstep. }
  pose proof (collect_run w _ _ _ Hall Hfs2) as Hc.
  exists frags, (after_rmdir w s2). repeat split; auto.
  unfold FullText.get_full_text_markdown, mbind, M_bind. by rewrite Hc.
Qed.

Lemma unbound_filename_replaces_first_error_witness :
  ∃ frags s',
    FullText.collect refusing_world ["10.1000/refused"; "10.1000/next"] init
      = (Ok (unbound_fragment "10.1000/refused" :: frags), s')
    ∧ Forall2 (fragment_of FullText.header) ["10.1000/next"] frags
    ∧ fst (FullText.get_full_text_markdown refusing_world
             ["10.1000/refused"; "10.1000/next"] init)
      = Ok (Str.join FullText.separator
              (unbound_fragment "10.1000/refused" :: frags))
    ∧ unbound_fragment "10.1000/refused" =
        "PDF Processing Results:" +:+ FullText.nl +:+ "DOI: "
          +:+ "10.1000/refused" +:+ FullText.nl
          +:+ "Error: cannot access local variable 'filename' where it is not associated with a value".
Proof.
  apply (unbound_filename_replaces_first_error refusing_world
           "10.1000/refused" ["10.1000/next"]).
  reflexivity.
Defined.

(** C3 (the code at a failing input). Every request is refused with
    the HTTP error "connection refused".  The inner handler logs that
    error, but the report of the one-identifier batch holds the text of
    the name-binding error of [filename] instead: neither the detail of
    the refused request nor the label of the stage it failed in
    reaches the fragment. *)
Theorem refused_request_detail_is_lost :
  FullText.get_full_text_markdown refusing_world ["10.1000/refused"] init =
    (Ok (Str.join FullText.nl
           ["PDF Processing Results:"; "DOI: 10.1000/refused";
            "Error: cannot access local variable 'filename' where it is not associated with a value"]),
     {| st_files := ∅;
        st_trace :=
          [Mkdtemp "/tmp/pdf_processing_a1b2";
           LogInfo "[PDF] Processing DOI: 10.1000/refused";
           HttpGet "https://api.unpaywall.org/v2/10.1000/refused?email=matthews1000140@gmail.com" false;
           LogError "[Error] API or download error for DOI 10.1000/refused: connection refused";
           LogError "[Error] Unexpected error processing DOI 10.1000/refused: cannot access local variable 'filename' where it is not associated with a value";
           Rmdir "/tmp/pdf_processing_a1b2"];
        st_clock := 1;
        st_filename := None |})
  ∧ match fst (FullText.get_full_text_markdown refusing_world
                 ["10.1000/refused"] init) with
    | Ok report =>
        Str.contains "connection refused" report = false
        ∧ Str.contains "Failed to retrieve or download PDF" report = false
    | Raise _ => False
    end.
Proof. by vm_compute. Qed.

(** ** The selection policy *)

Lemma first_pdf_location_find (cands : list json) :
  Forall is_dict cands →
  FullText.first_pdf_location cands =
    Ok (default JNull (List.find exposes_pdf_url cands)).
Proof.
  induction 1 as [|c cands Hc _ IH]; [done|].
  destruct c as [| | | | |fields]; try done.
  cbn [FullText.first_pdf_location List.find]. unfold exposes_pdf_url.
  cbn [Py.get field mbind outcome_bind].
  by destruct (Py.truthy _).
Qed.

Lemma find_exposes (cands : list json) c :
  List.find exposes_pdf_url cands = Some c → exposes_pdf_url c = true.
Proof. intros H. by apply List.find_some in H as [_ ?]. Qed.

Lemma find_none_head c (cands : list json) :
  List.find exposes_pdf_url (c :: cands) = None → exposes_pdf_url c = false.
Proof. cbn. by destruct (exposes_pdf_url c). Qed.

Lemma choose_pdf_url_selected (fields : list (string * json)) is_oa cands :
  Py.assoc "is_oa" fields = Some is_oa →
  Py.truthy is_oa = true →
  Py.assoc "oa_locations" fields = Some (JArr cands) →
  cands ≠ [] →
  Forall is_dict cands →
  download_events (FullText.choose_pdf_url (JObj fields))
    = download_requests (selected_url cands).
Proof.
  intros Hoa Htrue Hlocs Hne Hdict.
  unfold FullText.choose_pdf_url, FullText.best_oa_location.
  cbn [Py.get mbind outcome_bind]. rewrite Hoa. cbn [default from_option id].
  rewrite Htrue, Hlocs. cbn [default from_option id].
  cbn [Py.iter mbind outcome_bind]. rewrite first_pdf_location_find by done.
  unfold selected_url.
  destruct (List.find exposes_pdf_url cands) as [c|] eqn:Hfind;
    cbn [default from_option id].
  - pose proof (find_exposes _ _ Hfind) as Hc. unfold exposes_pdf_url in Hc.
    destruct c as [| | | | |cf]; try done. cbn [field] in *.
    destruct cf as [|kv cf]; [done|].
    cbn [Py.truthy negb andb Py.get mbind outcome_bind].
    rewrite Hc. cbn [mbind outcome_bind]. rewrite Hc. cbn [negb].
    unfold download_events, download_requests.
    destruct (default JNull _) as [| | |u| |]; try done.
    by destruct u.
  - destruct cands as [|c cands]; [done|].
    pose proof (find_none_head _ _ Hfind) as Hc. unfold exposes_pdf_url in Hc.
    apply Forall_cons in Hdict as [Hd _].
    destruct c as [| | | | |cf]; try done. cbn [field] in *.
    cbn [Py.truthy negb andb Py.index0].
    destruct cf as [|kv cf]; [done|].
    cbn [Py.truthy negb andb Py.get mbind outcome_bind].
    rewrite Hc. cbn [mbind outcome_bind].
    unfold download_events, download_requests.
    destruct (default JNull (Py.assoc "url" _)) as [|b|z|u|items|ufields];
      cbn; try done.
    + by destruct b.
    + by destruct (negb _).
    + by destruct u.
    + by destruct items.
    + by destruct ufields.
Qed.

Lemma download_step w td doi s resp data :
  http_get w (st_clock s) (FullText.unpaywall_url w doi) false = Ok resp →
  is_success resp = true →
  json_body resp = Ok data →
  ∃ frag evs s',
    FullText.process_doi w td doi s = (Ok frag, s')
    ∧ st_trace s' =
        st_trace s ++ LogInfo ("[PDF] Processing DOI: " +:+ doi)
          :: HttpGet (FullText.unpaywall_url w doi) false
          :: download_events (FullText.choose_pdf_url data) ++ evs
    ∧ Forall (λ ev, is_http_get ev = false) evs.
Proof.
  destruct s as [fs tr ck fn]. cbn [st_clock st_trace].
  intros Hget Hok Hjson. exec. rewrite Hget. exec. rewrite Hok. exec.
  rewrite Hjson. run.
  all: cbv [download_events].
  all: eexists _, _, _; split; [reflexivity|].
  all: split; [exec; trace_eq|repeat constructor].
Qed.

(** C4. When the aggregator answers with a truthy [is_oa] and a
    non-empty list of candidate locations (JSON objects), the turn of
    the identifier issues, right after the aggregator request, the
    download request for the URL the policy selects: the PDF URL of the
    first candidate that exposes one, else the generic URL of the first
    candidate (no download request when that candidate has no URL
    either); it issues no other request. *)
Theorem download_url_follows_selection_policy (w : world) (td doi : string)
    (s : state) (resp : response) (fields : list (string * json))
    (is_oa : json) (cands : list json) :
  http_get w (st_clock s) (FullText.unpaywall_url w doi) false = Ok resp →
  is_success resp = true →
  json_body resp = Ok (JObj fields) →
  Py.assoc "is_oa" fields = Some is_oa →
  Py.truthy is_oa = true →
  Py.assoc "oa_locations" fields = Some (JArr cands) →
  cands ≠ [] →
  Forall is_dict cands →
  ∃ frag evs s',
    FullText.process_doi w td doi s = (Ok frag, s')
    ∧ st_trace s' =
        st_trace s ++ LogInfo ("[PDF] Processing DOI: " +:+ doi)
          :: HttpGet (FullText.unpaywall_url w doi) false
          :: download_requests (selected_url cands) ++ evs
    ∧ Forall (λ ev, is_http_get ev = false) evs.
Proof.
  intros Hget Hok Hjson Hoa Htrue Hlocs Hne Hdict.
  rewrite <- (choose_pdf_url_selected fields is_oa cands) by done.
  by eapply download_step.
Qed.

Lemma download_url_follows_selection_policy_witness :
  selected_url two_candidates = JStr "https://repository.example/paper.pdf"
  ∧ ∃ frag evs s',
      FullText.process_doi (open_access_world "application/pdf")
        "/tmp/pdf_processing_a1b2" "10.1000/open" init = (Ok frag, s')
      ∧ st_trace s' =
          st_trace init ++ LogInfo ("[PDF] Processing DOI: " +:+ "10.1000/open")
            :: HttpGet (FullText.unpaywall_url (open_access_world "application/pdf")
                          "10.1000/open") false
            :: download_requests (selected_url two_candidates) ++ evs
      ∧ Forall (λ ev, is_http_get ev = false) evs.
Proof.
  split; [reflexivity|].
  apply (download_url_follows_selection_policy
           (open_access_world "application/pdf") "/tmp/pdf_processing_a1b2"
           "10.1000/open" init (json_response (JObj open_access_fields))
           open_access_fields (JBool true) two_candidates);
    try reflexivity.
  - discriminate.
  - repeat constructor.
Defined.

(** ** Rejected content types *)

(** C6. When the download succeeds (a 2xx answer) and the content type
    it declares (the empty string when the header is missing) does not
    contain "pdf" once lowercased, the acquisition raises the error
    "Not a PDF file (content-type: ...)" carrying that content type, the
    fragment reports it, and the turn opens or writes no file and
    converts nothing: its effects are the two requests, the log line and
    the existence test of the [finally] clause. *)
Theorem non_pdf_content_type_is_rejected (w : world) (td doi : string)
    (s : state) (resp : response) (data best : json) (u : string)
    (pdf_response : response) :
  st_files s = ∅ →
  http_get w (st_clock s) (FullText.unpaywall_url w doi) false = Ok resp →
  is_success resp = true →
  json_body resp = Ok data →
  FullText.choose_pdf_url data = Ok (best, JStr u) →
  http_get w (S (st_clock s)) u true = Ok pdf_response →
  is_success pdf_response = true →
  Str.contains "pdf" (Str.lower (default "" (content_type pdf_response)))
    = false →
  let ct := default "" (content_type pdf_response) in
  fst (FullText.fetch_and_convert w td doi s)
    = Raise (ValueError (not_a_pdf_message ct))
  ∧ FullText.process_doi w td doi s =
      (Ok (not_a_pdf_fragment doi ct),
       {| st_files := ∅;
          st_trace :=
            st_trace s ++
              [LogInfo ("[PDF] Processing DOI: " +:+ doi);
               HttpGet (FullText.unpaywall_url w doi) false;
               HttpGet u true;
               LogError ("[Error] Failed to process PDF for DOI " +:+ doi
                           +:+ ": " +:+ not_a_pdf_message ct);
               PathExists (item_path td doi)];
          st_clock := S (S (st_clock s));
          st_filename := Some (item_path td doi) |}).
Proof.
  destruct s as [fs tr ck fn]. cbn [st_clock st_trace st_files].
  intros -> Hget Hok Hjson Hurl Hget2 Hok2 Hct.
  split.
  - exec. rewrite Hget. exec. rewrite Hok. exec. rewrite Hjson. exec.
    rewrite Hurl. exec. rewrite Hget2. exec. rewrite Hok2. exec.
    rewrite Hct. reflexivity.
  - exec. rewrite Hget. exec. rewrite Hok. exec. rewrite Hjson. exec.
    rewrite Hurl. exec. rewrite Hget2. exec. rewrite Hok2. exec.
    rewrite Hct. cbn [negb]. exec. cbn [is_http_error str_exn]. exec.
    rewrite lookup_empty.
    unfold not_a_pdf_fragment, not_a_pdf_message, item_path.
    f_equal. f_equal. trace_eq.
Qed.

Lemma non_pdf_content_type_is_rejected_witness :
  fst (FullText.fetch_and_convert (open_access_world "text/html")
         "/tmp/pdf_processing_a1b2" "10.1000/open" init)
    = Raise (ValueError "Not a PDF file (content-type: text/html)")
  ∧ FullText.process_doi (open_access_world "text/html")
      "/tmp/pdf_processing_a1b2" "10.1000/open" init =
      (Ok (not_a_pdf_fragment "10.1000/open" "text/html"),
       {| st_files := ∅;
          st_trace :=
            [LogInfo "[PDF] Processing DOI: 10.1000/open";
             HttpGet "https://api.unpaywall.org/v2/10.1000/open?email=matthews1000140@gmail.com" false;
             HttpGet "https://repository.example/paper.pdf" true;
             LogError "[Error] Failed to process PDF for DOI 10.1000/open: Not a PDF file (content-type: text/html)";
             PathExists "/tmp/pdf_processing_a1b2/10.1000_open.pdf"];
          st_clock := 2;
          st_filename := Some "/tmp/pdf_processing_a1b2/10.1000_open.pdf" |}).
Proof.
  apply (non_pdf_content_type_is_rejected (open_access_world "text/html")
           "/tmp/pdf_processing_a1b2" "10.1000/open" init
           (json_response (JObj open_access_fields))
           (JObj open_access_fields)
           (JObj [("url", JStr "https://repository.example/record");
                  ("url_for_pdf", JStr "https://repository.example/paper.pdf");
                  ("host_type", JStr "repository")])
           "https://repository.example/paper.pdf"
           (file_response "text/html")); reflexivity.
Defined.

(** ** Records that are not open access *)

Lemma not_open_access_raises (data : json) :
  not_open_access data = true →
  FullText.choose_pdf_url data
    = Raise (ValueError "No open access PDF available").
Proof.
  destruct data as [| | | | |fields]; try done. unfold not_open_access.
  unfold FullText.choose_pdf_url, FullText.best_oa_location.
  cbn [Py.get mbind outcome_bind].
  destruct (Py.truthy (default (JBool false) (Py.assoc "is_oa" fields)));
    [|done].
  cbn [negb orb].
  destruct (Py.assoc "oa_locations" fields) as [[| | | |[|c cands]|]|];
    by try done.
Qed.

Lemma append_inj_l (p a b : string) : p +:+ a = p +:+ b → a = b.
Proof.
  induction p as [|c p IH]; cbn; [done|].
  intros H. injection H as H. by apply IH.
Qed.

Lemma fragments_differ (doi msg : string) :
  not_open_access_fragment doi ≠ transport_failure_fragment doi msg.
Proof.
  unfold not_open_access_fragment, transport_failure_fragment, Str.join.
  cbn [FullText.header app String.concat]. intros H.
  do 3 apply append_inj_l in H.
  discriminate H.
Qed.

Lemma transport_failure_step w td doi s f msg :
  st_filename s = Some f →
  st_files s = ∅ →
  http_get w (st_clock s) (FullText.unpaywall_url w doi) false
    = Raise (HTTPError msg) →
  ∃ s', FullText.process_doi w td doi s
        = (Ok (transport_failure_fragment doi msg), s').
Proof.
  destruct s as [fs tr ck fn]. cbn [st_clock st_files st_filename].
  intros -> -> Hget. exec. rewrite Hget. exec. cbn [is_http_error]. exec.
  rewrite lookup_empty. by eexists.
Qed.

(** C5 (amended). When the aggregator answers that the record is not
    open access, or gives no candidate location, and [filename] was
    assigned in an earlier turn of the loop, the fragment is the header
    followed by "Error: Failed to process PDF - No open access PDF
    available": an error line with a fixed reason that is not taken from
    the aggregator's answer; its label differs from the label
    "Failed to retrieve or download PDF" of a transport failure, and no
    download is attempted. *)
Theorem not_open_access_is_reported (w : world) (td doi : string)
    (s : state) (f : string) (resp : response) (data : json) :
  st_filename s = Some f →
  st_files s = ∅ →
  http_get w (st_clock s) (FullText.unpaywall_url w doi) false = Ok resp →
  is_success resp = true →
  json_body resp = Ok data →
  not_open_access data = true →
  FullText.process_doi w td doi s =
    (Ok (not_open_access_fragment doi),
     {| st_files := ∅;
        st_trace :=
          st_trace s ++
            [LogInfo ("[PDF] Processing DOI: " +:+ doi);
             HttpGet (FullText.unpaywall_url w doi) false;
             LogError ("[Error] Failed to process PDF for DOI " +:+ doi
                         +:+ ": No open access PDF available");
             PathExists f];
        st_clock := S (st_clock s);
        st_filename := Some f |})
  ∧ ∀ msg, not_open_access_fragment doi ≠ transport_failure_fragment doi msg.
Proof.
  destruct s as [fs tr ck fn]. cbn [st_clock st_files st_filename st_trace].
  intros -> -> Hget Hok Hjson Hclosed. split; [|apply fragments_differ].
  exec. rewrite Hget. exec. rewrite Hok. exec. rewrite Hjson. exec.
  rewrite (not_open_access_raises data Hclosed). exec.
  cbn [is_http_error str_exn]. exec. rewrite lookup_empty.
  unfold not_open_access_fragment. f_equal. f_equal. trace_eq.
Qed.

Lemma not_open_access_is_reported_witness :
  FullText.process_doi mixed_world "/tmp/pdf_processing_a1b2" "10.1000/closed"
    {| st_files := ∅; st_trace := []; st_clock := 2;
       st_filename := Some "/tmp/pdf_processing_a1b2/10.1000_open.pdf" |} =
    (Ok (not_open_access_fragment "10.1000/closed"),
     {| st_files := ∅;
        st_trace :=
          [LogInfo "[PDF] Processing DOI: 10.1000/closed";
           HttpGet "https://api.unpaywall.org/v2/10.1000/closed?email=matthews1000140@gmail.com" false;
           LogError "[Error] Failed to process PDF for DOI 10.1000/closed: No open access PDF available";
           PathExists "/tmp/pdf_processing_a1b2/10.1000_open.pdf"];
        st_clock := 3;
        st_filename := Some "/tmp/pdf_processing_a1b2/10.1000_open.pdf" |})
  ∧ ∀ msg, not_open_access_fragment "10.1000/closed"
           ≠ transport_failure_fragment "10.1000/closed" msg.
Proof.
  apply (not_open_access_is_reported mixed_world "/tmp/pdf_processing_a1b2"
           "10.1000/closed"
           {| st_files := ∅; st_trace := []; st_clock := 2;
              st_filename := Some "/tmp/pdf_processing_a1b2/10.1000_open.pdf" |}
           "/tmp/pdf_processing_a1b2/10.1000_open.pdf"
           (json_response closed_access_data) closed_access_data);
    reflexivity.
Defined.

(** C5 (counterexample). The aggregator answers that "10.1000/closed"
    is not open access and says why ("embargoed until 2031"); the
    fragment of that identifier is an error line with the fixed reason
    "No open access PDF available", and the reason the aggregator gave
    appears nowhere in the report. *)
Lemma closed_access_reason_is_not_reported :
  not_open_access closed_access_data = true
  ∧ field "reason" closed_access_data = JStr "embargoed until 2031"
  ∧ fst (FullText.get_full_text_markdown mixed_world
           ["10.1000/open"; "10.1000/closed"] init)
    = Ok (Str.join FullText.separator
            [Str.join FullText.nl
               ["PDF Processing Results:"; "DOI: 10.1000/open";
                "Open Access Source: repository"; ""; "Markdown Content:";
                "# Title"];
             Str.join FullText.nl
               ["PDF Processing Results:"; "DOI: 10.1000/closed";
                "Error: Failed to process PDF - No open access PDF available"]])
  ∧ match fst (FullText.get_full_text_markdown mixed_world
                 ["10.1000/open"; "10.1000/closed"] init) with
    | Ok report => Str.contains "embargoed until 2031" report = false
    | Raise _ => False
    end.
Proof. by vm_compute. Qed.

(** ** Failed resolution *)

(** C8. When [doi2pmid] raises or returns nothing for an identifier,
    its fragment in [get_articles] is the header followed by the line
    "Error: Could not retrieve PMID - ..." and nothing else (no
    metadata, abstract or full-text line); the only remote call of the
    turn is the one call to the resolver (no retry, no call to the
    metadata service or the finder), and the loop goes on with the next
    identifier. *)
Theorem failed_resolution_is_reported (w : world) (doi : string)
    (rest results : list string) (s : state) (msg : string) :
  resolution_error w (st_clock s) doi = Some msg →
  Articles.process_doi w doi s =
    (Ok (unresolved_fragment doi msg),
     {| st_files := st_files s;
        st_trace :=
          st_trace s ++
            [LogInfo ("[Article] Processing DOI: " +:+ doi);
             CallDoi2pmid doi;
             LogError ("[Error] Failed to get PMID for DOI " +:+ doi
                         +:+ ": " +:+ msg)];
        st_clock := S (st_clock s);
        st_filename := st_filename s |})
  ∧ unresolved_fragment doi msg =
      "Article Information:" +:+ Articles.nl +:+ "DOI: " +:+ doi
        +:+ Articles.nl +:+ "Error: Could not retrieve PMID - " +:+ msg
  ∧ for_each (Articles.process_doi w) (doi :: rest) results s =
      for_each (Articles.process_doi w) rest
        (results ++ [unresolved_fragment doi msg])
        {| st_files := st_files s;
           st_trace :=
             st_trace s ++
               [LogInfo ("[Article] Processing DOI: " +:+ doi);
                CallDoi2pmid doi;
                LogError ("[Error] Failed to get PMID for DOI " +:+ doi
                            +:+ ": " +:+ msg)];
           st_clock := S (st_clock s);
           st_filename := st_filename s |}.
Proof.
  intros Hres.
  assert (Articles.process_doi w doi s =
    (Ok (unresolved_fragment doi msg),
     {| st_files := st_files s;
        st_trace :=
          st_trace s ++
            [LogInfo ("[Article] Processing DOI: " +:+ doi);
             CallDoi2pmid doi;
             LogError ("[Error] Failed to get PMID for DOI " +:+ doi
                         +:+ ": " +:+ msg)];
        st_clock := S (st_clock s);
        st_filename := st_filename s |})) as Hstep.
  { destruct s as [fs tr ck fn]. cbn [st_clock st_files st_filename st_trace] in *.
    unfold resolution_error in Hres. run.
    all: unfold unresolved_fragment; f_equal; f_equal; trace_eq. }
  repeat split; [done|].
  cbn [for_each]. unfold mbind, M_bind. by rewrite Hstep.
Qed.

Lemma failed_resolution_is_reported_witness :
  Articles.process_doi refusing_world "10.1000/refused" init =
    (Ok (unresolved_fragment "10.1000/refused" "resolver down"),
     {| st_files := ∅;
        st_trace :=
          [LogInfo "[Article] Processing DOI: 10.1000/refused";
           CallDoi2pmid "10.1000/refused";
           LogError "[Error] Failed to get PMID for DOI 10.1000/refused: resolver down"];
        st_clock := 1;
        st_filename := None |})
  ∧ unresolved_fragment "10.1000/refused" "resolver down" =
      "Article Information:" +:+ Articles.nl +:+ "DOI: " +:+ "10.1000/refused"
        +:+ Articles.nl +:+ "Error: Could not retrieve PMID - "
        +:+ "resolver down"
  ∧ for_each (Articles.process_doi refusing_world)
      ["10.1000/refused"; "10.1000/next"] [] init =
      for_each (Articles.process_doi refusing_world) ["10.1000/next"]
        [unresolved_fragment "10.1000/refused" "resolver down"]
        {| st_files := ∅;
           st_trace :=
             [LogInfo "[Article] Processing DOI: 10.1000/refused";
              CallDoi2pmid "10.1000/refused";
              LogError "[Error] Failed to get PMID for DOI 10.1000/refused: resolver down"];
           st_clock := 1;
           st_filename := None |}.
Proof.
  apply (failed_resolution_is_reported refusing_world "10.1000/refused"
           ["10.1000/next"] [] init "resolver down").
  reflexivity.
Defined.

(** ** The locator stages *)

Lemma articles_calls w doi s :
  ∃ frag evs s',
    Articles.process_doi w doi s = (Ok frag, s')
    ∧ st_trace s' =
        st_trace s ++ LogInfo ("[Article] Processing DOI: " +:+ doi)
          :: CallDoi2pmid doi :: evs
    ∧ Forall (keyed_by (resolved_pmid w (st_clock s) doi)) evs.
Proof.
  destruct s as [fs tr ck fn]. cbn [st_clock]. unfold resolved_pmid. run.
  all: eexists _, _, _; split; [reflexivity|].
  all: split; [cbn; trace_eq|].
  all: repeat constructor.
Qed.

(** C7 (counterexample). The resolver knows the record and the primary
    finder has no URL for it.  [get_full_text_markdown] goes to the
    aggregator first and never asks the primary finder;
    [get_articles] asks the primary finder, gets nothing, and does not
    go on to the aggregator. *)
Lemma aggregator_is_not_a_fallback :
  st_trace (snd (FullText.get_full_text_markdown
                   (open_access_world "application/pdf")
                   ["10.1000/open"] init)) =
    [Mkdtemp "/tmp/pdf_processing_a1b2";
     LogInfo "[PDF] Processing DOI: 10.1000/open";
     HttpGet "https://api.unpaywall.org/v2/10.1000/open?email=matthews1000140@gmail.com" false;
     HttpGet "https://repository.example/paper.pdf" true;
     FileOpen "/tmp/pdf_processing_a1b2/10.1000_open.pdf";
     FileWrite "/tmp/pdf_processing_a1b2/10.1000_open.pdf" pdf_bytes;
     ToMarkdown "/tmp/pdf_processing_a1b2/10.1000_open.pdf";
     PathExists "/tmp/pdf_processing_a1b2/10.1000_open.pdf";
     Remove "/tmp/pdf_processing_a1b2/10.1000_open.pdf";
     Rmdir "/tmp/pdf_processing_a1b2"]
  ∧ FindIt (open_access_world "application/pdf") 2 "31452104"
    = Ok {| url := None; reason := "NOFORMAT" |}
  ∧ st_trace (snd (Articles.get_articles
                     (open_access_world "application/pdf")
                     ["10.1000/open"] init)) =
    [LogInfo "[Article] Processing DOI: 10.1000/open";
     CallDoi2pmid "10.1000/open";
     CallArticleByPmid "31452104";
     CallFindIt "31452104"].
Proof. by vm_compute. Qed.

(** C7 (amended). The two stages live in different tools and neither
    falls back on the other.  In [get_full_text_markdown] the first
    remote call of every identifier is the request to the aggregator,
    keyed by the quoted external identifier, and no call to the
    resolver, the metadata service or the primary finder is ever made.
    In [get_articles] the first remote call of every identifier is the
    resolver, the metadata service and the primary finder are only
    called with the internal identifier the resolver gave, and no HTTP
    request (hence no aggregator query) is ever made. *)
Theorem locator_stages_are_separate (w : world) (dois : list string) :
  (∀ td doi s, ∃ frag evs s',
     FullText.process_doi w td doi s = (Ok frag, s')
     ∧ st_trace s' =
         st_trace s ++ LogInfo ("[PDF] Processing DOI: " +:+ doi)
           :: HttpGet (FullText.unpaywall_url w doi) false :: evs
     ∧ Forall (λ ev, is_metapub_call ev = false) evs)
  ∧ Forall (λ ev, is_metapub_call ev = false)
      (st_trace (snd (FullText.get_full_text_markdown w dois init)))
  ∧ (∀ doi s, ∃ frag evs s',
       Articles.process_doi w doi s = (Ok frag, s')
       ∧ st_trace s' =
           st_trace s ++ LogInfo ("[Article] Processing DOI: " +:+ doi)
             :: CallDoi2pmid doi :: evs
       ∧ Forall (keyed_by (resolved_pmid w (st_clock s) doi)) evs
       ∧ Forall (λ ev, is_http_get ev = false) evs)
  ∧ Forall (λ ev, is_http_get ev = false)
      (st_trace (snd (Articles.get_articles w dois init))).
Proof.
  split; [|split; [|split]].
  - intros td doi s.
    destruct (full_text_step w td doi s)
      as (frag & evs & s' & Hrun & _ & Htr & Hevs & _).
    by exists frag, evs, s'.
  - destruct (full_text_loop w dois (loop_start w) (loop_start_inv w))
      as (frags & s & Hloop & _ & Hfs & Htr).
    unfold FullText.get_full_text_markdown, mbind, M_bind.
    rewrite (collect_run w dois frags s Hloop Hfs).
    cbn [snd after_rmdir st_trace]. apply Forall_app. split; [done|].
    unfold rmdir_events. destruct (rmdir_error w); by repeat constructor.
  - intros doi s.
    destruct (articles_step w doi s)
      as (frag & evs & s' & Hrun & _ & Htr & Hevs & _).
    destruct (articles_calls w doi s)
      as (frag' & evs' & s'' & Hrun' & Htr' & Hkeys).
    rewrite Hrun in Hrun'. injection Hrun' as <- <-.
    rewrite Htr in Htr'. apply app_inv_head in Htr'.
    injection Htr' as <-.
    by exists frag, evs, s'.
  - destruct (articles_loop w dois init) as (frags & s & Hloop & _ & Htr).
    { constructor. }
    unfold Articles.get_articles, Articles.collect, mbind, M_bind.
    by rewrite Hloop.
Qed.

(** * Further properties *)

(** ** What [choose_pdf_url] returns *)

Lemma first_pdf_location_sound (locations : list json) (best : json) :
  FullText.first_pdf_location locations = Ok best →
  best = JNull
  ∨ (best ∈ locations ∧ is_dict best ∧ exposes_pdf_url best = true).
Proof.
  induction locations as [|c locations IH]; cbn [FullText.first_pdf_location].
  - intros [= <-]. by left.
  - destruct c as [| | | | |cf]; try done.
    cbn [Py.get mbind outcome_bind].
    destruct (Py.truthy (default JNull (Py.assoc "url_for_pdf" cf))) eqn:Hu.
    + intros [= <-]. right. split; [apply list_elem_of_here|]. by split.
    + intros H. destruct (IH H) as [->|(Hin & Hd & He)]; [by left|].
      right. split; [by apply list_elem_of_further|]. by split.
Qed.

Lemma choose_pdf_url_inv (data best u : json) :
  FullText.choose_pdf_url data = Ok (best, u) →
  Py.truthy u = true
  ∧ ∃ fields is_oa cands bf,
      data = JObj fields
      ∧ Py.assoc "is_oa" fields = Some is_oa
      ∧ Py.truthy is_oa = true
      ∧ Py.assoc "oa_locations" fields = Some (JArr cands)
      ∧ best ∈ cands
      ∧ best = JObj bf
      ∧ (u = field "url_for_pdf" best
         ∨ (exposes_pdf_url best = false ∧ u = field "url" best)).
Proof.
  unfold FullText.choose_pdf_url, FullText.best_oa_location.
  destruct data as [| | | | |fields]; try done.
  cbn [Py.get mbind outcome_bind].
  destruct (Py.assoc "is_oa" fields) as [is_oa|] eqn:Hoa;
    cbn [default from_option id Py.truthy mbind outcome_bind negb]; [|done].
  destruct (Py.truthy is_oa) eqn:Htrue; [|done].
  destruct (Py.assoc "oa_locations" fields) as [locs|] eqn:Hlocs;
    cbn [default from_option id]; [|done].
  destruct locs as [|b|z|str|cands|lf]; try done.
  - (* a string *)
    destruct str as [|c str]; [done|]. cbn. done.
  - (* a list *)
    cbn [Py.iter mbind outcome_bind].
    destruct (FullText.first_pdf_location cands) as [b|e] eqn:Hfirst; [|done].
    cbn [mbind outcome_bind].
    destruct (first_pdf_location_sound _ _ Hfirst) as [->|(Hin & Hd & He)].
    + cbn [Py.truthy negb andb].
      destruct cands as [|c cands]; [done|]. cbn [Py.index0 mbind outcome_bind].
      destruct (Py.truthy c) eqn:Hc; cbn [negb]; [|done].
      destruct c as [| | | | |cf]; try done. cbn [Py.get mbind outcome_bind].
      destruct (Py.truthy (default JNull (Py.assoc "url_for_pdf" cf))) eqn:Hu;
        cbn [mbind outcome_bind].
      * rewrite Hu. cbn [negb]. intros [= <- <-]. split; [done|].
        exists fields, is_oa, (JObj cf :: cands), cf.
        repeat split; try done. { apply list_elem_of_here. } by left.
      * destruct (Py.truthy (default JNull (Py.assoc "url" cf))) eqn:Hg;
          cbn [negb]; [|done].
        intros [= <- <-]. split; [done|].
        exists fields, is_oa, (JObj cf :: cands), cf.
        repeat split; try done. { apply list_elem_of_here. } by right.
    + destruct b as [| | | | |bf]; try done.
      unfold exposes_pdf_url in He. cbn [field] in He.
      assert (Py.truthy (JObj bf) = true) as Hb.
      { destruct bf; [done|done]. }
      rewrite Hb. cbn [negb andb mbind outcome_bind Py.get]. rewrite He.
      cbn [mbind outcome_bind]. rewrite He. cbn [negb].
      rewrite Hb. cbn [negb]. intros [= <- <-]. split; [done|].
      exists fields, is_oa, cands, bf. repeat split; try done. by left.
  - (* a dict *)
    destruct lf as [|kv lf]; [done|]. cbn. done.
Qed.

(** X1. Whenever [choose_pdf_url] returns a URL, the aggregator's
    answer is an object with a truthy [is_oa] whose [oa_locations] is a
    list, the chosen location is an object of that list, and the URL is
    truthy (never [None] or empty): it is the location's [url_for_pdf],
    or its [url] when the location exposes no PDF URL. *)
Theorem chosen_url_is_sound (data best u : json) :
  FullText.choose_pdf_url data = Ok (best, u) →
  Py.truthy u = true
  ∧ ∃ fields is_oa cands bf,
      data = JObj fields
      ∧ Py.assoc "is_oa" fields = Some is_oa
      ∧ Py.truthy is_oa = true
      ∧ Py.assoc "oa_locations" fields = Some (JArr cands)
      ∧ best ∈ cands
      ∧ best = JObj bf
      ∧ (u = field "url_for_pdf" best
         ∨ (exposes_pdf_url best = false ∧ u = field "url" best)).
Proof. apply choose_pdf_url_inv. Qed.

Lemma chosen_url_is_sound_witness :
  Py.truthy (JStr "https://repository.example/paper.pdf") = true
  ∧ ∃ fields is_oa cands bf,
      JObj open_access_fields = JObj fields
      ∧ Py.assoc "is_oa" fields = Some is_oa
      ∧ Py.truthy is_oa = true
      ∧ Py.assoc "oa_locations" fields = Some (JArr cands)
      ∧ JObj [("url", JStr "https://repository.example/record");
              ("url_for_pdf", JStr "https://repository.example/paper.pdf");
              ("host_type", JStr "repository")] ∈ cands
      ∧ JObj [("url", JStr "https://repository.example/record");
              ("url_for_pdf", JStr "https://repository.example/paper.pdf");
              ("host_type", JStr "repository")] = JObj bf
      ∧ (JStr "https://repository.example/paper.pdf" =
           field "url_for_pdf"
             (JObj [("url", JStr "https://repository.example/record");
                    ("url_for_pdf", JStr "https://repository.example/paper.pdf");
                    ("host_type", JStr "repository")])
         ∨ (exposes_pdf_url
              (JObj [("url", JStr "https://repository.example/record");
                     ("url_for_pdf", JStr "https://repository.example/paper.pdf");
                     ("host_type", JStr "repository")]) = false
            ∧ JStr "https://repository.example/paper.pdf" =
                field "url"
                  (JObj [("url", JStr "https://repository.example/record");
                         ("url_for_pdf", JStr "https://repository.example/paper.pdf");
                         ("host_type", JStr "repository")]))).
Proof.
  apply (chosen_url_is_sound (JObj open_access_fields)). reflexivity.
Defined.

(** ** The turn of [get_full_text_markdown], stage by stage *)

Lemma chosen_location_is_dict (data best u : json) :
  FullText.choose_pdf_url data = Ok (best, u) → ∃ bf, best = JObj bf.
Proof.
  intros H. destruct (choose_pdf_url_inv _ _ _ H)
    as (_ & fields & is_oa & cands & bf & _ & _ & _ & _ & _ & Hb & _).
  by exists bf.
Qed.

(** X2. When every stage of a turn succeeds (the aggregator answers,
    a URL is chosen, the download is a 2xx answer whose content type
    contains "pdf", the file is written and converted), the fragment is
    the header, the host type of the chosen location ("unknown" when it
    has none) and the markdown text; the file was written with the bytes
    of the answer, converted, and removed before the turn ended. *)
Theorem successful_turn_reports_markdown (w : world) (td doi : string)
    (s : state) (resp : response) (data best : json) (u : string)
    (pdf_response : response) (md_text : string) :
  st_files s = ∅ →
  http_get w (st_clock s) (FullText.unpaywall_url w doi) false = Ok resp →
  is_success resp = true →
  json_body resp = Ok data →
  FullText.choose_pdf_url data = Ok (best, JStr u) →
  http_get w (S (st_clock s)) u true = Ok pdf_response →
  is_success pdf_response = true →
  Str.contains "pdf" (Str.lower (default "" (content_type pdf_response)))
    = true →
  file_open w (S (S (st_clock s))) (item_path td doi) = None →
  file_write w (S (S (st_clock s))) (item_path td doi) (content pdf_response)
    = None →
  to_markdown w (S (S (st_clock s))) (item_path td doi) (content pdf_response)
    = Ok md_text →
  FullText.process_doi w td doi s =
    (Ok (markdown_fragment w doi best md_text),
     {| st_files := ∅;
        st_trace :=
          st_trace s ++
            [LogInfo ("[PDF] Processing DOI: " +:+ doi);
             HttpGet (FullText.unpaywall_url w doi) false;
             HttpGet u true;
             FileOpen (item_path td doi);
             FileWrite (item_path td doi) (content pdf_response);
             ToMarkdown (item_path td doi);
             PathExists (item_path td doi);
             Remove (item_path td doi)];
        st_clock := S (S (st_clock s));
        st_filename := Some (item_path td doi) |}).
Proof.
  destruct s as [fs tr ck fn]. cbn [st_clock st_trace st_files].
  intros -> Hget Hok Hjson Hurl Hget2 Hok2 Hct Hopen Hwrite Hmd.
  destruct (chosen_location_is_dict _ _ _ Hurl) as [bf ->].
  unfold item_path in *.
  exec. rewrite Hget. exec. rewrite Hok. exec. rewrite Hjson. exec.
  rewrite Hurl. exec. rewrite Hget2. exec. rewrite Hok2. exec.
  rewrite Hct. cbn [negb]. exec. rewrite Hopen. exec. rewrite Hwrite. exec.
  rewrite lookup_insert_eq. rewrite Hmd. cbn [Py.get]. exec.
  repeat (rewrite lookup_insert_eq; exec).
  rewrite delete_insert_eq, delete_empty.
  unfold markdown_fragment, host_type_of.
  f_equal. f_equal. trace_eq.
Qed.

(** X3. When the converter raises on the written file
    (with an error that is not an HTTP error), the fragment reports
    "Error: Failed to process PDF - ..." with the text of the error, and
    the file that was written is removed before the turn ends. *)
Theorem failed_conversion_is_reported (w : world) (td doi : string)
    (s : state) (resp : response) (data best : json) (u : string)
    (pdf_response : response) (e : exn) :
  st_files s = ∅ →
  http_get w (st_clock s) (FullText.unpaywall_url w doi) false = Ok resp →
  is_success resp = true →
  json_body resp = Ok data →
  FullText.choose_pdf_url data = Ok (best, JStr u) →
  http_get w (S (st_clock s)) u true = Ok pdf_response →
  is_success pdf_response = true →
  Str.contains "pdf" (Str.lower (default "" (content_type pdf_response)))
    = true →
  file_open w (S (S (st_clock s))) (item_path td doi) = None →
  file_write w (S (S (st_clock s))) (item_path td doi) (content pdf_response)
    = None →
  to_markdown w (S (S (st_clock s))) (item_path td doi) (content pdf_response)
    = Raise e →
  is_http_error e = false →
  FullText.process_doi w td doi s =
    (Ok (processing_failure_fragment doi (str_exn e)),
     {| st_files := ∅;
        st_trace :=
          st_trace s ++
            [LogInfo ("[PDF] Processing DOI: " +:+ doi);
             HttpGet (FullText.unpaywall_url w doi) false;
             HttpGet u true;
             FileOpen (item_path td doi);
             FileWrite (item_path td doi) (content pdf_response);
             ToMarkdown (item_path td doi);
             LogError ("[Error] Failed to process PDF for DOI " +:+ doi
                         +:+ ": " +:+ str_exn e);
             PathExists (item_path td doi);
             Remove (item_path td doi)];
        st_clock := S (S (st_clock s));
        st_filename := Some (item_path td doi) |}).
Proof.
  destruct s as [fs tr ck fn]. cbn [st_clock st_trace st_files].
  intros -> Hget Hok Hjson Hurl Hget2 Hok2 Hct Hopen Hwrite Hmd He.
  unfold item_path in *.
  exec. rewrite Hget. exec. rewrite Hok. exec. rewrite Hjson. exec.
  rewrite Hurl. exec. rewrite Hget2. exec. rewrite Hok2. exec.
  rewrite Hct. cbn [negb]. exec. rewrite Hopen. exec. rewrite Hwrite. exec.
  rewrite lookup_insert_eq. rewrite Hmd. exec. rewrite He. exec.
  repeat (rewrite lookup_insert_eq; exec).
  rewrite delete_insert_eq, delete_empty.
  unfold processing_failure_fragment.
  f_equal. f_equal. trace_eq.
Qed.

(** X4. When the download fails as an HTTP error (the transport raises
    one, or the answer is not 2xx), the fragment reports
    "Error: Failed to retrieve or download PDF - ..." with the text of
    the error; no file is opened or written and nothing is converted. *)
Theorem failed_download_is_reported (w : world) (td doi : string)
    (s : state) (resp : response) (data best : json) (u msg : string) :
  st_files s = ∅ →
  http_get w (st_clock s) (FullText.unpaywall_url w doi) false = Ok resp →
  is_success resp = true →
  json_body resp = Ok data →
  FullText.choose_pdf_url data = Ok (best, JStr u) →
  download_failure w (S (st_clock s)) u = Some msg →
  FullText.process_doi w td doi s =
    (Ok (transport_failure_fragment doi msg),
     {| st_files := ∅;
        st_trace :=
          st_trace s ++
            [LogInfo ("[PDF] Processing DOI: " +:+ doi);
             HttpGet (FullText.unpaywall_url w doi) false;
             HttpGet u true;
             LogError ("[Error] API or download error for DOI " +:+ doi
                         +:+ ": " +:+ msg);
             PathExists (item_path td doi)];
        st_clock := S (S (st_clock s));
        st_filename := Some (item_path td doi) |}).
Proof.
  destruct s as [fs tr ck fn]. cbn [st_clock st_trace st_files].
  intros -> Hget Hok Hjson Hurl Hfail.
  unfold item_path, download_failure in *.
  exec. rewrite Hget. exec. rewrite Hok. exec. rewrite Hjson. exec.
  rewrite Hurl. exec.
  destruct (http_get w (S ck) u true) as [presp|[]]; try done.
  - exec. destruct (is_success presp); [done|]. injection Hfail as <-.
    exec. cbn [is_http_error str_exn]. exec. rewrite lookup_empty.
    unfold transport_failure_fragment. f_equal. f_equal. trace_eq.
  - injection Hfail as <-.
    exec. cbn [is_http_error str_exn]. exec. rewrite lookup_empty.
    unfold transport_failure_fragment. f_equal. f_equal. trace_eq.
Qed.

Lemma successful_turn_reports_markdown_witness :
  FullText.process_doi (open_access_world "application/pdf")
    "/tmp/pdf_processing_a1b2" "10.1000/open" init =
    (Ok (Str.join FullText.nl
           ["PDF Processing Results:"; "DOI: 10.1000/open";
            "Open Access Source: repository"; ""; "Markdown Content:";
            "# Title"]),
     {| st_files := ∅;
        st_trace :=
          [LogInfo "[PDF] Processing DOI: 10.1000/open";
           HttpGet "https://api.unpaywall.org/v2/10.1000/open?email=matthews1000140@gmail.com" false;
           HttpGet "https://repository.example/paper.pdf" true;
           FileOpen "/tmp/pdf_processing_a1b2/10.1000_open.pdf";
           FileWrite "/tmp/pdf_processing_a1b2/10.1000_open.pdf" pdf_bytes;
           ToMarkdown "/tmp/pdf_processing_a1b2/10.1000_open.pdf";
           PathExists "/tmp/pdf_processing_a1b2/10.1000_open.pdf";
           Remove "/tmp/pdf_processing_a1b2/10.1000_open.pdf"];
        st_clock := 2;
        st_filename := Some "/tmp/pdf_processing_a1b2/10.1000_open.pdf" |}).
Proof.
  apply (successful_turn_reports_markdown (open_access_world "application/pdf")
           "/tmp/pdf_processing_a1b2" "10.1000/open" init
           (json_response (JObj open_access_fields))
           (JObj open_access_fields) repository_location
           "https://repository.example/paper.pdf"
           (file_response "application/pdf") "# Title"); reflexivity.
Defined.

Lemma failed_conversion_is_reported_witness :
  FullText.process_doi broken_pdf_world
    "/tmp/pdf_processing_a1b2" "10.1000/open" init =
    (Ok (Str.join FullText.nl
           ["PDF Processing Results:"; "DOI: 10.1000/open";
            "Error: Failed to process PDF - Failed to open file"]),
     {| st_files := ∅;
        st_trace :=
          [LogInfo "[PDF] Processing DOI: 10.1000/open";
           HttpGet "https://api.unpaywall.org/v2/10.1000/open?email=matthews1000140@gmail.com" false;
           HttpGet "https://repository.example/paper.pdf" true;
           FileOpen "/tmp/pdf_processing_a1b2/10.1000_open.pdf";
           FileWrite "/tmp/pdf_processing_a1b2/10.1000_open.pdf" pdf_bytes;
           ToMarkdown "/tmp/pdf_processing_a1b2/10.1000_open.pdf";
           LogError "[Error] Failed to process PDF for DOI 10.1000/open: Failed to open file";
           PathExists "/tmp/pdf_processing_a1b2/10.1000_open.pdf";
           Remove "/tmp/pdf_processing_a1b2/10.1000_open.pdf"];
        st_clock := 2;
        st_filename := Some "/tmp/pdf_processing_a1b2/10.1000_open.pdf" |}).
Proof.
  apply (failed_conversion_is_reported broken_pdf_world
           "/tmp/pdf_processing_a1b2" "10.1000/open" init
           (json_response (JObj open_access_fields))
           (JObj open_access_fields) repository_location
           "https://repository.example/paper.pdf"
           (file_response "application/pdf")
           (OtherException "Failed to open file")); reflexivity.
Defined.

Lemma failed_download_is_reported_witness :
  FullText.process_doi missing_file_world
    "/tmp/pdf_processing_a1b2" "10.1000/open" init =
    (Ok (Str.join FullText.nl
           ["PDF Processing Results:"; "DOI: 10.1000/open";
            "Error: Failed to retrieve or download PDF - status 404"]),
     {| st_files := ∅;
        st_trace :=
          [LogInfo "[PDF] Processing DOI: 10.1000/open";
           HttpGet "https://api.unpaywall.org/v2/10.1000/open?email=matthews1000140@gmail.com" false;
           HttpGet "https://repository.example/paper.pdf" true;
           LogError "[Error] API or download error for DOI 10.1000/open: status 404";
           PathExists "/tmp/pdf_processing_a1b2/10.1000_open.pdf"];
        st_clock := 2;
        st_filename := Some "/tmp/pdf_processing_a1b2/10.1000_open.pdf" |}).
Proof.
  apply (failed_download_is_reported missing_file_world
           "/tmp/pdf_processing_a1b2" "10.1000/open" init
           (json_response (JObj open_access_fields))
           (JObj open_access_fields) repository_location
           "https://repository.example/paper.pdf" "status 404"); reflexivity.
Defined.

(** ** Loops, once more *)

Section LoopMembers.
Variable body : string → M string.
Variable xs : list string.
Variable I : state → Prop.
Hypothesis body_ok : ∀ x s, x ∈ xs → I s →
  ∃ frag s', body x s = (Ok frag, s') ∧ I s'.

Lemma for_each_inv_mem ys : ∀ results s, ys ⊆ xs → I s →
  ∃ frags s', for_each body ys results s = (Ok frags, s') ∧ I s'.
Proof.
  induction ys as [|y ys IH]; intros results s Hsub Hs.
  - by exists results, s.
  - destruct (body_ok y s) as (frag & s1 & Hb & Hs1); [|done|].
    { apply Hsub. apply list_elem_of_here. }
    destruct (IH (results ++ [frag]) s1) as (frags & s2 & Hl & Hs2); [|done|].
    { intros z Hz. apply Hsub. by apply list_elem_of_further. }
    exists frags, s2. split; [|done].
    cbn [for_each]. unfold mbind, M_bind. by rewrite Hb, Hl.
Qed.
End LoopMembers.

Section LoopMeasure.
Variable body : string → M string.
Variable measure : state → nat.
Variables lo hi : nat.
Hypothesis body_ok : ∀ x s,
  ∃ frag s', body x s = (Ok frag, s')
    ∧ (measure s + lo ≤ measure s' ∧ measure s' ≤ measure s + hi)%nat.

Lemma for_each_measure xs : ∀ results s,
  ∃ frags s', for_each body xs results s = (Ok frags, s')
    ∧ (measure s + lo * length xs ≤ measure s'
       ∧ measure s' ≤ measure s + hi * length xs)%nat.
Proof.
  induction xs as [|x xs IH]; intros results s.
  - exists results, s. cbn. repeat split; lia.
  - destruct (body_ok x s) as (frag & s1 & Hb & Hlo & Hhi).
    destruct (IH (results ++ [frag]) s1) as (frags & s2 & Hl & Hlo2 & Hhi2).
    exists frags, s2. split.
    + cbn [for_each]. unfold mbind, M_bind. by rewrite Hb, Hl.
    + cbn [length]. split; lia.
Qed.
End LoopMeasure.

(** ** File names *)

Lemma prefix_slash (c : ascii) (s : string) :
  String.prefix "/" (String c s) = Ascii.eqb c "/".
Proof.
  change (String.prefix "/" (String c s))
    with (if Ascii.ascii_dec "/" c then String.prefix "" s else false).
  destruct (Ascii.ascii_dec "/" c) as [<-|Hne]; [by destruct s|].
  symmetry. apply Ascii.eqb_neq. congruence.
Qed.

Lemma contains_slash_cons (c : ascii) (s : string) :
  Str.contains "/" (String c s) = Ascii.eqb c "/" || Str.contains "/" s.
Proof.
  change (Str.contains "/" (String c s))
    with (if String.prefix "/" (String c s) then true
          else Str.contains "/" s).
  rewrite prefix_slash. by destruct (Ascii.eqb c "/").
Qed.

Lemma item_name_no_slash (doi : string) :
  Str.contains "/" (item_name doi) = false.
Proof.
  induction doi as [|c doi IH]; [done|].
  change (item_name (String c doi))
    with (String (if Ascii.eqb c "/" then "_"%char else c) (item_name doi)).
  rewrite contains_slash_cons, IH.
  destruct (Ascii.eqb c "/") eqn:Hc; [done|]. by rewrite Hc.
Qed.

Lemma turn_effects w td doi s (allowed : string → Prop) :
  allowed (item_path td doi) →
  (∀ f, st_filename s = Some f → allowed f) →
  ∃ frag evs s',
    FullText.process_doi w td doi s = (Ok frag, s')
    ∧ st_trace s' = st_trace s ++ evs
    ∧ Forall (touches_only allowed) evs
    ∧ (∀ f, st_filename s' = Some f → allowed f)
    ∧ (1 ≤ http_requests evs ∧ http_requests evs ≤ 2)%nat.
Proof.
  destruct s as [fs tr ck fn]. cbn [st_filename st_trace].
  unfold item_path. intros Hnew Hold.
  assert (∀ f, fn = Some f → allowed f) as Hold' by done. clear Hold.
  run.
  all: eexists _, _, _; split; [reflexivity|].
  all: split; [cbn; trace_eq|].
  all: split;
    [repeat first [apply Forall_nil | apply Forall_cons; split];
     cbn; auto|].
  all: split; [intros ? [= <-]; auto|].
  all: unfold http_requests; cbn; lia.
Qed.

Lemma inside_item_path td dois doi :
  doi ∈ dois → inside td dois (item_path td doi).
Proof.
  intros Hin. exists doi. repeat split; [done|]. apply item_name_no_slash.
Qed.

(** X5. Every effect of [get_full_text_markdown] on a file (opening,
    writing, converting, testing for existence, removing) names a path
    made of the temporary directory and the file name of one of the
    identifiers of the batch, and that file name contains no "/": no
    file outside the temporary directory is touched. *)
Theorem batch_files_stay_inside (w : world) (dois : list string) :
  Forall (touches_only (inside (mkdtemp w) dois))
    (st_trace (snd (FullText.get_full_text_markdown w dois init))).
Proof.
  set (A := inside (mkdtemp w) dois).
  set (I := λ s : state,
         st_files s = ∅
         ∧ Forall (touches_only A) (st_trace s)
         ∧ ∀ f, st_filename s = Some f → A f).
  destruct (for_each_inv_mem (FullText.process_doi w (mkdtemp w)) dois I)
    with (ys := dois) (results := @nil string) (s := loop_start w)
    as (frags & s & Hloop & Hfs & Htr & _).
  - intros doi s Hin (Hfs & Htr & Hfn).
    destruct (turn_effects w (mkdtemp w) doi s A)
      as (frag & evs & s' & Hrun & Htr' & Hevs & Hfn' & _); [|done|].
    { by apply inside_item_path. }
    destruct (full_text_step w (mkdtemp w) doi s)
      as (frag2 & evs2 & s2 & Hrun2 & _ & _ & _ & Hfs2).
    rewrite Hrun in Hrun2. injection Hrun2 as <- <-.
    exists frag, s'. split; [done|]. repeat split; auto.
    rewrite Htr'. by apply Forall_app.
  - done.
  - repeat split; [by repeat constructor|done].
  - unfold FullText.get_full_text_markdown, mbind, M_bind.
    rewrite (collect_run w dois frags s Hloop Hfs).
    cbn [snd after_rmdir st_trace]. apply Forall_app. split; [done|].
    unfold rmdir_events. destruct (rmdir_error w); by repeat constructor.
Qed.

Lemma http_requests_app (t1 t2 : list event) :
  http_requests (t1 ++ t2) = (http_requests t1 + http_requests t2)%nat.
Proof. unfold http_requests. by rewrite List.filter_app, length_app. Qed.

(** X6. [get_full_text_markdown] issues at least one and at most two
    HTTP requests per identifier of the batch (the aggregator query and
    at most one download): nothing is retried. *)
Theorem full_text_request_budget (w : world) (dois : list string) :
  (length dois
     ≤ http_requests
         (st_trace (snd (FullText.get_full_text_markdown w dois init)))
   ∧ http_requests
       (st_trace (snd (FullText.get_full_text_markdown w dois init)))
     ≤ 2 * length dois)%nat.
Proof.
  destruct (for_each_measure (FullText.process_doi w (mkdtemp w))
              (λ s, http_requests (st_trace s)) 1 2)
    with (xs := dois) (results := @nil string) (s := loop_start w)
    as (frags & s & Hloop & Hlo & Hhi).
  - intros doi s.
    destruct (turn_effects w (mkdtemp w) doi s (λ _, True))
      as (frag & evs & s' & Hrun & Htr' & _ & _ & Hlo & Hhi); [done..|].
    exists frag, s'. split; [done|]. cbn beta.
    rewrite Htr', http_requests_app. lia.
  - destruct (full_text_loop w dois (loop_start w) (loop_start_inv w))
      as (frags2 & s2 & Hloop2 & _ & Hfs & _).
    unfold FullText.process_all in Hloop2. rewrite Hloop in Hloop2.
    injection Hloop2 as <- <-.
    unfold FullText.get_full_text_markdown, mbind, M_bind.
    rewrite (collect_run w dois frags s Hloop Hfs).
    cbn [snd after_rmdir st_trace mret M_ret]. rewrite http_requests_app.
    assert (http_requests (rmdir_events w) = 0%nat) as ->.
    { unfold rmdir_events. by destruct (rmdir_error w). }
    change (http_requests (st_trace (loop_start w))) with 0%nat in *.
    lia.
Qed.

(** ** The turn of [get_articles], stage by stage *)

Lemma articles_turn_calls w doi s :
  ∃ frag evs s',
    Articles.process_doi w doi s = (Ok frag, s')
    ∧ st_trace s' = st_trace s ++ evs
    ∧ (1 ≤ metapub_calls evs ∧ metapub_calls evs ≤ 3)%nat.
Proof.
  destruct s as [fs tr ck fn]. run.
  all: eexists _, _, _; split; [reflexivity|].
  all: split; [cbn; trace_eq|].
  all: unfold metapub_calls; cbn; lia.
Qed.

Lemma metapub_calls_app (t1 t2 : list event) :
  metapub_calls (t1 ++ t2) = (metapub_calls t1 + metapub_calls t2)%nat.
Proof. unfold metapub_calls. by rewrite List.filter_app, length_app. Qed.

(** X7. [get_articles] makes at least one and at most three calls to
    the metapub services per identifier of the batch (resolver, metadata,
    finder): nothing is retried. *)
Theorem articles_call_budget (w : world) (dois : list string) :
  (length dois
     ≤ metapub_calls (st_trace (snd (Articles.get_articles w dois init)))
   ∧ metapub_calls (st_trace (snd (Articles.get_articles w dois init)))
     ≤ 3 * length dois)%nat.
Proof.
  destruct (for_each_measure (Articles.process_doi w)
              (λ s, metapub_calls (st_trace s)) 1 3)
    with (xs := dois) (results := @nil string) (s := init)
    as (frags & s & Hloop & Hlo & Hhi).
  - intros doi s.
    destruct (articles_turn_calls w doi s)
      as (frag & evs & s' & Hrun & Htr' & Hlo & Hhi).
    exists frag, s'. split; [done|]. cbn beta.
    rewrite Htr', metapub_calls_app. lia.
  - unfold Articles.get_articles, Articles.collect, Articles.process_all,
      mbind, M_bind.
    rewrite Hloop. cbn [snd mret M_ret].
    change (metapub_calls (st_trace init)) with 0%nat in *. cbn beta in *. lia.
Qed.


(** Two equations on the same term are merged. *)
Ltac same_lhs :=
  repeat match goal with
  | H1 : ?x = _, H2 : ?x = _ |- _ => rewrite H1 in H2; simplify_eq
  end.

(** X8. When the resolver gives a PMID and the metadata service raises
    or returns nothing for it, the fragment is the header, the PMID line
    and the line "Error: Could not retrieve article data - ..."; the
    primary finder is not called for that identifier. *)
Theorem failed_metadata_is_reported (w : world) (doi : string) (s : state)
    (pmid msg : string) :
  resolved_pmid w (st_clock s) doi = Some pmid →
  metadata_error w (S (st_clock s)) pmid = Some msg →
  Articles.process_doi w doi s =
    (Ok (Str.join Articles.nl
           (Articles.header doi
              ++ ["PMID: " +:+ pmid;
                  "Error: Could not retrieve article data - " +:+ msg])),
     {| st_files := st_files s;
        st_trace :=
          st_trace s ++
            [LogInfo ("[Article] Processing DOI: " +:+ doi);
             CallDoi2pmid doi;
             CallArticleByPmid pmid;
             LogError ("[Error] Failed to fetch article data for PMID "
                         +:+ pmid +:+ ": " +:+ msg)];
        st_clock := S (S (st_clock s));
        st_filename := st_filename s |}).
Proof.
  destruct s as [fs tr ck fn]. cbn [st_clock st_files st_filename st_trace].
  unfold resolved_pmid, metadata_error. intros Hres Hmeta.
  run.
  all: try congruence.
  all: same_lhs; cbn [str_exn].
  all: refine (f_equal2 pair _ _); [by rewrite <- ?app_assoc|f_equal; trace_eq].
Qed.

(** X9. When the resolver gives a PMID and the metadata service gives
    the article, the fragment is the header, the PMID line, the lines of
    the metadata (title, authors joined with "; ", journal and year,
    citation, abstract or "Not available") and the "Full Text Access"
    section, whatever the primary finder does: its URL, its reason when
    it has no URL, or the text of its error when it raises.  The three
    services are called once each, in this order. *)
Theorem fetched_metadata_is_reported (w : world) (doi : string) (s : state)
    (pmid : string) (a : article) :
  resolved_pmid w (st_clock s) doi = Some pmid →
  article_by_pmid w (S (st_clock s)) pmid = Ok (Some a) →
  Articles.process_doi w doi s =
    (Ok (Str.join Articles.nl
           (Articles.header doi ++ ["PMID: " +:+ pmid] ++ metadata_lines a
              ++ access_lines (FindIt w (S (S (st_clock s))) pmid))),
     {| st_files := st_files s;
        st_trace :=
          st_trace s ++
            [LogInfo ("[Article] Processing DOI: " +:+ doi);
             CallDoi2pmid doi;
             CallArticleByPmid pmid;
             CallFindIt pmid]
            ++ access_log pmid (FindIt w (S (S (st_clock s))) pmid);
        st_clock := S (S (S (st_clock s)));
        st_filename := st_filename s |}).
Proof.
  destruct s as [fs tr ck fn]. cbn [st_clock st_files st_filename st_trace].
  unfold resolved_pmid, access_lines, access_log, metadata_lines.
  intros Hres Hmeta.
  run.
  all: try congruence.
  all: same_lhs; cbn [str_exn access_lines access_log url].
  all: refine (f_equal2 pair _ _); [by rewrite <- ?app_assoc|f_equal; trace_eq].

Qed.

Lemma failed_metadata_is_reported_witness :
  Articles.process_doi no_metadata_world "10.1000/open" init =
    (Ok (Str.join Articles.nl
           ["Article Information:"; "DOI: 10.1000/open"; "PMID: 31452104";
            "Error: Could not retrieve article data - efetch timed out"]),
     {| st_files := ∅;
        st_trace :=
          [LogInfo "[Article] Processing DOI: 10.1000/open";
           CallDoi2pmid "10.1000/open";
           CallArticleByPmid "31452104";
           LogError "[Error] Failed to fetch article data for PMID 31452104: efetch timed out"];
        st_clock := 2;
        st_filename := None |}).
Proof.
  apply (failed_metadata_is_reported no_metadata_world "10.1000/open" init
           "31452104" "efetch timed out"); reflexivity.
Defined.

Lemma fetched_metadata_is_reported_witness :
  Articles.process_doi (open_access_world "application/pdf") "10.1000/open"
    init =
    (Ok (Str.join Articles.nl
           ["Article Information:"; "DOI: 10.1000/open"; "PMID: 31452104";
            "Title: A title"; "Authors: A. Author; B. Author";
            "Journal: A journal (2020)"; "Citation: A citation"; "";
            "Abstract:"; "An abstract"; ""; "Full Text Access:";
            "Full text URL not available"; "Reason: NOFORMAT"]),
     {| st_files := ∅;
        st_trace :=
          [LogInfo "[Article] Processing DOI: 10.1000/open";
           CallDoi2pmid "10.1000/open";
           CallArticleByPmid "31452104";
           CallFindIt "31452104"];
        st_clock := 3;
        st_filename := None |}).
Proof.
  apply (fetched_metadata_is_reported (open_access_world "application/pdf")
           "10.1000/open" init "31452104"
           {| title := "A title"; authors := ["A. Author"; "B. Author"];
              journal := "A journal"; year := "2020";
              citation := "A citation"; abstract := Some "An abstract" |});
    reflexivity.
Defined.

(** * The SNP tools *)

(** ** [format_snp_data] *)

Lemma format_complete (w : world) (rs c38 p38 a38 g38 x38 c37 p37 a37 g37 x37 : json) :
  Snp.format_snp_data w
    (JArr [rs; c38; p38; a38; g38; x38; c37; p37; a37; g37; x37]) =
  Ok (Str.join Snp.nl
        ["SNP ID: " +:+ py_str w rs;
         "";
         "GRCh38 Assembly:";
         "  Chromosome: " +:+ py_str w c38;
         "  Position: " +:+ py_str w p38;
         "  Alleles: " +:+ py_str w a38;
         "  Gene: " +:+ Snp.or_not_specified w g38;
         "";
         "GRCh37 Assembly:";
         "  Chromosome: " +:+ py_str w c37;
         "  Position: " +:+ py_str w p37;
         "  Alleles: " +:+ py_str w a37;
         "  Gene: " +:+ Snp.or_not_specified w g37]).
Proof. reflexivity. Qed.

Lemma eleven (vals : list json) :
  length vals = 11%nat →
  ∃ rs c38 p38 a38 g38 x38 c37 p37 a37 g37 x37,
    vals = [rs; c38; p38; a38; g38; x38; c37; p37; a37; g37; x37].
Proof.
  intros H.
  do 11 (destruct vals as [|? vals]; [done|]).
  destruct vals; [|done]. by repeat eexists.
Qed.

Lemma format_incomplete (w : world) (v : json) (rest : list json) :
  length (v :: rest) ≠ 11%nat →
  Snp.format_snp_data w (JArr (v :: rest)) =
    Ok ("SNP ID: " +:+ py_str w v +:+ " (incomplete data)").
Proof.
  intros Hlen. unfold Snp.format_snp_data.
  cbn [Pyx.len mbind outcome_bind].
  change (length Snp.DISPLAY_FIELDS) with 11%nat.
  destruct (Nat.eqb_spec (length (v :: rest)) 11) as [|_]; [done|].
  reflexivity.
Qed.

Lemma format_empty (w : world) :
  Snp.format_snp_data w (JArr []) =
    Raise (IndexError "list index out of range").
Proof. reflexivity. Qed.

Lemma format_list (w : world) (vals : list json) :
  vals ≠ [] → ∃ out, Snp.format_snp_data w (JArr vals) = Ok out.
Proof.
  intros Hne. destruct vals as [|v rest]; [done|].
  destruct (decide (length (v :: rest) = 11%nat)) as [Hlen|Hlen].
  - destruct (eleven _ Hlen)
      as (rs & c38 & p38 & a38 & g38 & x38 & c37 & p37 & a37 & g37 & x37 & ->).
    eexists. apply format_complete.
  - eexists. by apply format_incomplete.
Qed.

(** X10. For a complete record (eleven values), [format_snp_data] does
    not use the two assembly columns ("38.assembly" and "37.assembly",
    the sixth and the eleventh value): whatever they hold, the text is
    the same thirteen lines. *)
Theorem assembly_columns_are_not_shown (w : world) (vals : list json)
    (x y : json) :
  length vals = 11%nat →
  Snp.format_snp_data w (JArr (<[5 := x]> (<[10 := y]> vals)))
    = Snp.format_snp_data w (JArr vals)
  ∧ ∃ lines,
      length lines = 13%nat
      ∧ Snp.format_snp_data w (JArr vals) = Ok (Str.join Snp.nl lines).
Proof.
  intros Hlen.
  destruct (eleven _ Hlen)
    as (rs & c38 & p38 & a38 & g38 & x38 & c37 & p37 & a37 & g37 & x37 & ->).
  split; [reflexivity|].
  eexists. split; [|apply format_complete]. reflexivity.
Qed.

Lemma assembly_columns_are_not_shown_witness :
  Snp.format_snp_data refusing_world
    (JArr (<[5 := JStr "GRCh38.p14"]> (<[10 := JNull]>
       [JStr "rs6311"; JStr "13"; JStr "46897343"; JStr "C/T"; JStr "HTR2A";
        JStr "GRCh38"; JStr "13"; JStr "47471478"; JStr "C/T"; JStr "";
        JStr "GRCh37"])))
    = Snp.format_snp_data refusing_world
        (JArr [JStr "rs6311"; JStr "13"; JStr "46897343"; JStr "C/T";
               JStr "HTR2A"; JStr "GRCh38"; JStr "13"; JStr "47471478";
               JStr "C/T"; JStr ""; JStr "GRCh37"])
  ∧ ∃ lines,
      length lines = 13%nat
      ∧ Snp.format_snp_data refusing_world
          (JArr [JStr "rs6311"; JStr "13"; JStr "46897343"; JStr "C/T";
                 JStr "HTR2A"; JStr "GRCh38"; JStr "13"; JStr "47471478";
                 JStr "C/T"; JStr ""; JStr "GRCh37"])
        = Ok (Str.join Snp.nl lines).
Proof.
  apply (assembly_columns_are_not_shown refusing_world
           [JStr "rs6311"; JStr "13"; JStr "46897343"; JStr "C/T";
            JStr "HTR2A"; JStr "GRCh38"; JStr "13"; JStr "47471478";
            JStr "C/T"; JStr ""; JStr "GRCh37"]).
  reflexivity.
Defined.

(** ** [search_snp] and [get_snp_info] *)

Ltac exec_snp :=
  cbv [Snp.search_snp Snp.get_snp_info Snp.fetch_snp_data search_url
       client_get raise_for_status
       try_except try_finally mbind M_bind mret M_ret raise lift emit
       tick clock log_info log_error
       st_files st_trace st_clock st_filename].

Ltac run_snp := exec_snp; repeat (case_match; simplify_eq; exec_snp).

(** X11. [search_snp] and [get_snp_info] never raise: whatever the
    service answers they return a string, after exactly one HTTP request
    (to the search URL with the query as [terms]), and they touch no
    file. *)
Theorem snp_tools_always_answer (w : world)
    (with_params : string → list (string * string) → string)
    (query : string) (s : state) :
  (∃ out evs s',
     Snp.search_snp w with_params query s = (Ok out, s')
     ∧ st_trace s' =
         st_trace s ++ LogInfo ("[API] Fetching SNP data for query: " +:+ query)
           :: HttpGet (search_url with_params query) false :: evs
     ∧ Forall (λ ev, match ev with LogInfo _ | LogError _ => True
                     | _ => False end) evs
     ∧ st_files s' = st_files s)
  ∧ (∃ out evs s',
       Snp.get_snp_info w with_params query s = (Ok out, s')
       ∧ st_trace s' =
           st_trace s ++ LogInfo ("[API] Fetching SNP data for query: " +:+ query)
             :: HttpGet (search_url with_params query) false :: evs
       ∧ Forall (λ ev, match ev with LogInfo _ | LogError _ => True
                       | _ => False end) evs
       ∧ st_files s' = st_files s).
Proof.
  destruct s as [fs tr ck fn]. split.
  all: run_snp.
  all: eexists _, _, _; split; [reflexivity|].
  all: split; [cbn; trace_eq|].
  all: split; [repeat constructor|reflexivity].
Qed.


Lemma fetch_ok w with_params query s resp data :
  http_get w (st_clock s) (search_url with_params query) false = Ok resp →
  is_success resp = true →
  json_body resp = Ok data →
  Snp.fetch_snp_data w with_params query s =
    (Ok data,
     {| st_files := st_files s;
        st_trace :=
          st_trace s ++
            [LogInfo ("[API] Fetching SNP data for query: " +:+ query);
             HttpGet (search_url with_params query) false;
             LogInfo ("[API] Successfully fetched data for " +:+ query)];
        st_clock := S (st_clock s);
        st_filename := st_filename s |}).
Proof.
  destruct s as [fs tr ck fn]. cbn [st_clock st_files st_filename st_trace].
  unfold search_url. intros Hget Hok Hjson.
  exec_snp. rewrite Hget. exec_snp. rewrite Hok. exec_snp. rewrite Hjson.
  exec_snp. f_equal. f_equal. trace_eq.
Qed.

Lemma fetch_fails w with_params query s msg :
  fetch_failure w (st_clock s) (search_url with_params query) = Some msg →
  Snp.fetch_snp_data w with_params query s =
    (Raise (HTTPError msg),
     {| st_files := st_files s;
        st_trace :=
          st_trace s ++
            [LogInfo ("[API] Fetching SNP data for query: " +:+ query);
             HttpGet (search_url with_params query) false;
             LogError ("[Error] HTTP error occurred: " +:+ msg)];
        st_clock := S (st_clock s);
        st_filename := st_filename s |}).
Proof.
  destruct s as [fs tr ck fn]. cbn [st_clock st_files st_filename st_trace].
  unfold search_url, fetch_failure. intros Hfail.
  exec_snp.
  destruct (http_get w ck _ false) as [resp|[]]; try done; exec_snp.
  - destruct (is_success resp); [done|]. injection Hfail as <-.
    exec_snp. cbn [is_http_error str_exn]. exec_snp.
    f_equal. f_equal. trace_eq.
  - injection Hfail as <-. cbn [is_http_error str_exn]. exec_snp.
    f_equal. f_equal. trace_eq.
Qed.

(** X12. When the request to the SNP service fails as an HTTP error
    (the transport raises one, or the answer is not 2xx),
    [fetch_snp_data] logs "[Error] HTTP error occurred: ..." and raises
    the error again; [search_snp] then returns
    "Error searching for SNP: ..." and [get_snp_info] returns
    "Error retrieving SNP information: ...", with the text of the
    error. *)
Theorem snp_fetch_failure_is_reported (w : world)
    (with_params : string → list (string * string) → string)
    (query : string) (s : state) (msg : string) :
  fetch_failure w (st_clock s) (search_url with_params query) = Some msg →
  let s' :=
    {| st_files := st_files s;
       st_trace :=
         st_trace s ++
           [LogInfo ("[API] Fetching SNP data for query: " +:+ query);
            HttpGet (search_url with_params query) false;
            LogError ("[Error] HTTP error occurred: " +:+ msg)];
       st_clock := S (st_clock s);
       st_filename := st_filename s |} in
  Snp.fetch_snp_data w with_params query s = (Raise (HTTPError msg), s')
  ∧ Snp.search_snp w with_params query s
    = (Ok ("Error searching for SNP: " +:+ msg), s')
  ∧ Snp.get_snp_info w with_params query s
    = (Ok ("Error retrieving SNP information: " +:+ msg), s').
Proof.
  intros Hfail s'. pose proof (fetch_fails w with_params query s msg Hfail) as Hf.
  split; [done|].
  unfold Snp.search_snp, Snp.get_snp_info, try_except, mbind, M_bind.
  rewrite Hf. done.
Qed.

Lemma snp_fetch_failure_is_reported_witness :
  let s' :=
    {| st_files := ∅;
       st_trace :=
         [LogInfo "[API] Fetching SNP data for query: rs6311";
          HttpGet (search_url plain_params "rs6311") false;
          LogError "[Error] HTTP error occurred: connection refused"];
       st_clock := 1;
       st_filename := None |} in
  Snp.fetch_snp_data refusing_world plain_params "rs6311" init
    = (Raise (HTTPError "connection refused"), s')
  ∧ Snp.search_snp refusing_world plain_params "rs6311" init
    = (Ok "Error searching for SNP: connection refused", s')
  ∧ Snp.get_snp_info refusing_world plain_params "rs6311" init
    = (Ok "Error retrieving SNP information: connection refused", s').
Proof.
  apply (snp_fetch_failure_is_reported refusing_world plain_params "rs6311"
           init "connection refused").
  reflexivity.
Defined.

(** ** The records of an answer *)

Lemma format_record (w : world) (item : json) :
  is_record item → ∃ out, Snp.format_snp_data w item = Ok out.
Proof. intros (v & rest & ->). by apply format_list. Qed.

Lemma map_all_records (w : world) (items : list json) :
  Forall is_record items →
  ∃ frags,
    Pyx.map_all (Snp.format_snp_data w) items = Ok frags
    ∧ Forall2 (λ item frag, Snp.format_snp_data w item = Ok frag) items frags.
Proof.
  induction 1 as [|item items Hitem _ (frags & Hall & Hfrags)].
  - by exists [].
  - destruct (format_record w item Hitem) as [frag Hfrag].
    exists (frag :: frags). split; [|by constructor].
    cbn [Pyx.map_all]. rewrite Hfrag. cbn [mbind outcome_bind].
    by rewrite Hall.
Qed.

Lemma map_all_empty_record (w : world) (good bad : list json) :
  Forall is_record good →
  Pyx.map_all (Snp.format_snp_data w) (good ++ JArr [] :: bad)
    = Raise (IndexError "list index out of range").
Proof.
  induction 1 as [|item items Hitem _ IH]; [done|].
  destruct (format_record w item Hitem) as [frag Hfrag].
  cbn [app Pyx.map_all]. rewrite Hfrag. cbn [mbind outcome_bind].
  by rewrite IH.
Qed.

Lemma no_results_of_records (total a b : json) (items rest : list json) :
  Snp.no_results (JArr (total :: a :: b :: JArr items :: rest))
    = Ok (match items with [] => true | _ => false end).
Proof. unfold Snp.no_results. cbn. by destruct items. Qed.

Lemma append_assoc (s1 s2 s3 : string) :
  (s1 +:+ s2) +:+ s3 = s1 +:+ (s2 +:+ s3).
Proof. induction s1 as [|c s1 IH]; [done|]. exact (f_equal (String c) IH). Qed.

(** X13. When the service answers with records (a list whose fourth
    element is a non-empty list of non-empty lists), [search_snp]
    returns the summary line, which shows the total the service reported
    and the number of records of the answer, followed by the text of
    every record in the order of the answer, joined with the separator;
    [get_snp_info] returns the text of the first record alone. *)
Theorem search_shows_every_record (w : world)
    (with_params : string → list (string * string) → string)
    (query : string) (s : state) (resp : response) (total a b : json)
    (items rest : list json) :
  http_get w (st_clock s) (search_url with_params query) false = Ok resp →
  is_success resp = true →
  json_body resp = Ok (JArr (total :: a :: b :: JArr items :: rest)) →
  items ≠ [] →
  Forall is_record items →
  ∃ frags,
    Forall2 (λ item frag, Snp.format_snp_data w item = Ok frag) items frags
    ∧ Snp.search_snp w with_params query s =
        (Ok (summary w total (length items)
               +:+ Str.join Snp.separator frags),
         after_fetch with_params query s)
    ∧ Snp.get_snp_info w with_params query s =
        (Ok (hd "" frags), after_fetch with_params query s).
Proof.
  intros Hget Hok Hjson Hne Hrec.
  destruct (map_all_records w items Hrec) as (frags & Hall & Hfrags).
  pose proof (fetch_ok w with_params query s resp _ Hget Hok Hjson) as Hf.
  exists frags. split; [done|].
  unfold Snp.search_snp, Snp.get_snp_info, try_except, mbind, M_bind.
  rewrite Hf. unfold lift. rewrite no_results_of_records.
  destruct items as [|item items]; [done|].
  cbn [Pyx.index lookup list_lookup Py.iter].
  rewrite Hall. split.
  - unfold summary, mret, M_ret.
    rewrite <- (Forall2_length _ _ _ Hfrags), !append_assoc. reflexivity.
  - destruct frags as [|frag frags]; [by apply Forall2_nil_inv_r in Hfrags|].
    apply Forall2_cons_1 in Hfrags as [-> _]. reflexivity.
Qed.

Lemma search_shows_every_record_witness :
  ∃ frags,
    Forall2 (λ item frag,
               Snp.format_snp_data (snp_world two_records) item = Ok frag)
      [record_rs6311; record_short] frags
    ∧ Snp.search_snp (snp_world two_records) plain_params "rs631" init =
        (Ok (summary (snp_world two_records) (JInt 2) 2
               +:+ Str.join Snp.separator frags),
         after_fetch plain_params "rs631" init)
    ∧ Snp.get_snp_info (snp_world two_records) plain_params "rs631" init =
        (Ok (hd "" frags), after_fetch plain_params "rs631" init).
Proof.
  apply (search_shows_every_record (snp_world two_records) plain_params
           "rs631" init (json_response two_records) (JInt 2)
           (JArr [JStr "rs6311"; JStr "rs6313"]) JNull
           [record_rs6311; record_short] []).
  - reflexivity.
  - reflexivity.
  - reflexivity.
  - discriminate.
  - repeat constructor; eexists _, _; reflexivity.
Defined.

Lemma no_results_of_empty (data : json) :
  answer_is_empty data → Snp.no_results data = Ok true.
Proof.
  unfold Snp.no_results.
  intros [Hfalsy|(items & -> & [Hshort|(m & Hm & Hfalsy)])].
  - by rewrite Hfalsy.
  - destruct items as [|?[|?[|?[|? items]]]]; try done.
    cbn [length] in Hshort. lia.
  - destruct items as [|?[|?[|?[|? items]]]]; try done.
    cbn in Hm. injection Hm as ->. cbn. by rewrite Hfalsy.
Qed.

(** X14. When the service answers without records (a falsy value such
    as null or an empty list, a list of fewer than four elements, or a
    list whose fourth element is empty or null), [search_snp] returns
    "No SNP information found for query: ..." and [get_snp_info]
    returns "No information found for SNP: ...", with the query; nothing
    is formatted and no further request is made. *)
Theorem empty_answer_is_reported (w : world)
    (with_params : string → list (string * string) → string)
    (query : string) (s : state) (resp : response) (data : json) :
  http_get w (st_clock s) (search_url with_params query) false = Ok resp →
  is_success resp = true →
  json_body resp = Ok data →
  answer_is_empty data →
  Snp.search_snp w with_params query s =
    (Ok ("No SNP information found for query: " +:+ query),
     after_fetch with_params query s)
  ∧ Snp.get_snp_info w with_params query s =
    (Ok ("No information found for SNP: " +:+ query),
     after_fetch with_params query s).
Proof.
  intros Hget Hok Hjson Hempty.
  pose proof (fetch_ok w with_params query s resp _ Hget Hok Hjson) as Hf.
  unfold Snp.search_snp, Snp.get_snp_info, try_except, mbind, M_bind.
  rewrite Hf. unfold lift. by rewrite (no_results_of_empty _ Hempty).
Qed.

Lemma empty_answer_is_reported_witness :
  Snp.search_snp (snp_world no_records) plain_params "rs0" init =
    (Ok "No SNP information found for query: rs0",
     after_fetch plain_params "rs0" init)
  ∧ Snp.get_snp_info (snp_world no_records) plain_params "rs0" init =
    (Ok "No information found for SNP: rs0",
     after_fetch plain_params "rs0" init).
Proof.
  apply (empty_answer_is_reported (snp_world no_records) plain_params "rs0"
           init (json_response no_records) no_records).
  - reflexivity.
  - reflexivity.
  - reflexivity.
  - right. exists [JInt 0; JArr []; JNull; JArr []]. split; [reflexivity|].
    right. exists (JArr []). split; reflexivity.
Defined.

(** X15. One empty record fails the whole search: when the list of
    records of the answer holds an empty list after records that are
    non-empty lists, [search_snp] returns
    "Error searching for SNP: list index out of range" and shows none
    of the records it had formatted, whereas [get_snp_info] still
    returns the text of the first record when there is one before the
    empty record. *)
Theorem empty_record_fails_the_search (w : world)
    (with_params : string → list (string * string) → string)
    (query : string) (s : state) (resp : response) (total a b : json)
    (good bad rest : list json) :
  http_get w (st_clock s) (search_url with_params query) false = Ok resp →
  is_success resp = true →
  json_body resp
    = Ok (JArr (total :: a :: b :: JArr (good ++ JArr [] :: bad) :: rest)) →
  Forall is_record good →
  Snp.search_snp w with_params query s =
    (Ok "Error searching for SNP: list index out of range",
     after_fetch with_params query s)
  ∧ ∀ first others, good = first :: others →
      ∃ frag,
        Snp.format_snp_data w first = Ok frag
        ∧ Snp.get_snp_info w with_params query s =
            (Ok frag, after_fetch with_params query s).
Proof.
  intros Hget Hok Hjson Hgood.
  pose proof (fetch_ok w with_params query s resp _ Hget Hok Hjson) as Hf.
  pose proof (map_all_empty_record w good bad Hgood) as Hall.
  unfold Snp.search_snp, Snp.get_snp_info, try_except, mbind, M_bind.
  rewrite Hf. unfold lift. rewrite no_results_of_records.
  split.
  - destruct (good ++ JArr [] :: bad) as [|item items] eqn:Hitems;
      [by destruct good|].
    cbn [Pyx.index lookup list_lookup Py.iter]. by rewrite Hall.
  - intros first others ->.
    apply Forall_cons_1 in Hgood as [Hfirst _].
    destruct (format_record w first Hfirst) as [frag Hfrag].
    exists frag. split; [done|].
    cbn [app Pyx.index lookup list_lookup]. by rewrite Hfrag.
Qed.

Lemma empty_record_fails_the_search_witness :
  Snp.search_snp (snp_world empty_record) plain_params "rs631" init =
    (Ok "Error searching for SNP: list index out of range",
     after_fetch plain_params "rs631" init)
  ∧ ∀ first others, [record_rs6311] = first :: others →
      ∃ frag,
        Snp.format_snp_data (snp_world empty_record) first = Ok frag
        ∧ Snp.get_snp_info (snp_world empty_record) plain_params "rs631" init
          = (Ok frag, after_fetch plain_params "rs631" init).
Proof.
  apply (empty_record_fails_the_search (snp_world empty_record) plain_params
           "rs631" init (json_response empty_record) (JInt 2)
           (JArr [JStr "rs6311"; JStr "rs6313"]) JNull
           [record_rs6311] [] []).
  - reflexivity.
  - reflexivity.
  - reflexivity.
  - repeat constructor; eexists _, _; reflexivity.
Defined.

(** ** The functions of server.py *)

Ltac exec_srv :=
  cbv [Server.get_snp_by_rs Server.search_snps Server.handle_api_error
       Server.requests_get Server.get_snp_clinical_significance
       refsnp_url esearch_url after_request failure api_error
       client_get try_except mbind M_bind mret M_ret raise lift emit
       tick clock log_info log_error
       st_files st_trace st_clock st_filename].

Lemma http_requests_step (t : list event) (first url : string)
    (logs : list event) :
  Forall (λ ev, is_http_get ev = false) logs →
  http_requests (t ++ LogInfo first :: HttpGet url true :: logs)
    = S (http_requests t).
Proof.
  intros Hlogs. rewrite http_requests_app. unfold http_requests at 2.
  cbn [List.filter is_http_get length].
  replace (List.filter is_http_get logs) with (@nil event); [cbn; lia|].
  induction Hlogs as [|ev logs Hev _ IH]; [done|].
  cbn [List.filter]. by rewrite Hev.
Qed.

Lemma get_snp_by_rs_cases (w : world) (p : platform) (rs_id : string)
    (s : state) :
  let first := "[API] Requesting SNP data for " +:+ Server.normalize rs_id in
  let url := refsnp_url rs_id in
  match http_get w (st_clock s) url true with
  | Ok resp =>
      if (status_code resp =? 200)%Z then
        match json_body resp with
        | Ok data =>
            Server.get_snp_by_rs w p rs_id s =
              (Ok (JObj [("success", JBool true); ("data", data);
                         ("rs_id", JStr (Server.normalize rs_id))]),
               after_request first url
                 [LogInfo ("[API] Successfully retrieved data for "
                             +:+ Server.normalize rs_id)] s)
        | Raise e =>
            Server.get_snp_by_rs w p rs_id s =
              (Ok (failure (str_exn e)),
               after_request first url
                 [LogError ("[Error] Failed to retrieve SNP data: "
                              +:+ str_exn e)] s)
        end
      else
        Server.get_snp_by_rs w p rs_id s =
          (Ok (api_error p resp),
           after_request first url
             [LogError ("[API] Error " +:+ Str.of_Z (status_code resp)
                          +:+ ": " +:+ json_dumps p (Server.error_data p resp))]
             s)
  | Raise e =>
      Server.get_snp_by_rs w p rs_id s =
        (Ok (failure (str_exn e)),
         after_request first url
           [LogError ("[Error] Failed to retrieve SNP data: " +:+ str_exn e)]
           s)
  end.
Proof.
  destruct s as [fs tr ck fn]. exec_srv.
  destruct (http_get w ck _ true) as [resp|e]; [|f_equal; f_equal; trace_eq].
  destruct (status_code resp =? 200)%Z;
    [destruct (json_body resp)|]; f_equal; f_equal; trace_eq.
Qed.

(** X16. [get_snp_by_rs] never raises: it returns a dict whose
    "success" is a boolean, after exactly one HTTP request, which follows
    redirects and goes to the refsnp URL of the normalized identifier.
    "success" is true exactly when the request was answered with the
    status 200 and a body that is JSON. *)
Theorem get_snp_by_rs_always_answers (w : world) (p : platform)
    (rs_id : string) (s : state) :
  ∃ fields ok logs,
    Server.get_snp_by_rs w p rs_id s =
      (Ok (JObj fields),
       after_request
         ("[API] Requesting SNP data for " +:+ Server.normalize rs_id)
         (refsnp_url rs_id) logs s)
    ∧ Forall (λ ev, is_http_get ev = false) logs
    ∧ Py.assoc "success" fields = Some (JBool ok)
    ∧ (ok = true ↔
       ∃ resp data,
         http_get w (st_clock s) (refsnp_url rs_id) true = Ok resp
         ∧ status_code resp = 200%Z
         ∧ json_body resp = Ok data).
Proof.
  pose proof (get_snp_by_rs_cases w p rs_id s) as H. cbv zeta in H.
  destruct (http_get w (st_clock s) (refsnp_url rs_id) true) as [resp|e].
  - destruct (status_code resp =? 200)%Z eqn:Hcode.
    + apply Z.eqb_eq in Hcode. destruct (json_body resp) as [data|e] eqn:Hjson.
      * eexists _, true, _. split; [exact H|].
        split; [by repeat constructor|]. split; [done|].
        split; [intros _; by exists resp, data|done].
      * eexists _, false, _. split; [exact H|].
        split; [by repeat constructor|]. split; [done|].
        split; [done|]. intros (r & d & [= <-] & _ & Hd). congruence.
    + apply Z.eqb_neq in Hcode.
      eexists _, false, _. split; [exact H|].
      split; [by repeat constructor|]. split; [done|].
      split; [done|]. intros (r & d & [= <-] & Hr & _). done.
  - eexists _, false, _. split; [exact H|].
    split; [by repeat constructor|]. split; [done|].
    split; [done|]. intros (r & d & [=] & _).
Qed.

Lemma search_snps_cases (w : world) (p : platform) (term : string)
    (limit : Z) (s : state) :
  let first := "[API] Searching SNPs with term: " +:+ term +:+ ", limit: "
                 +:+ Str.of_Z limit in
  let url := esearch_url p term limit in
  let found := LogInfo ("[API] Successfully retrieved search results for '"
                          +:+ term +:+ "'") in
  let failed e := LogError ("[Error] Failed to search SNPs: " +:+ str_exn e) in
  match http_get w (st_clock s) url true with
  | Ok resp =>
      if (status_code resp =? 200)%Z then
        match json_body resp with
        | Ok data =>
            match Server.search_result w p term limit data with
            | Ok result =>
                Server.search_snps w p term limit s =
                  (Ok result, after_request first url [found] s)
            | Raise e =>
                Server.search_snps w p term limit s =
                  (Ok (failure (str_exn e)),
                   after_request first url [found; failed e] s)
            end
        | Raise e =>
            Server.search_snps w p term limit s =
              (Ok (failure (str_exn e)), after_request first url [failed e] s)
        end
      else
        Server.search_snps w p term limit s =
          (Ok (api_error p resp),
           after_request first url
             [LogError ("[API] Error " +:+ Str.of_Z (status_code resp)
                          +:+ ": " +:+ json_dumps p (Server.error_data p resp))]
             s)
  | Raise e =>
      Server.search_snps w p term limit s =
        (Ok (failure (str_exn e)), after_request first url [failed e] s)
  end.
Proof.
  destruct s as [fs tr ck fn]. exec_srv.
  destruct (http_get w ck _ true) as [resp|e]; [|f_equal; f_equal; trace_eq].
  destruct (status_code resp =? 200)%Z;
    [destruct (json_body resp) as [data|e];
       [destruct (Server.search_result w p term limit data)|]|];
    f_equal; f_equal; trace_eq.
Qed.

(** X17. Only the status 200 is a success for [get_snp_by_rs] and
    [search_snps]: an answer with any other status, another 2xx status
    included, gives the dict of [handle_api_error], with "success" false,
    the status code and, as "error", the body when it is JSON and
    otherwise the text of the body under "raw_text"; one error line is
    logged and nothing is raised. *)
Theorem only_status_200_is_success (w : world) (p : platform)
    (rs_id term : string) (limit : Z) (s : state) (resp : response) :
  status_code resp ≠ 200%Z →
  let line :=
    LogError ("[API] Error " +:+ Str.of_Z (status_code resp) +:+ ": "
                +:+ json_dumps p (Server.error_data p resp)) in
  (http_get w (st_clock s) (refsnp_url rs_id) true = Ok resp →
   Server.get_snp_by_rs w p rs_id s =
     (Ok (api_error p resp),
      after_request
        ("[API] Requesting SNP data for " +:+ Server.normalize rs_id)
        (refsnp_url rs_id) [line] s))
  ∧ (http_get w (st_clock s) (esearch_url p term limit) true = Ok resp →
     Server.search_snps w p term limit s =
       (Ok (api_error p resp),
        after_request
          ("[API] Searching SNPs with term: " +:+ term +:+ ", limit: "
             +:+ Str.of_Z limit)
          (esearch_url p term limit) [line] s)).
Proof.
  intros Hcode line. apply Z.eqb_neq in Hcode. split; intros Hget.
  - pose proof (get_snp_by_rs_cases w p rs_id s) as H. cbv zeta in H.
    by rewrite Hget, Hcode in H.
  - pose proof (search_snps_cases w p term limit s) as H. cbv zeta in H.
    by rewrite Hget, Hcode in H.
Qed.

Lemma only_status_200_is_success_witness :
  let resp :=
    {| status_code := 204; content_type := Some "text/html";
       json_body := Raise (ValueError
                             "Expecting value: line 1 column 1 (char 0)");
       content := [] |} in
  let result :=
    JObj [("success", JBool false); ("status_code", JInt 204);
          ("error", JObj [("raw_text", JStr "<html>Not Found</html>")])] in
  Server.get_snp_by_rs (status_world 204) sample_platform "rs6311" init =
    (Ok result,
     after_request "[API] Requesting SNP data for rs6311"
       "https://api.ncbi.nlm.nih.gov/variation/v0/refsnp/rs6311"
       [LogError "[API] Error 204: {...}"] init)
  ∧ Server.search_snps (status_world 204) sample_platform "BRCA1" 3 init =
    (Ok result,
     after_request "[API] Searching SNPs with term: BRCA1, limit: 3"
       (esearch_url sample_platform "BRCA1" 3)
       [LogError "[API] Error 204: {...}"] init).
Proof.
  intros resp result.
  destruct (only_status_200_is_success (status_world 204) sample_platform
              "rs6311" "BRCA1" 3 init resp) as [H1 H2]; [done|].
  split; [apply H1|apply H2]; reflexivity.
Defined.

(** ** Normalizing an identifier *)

Lemma lower_app (a b : string) :
  Str.lower (a +:+ b) = Str.lower a +:+ Str.lower b.
Proof.
  induction a as [|c a IH]; [done|].
  change (String (Str.lower_ascii c) (Str.lower (a +:+ b))
          = String (Str.lower_ascii c) (Str.lower a +:+ Str.lower b)).
  by rewrite IH.
Qed.

Lemma digit_facts (c : ascii) :
  is_digit c = true → Str.lower_ascii c = c ∧ Ascii.eqb c "r" = false.
Proof. destruct c as [[] [] [] [] [] [] [] []]; by vm_compute. Qed.

Lemma lower_digits (n : string) : all_digits n = true → Str.lower n = n.
Proof.
  induction n as [|c n IH]; [done|]. cbn [all_digits].
  intros [Hc Hn]%andb_prop. destruct (digit_facts c Hc) as [Hl _].
  change (String (Str.lower_ascii c) (Str.lower n) = String c n).
  by rewrite Hl, IH.
Qed.

Lemma remove_rs_digits (n : string) :
  all_digits n = true → Server.remove_rs n = n.
Proof.
  induction n as [|c n IH]; [done|]. cbn [all_digits].
  intros [Hc Hn]%andb_prop. destruct (digit_facts c Hc) as [_ Hr].
  cbn [Server.remove_rs]. destruct n as [|c' n]; [done|].
  rewrite Hr. cbn [andb]. by rewrite (IH Hn).
Qed.

Lemma normalize_prefixed (prefix n : string) :
  Str.lower prefix = "rs" → all_digits n = true →
  Server.normalize (prefix +:+ n) = "rs" +:+ n
  ∧ Server.normalize n = "rs" +:+ n.
Proof.
  intros Hp Hn. unfold Server.normalize.
  rewrite lower_app, Hp, (lower_digits n Hn).
  split; [|by rewrite remove_rs_digits].
  f_equal. transitivity (Server.remove_rs n); [|by apply remove_rs_digits].
  reflexivity.
Qed.

(** X18. The "rs" prefix of an identifier is optional and its case does
    not matter: for a number written in digits, [get_snp_by_rs] and
    [get_snp_clinical_significance] behave on the prefixed identifier
    ("rs...", "RS...", "Rs...") exactly as on the bare number, and they
    request the refsnp URL that ends in "rs" and the number. *)
Theorem rs_prefix_is_optional (w : world) (p : platform)
    (prefix n : string) (s : state) :
  Str.lower prefix = "rs" →
  all_digits n = true →
  refsnp_url (prefix +:+ n) = Server.BASE_URL +:+ "/refsnp/rs" +:+ n
  ∧ Server.get_snp_by_rs w p (prefix +:+ n) s = Server.get_snp_by_rs w p n s
  ∧ Server.get_snp_clinical_significance w p (prefix +:+ n) s
    = Server.get_snp_clinical_significance w p n s.
Proof.
  intros Hp Hn. destruct (normalize_prefixed prefix n Hp Hn) as [H1 H2].
  unfold refsnp_url, Server.get_snp_by_rs,
    Server.get_snp_clinical_significance.
  rewrite H1, H2. done.
Qed.

Lemma rs_prefix_is_optional_witness :
  refsnp_url "RS6311" =
    "https://api.ncbi.nlm.nih.gov/variation/v0/refsnp/rs6311"
  ∧ Server.get_snp_by_rs (status_world 200) sample_platform "RS6311" init
    = Server.get_snp_by_rs (status_world 200) sample_platform "6311" init
  ∧ Server.get_snp_clinical_significance (status_world 200) sample_platform
      "RS6311" init
    = Server.get_snp_clinical_significance (status_world 200) sample_platform
        "6311" init.
Proof.
  apply (rs_prefix_is_optional (status_world 200) sample_platform "RS" "6311"
           init); reflexivity.
Defined.

(** ** Clinical significance *)

Lemma clinical_after (w : world) (p : platform) (rs_id : string) (s s' : state)
    (fields : list (string * json)) :
  let start :=
    logged (LogInfo ("[API] Requesting clinical significance data for "
                       +:+ Server.normalize rs_id)) s in
  Server.get_snp_by_rs w p (Server.normalize rs_id) start
    = (Ok (JObj fields), s') →
  Server.get_snp_clinical_significance w p rs_id s =
    if Py.truthy (default (JBool false) (Py.assoc "success" fields)) then
      match Server.clinical_info
              (default (JObj []) (Py.assoc "data" fields)) with
      | Ok info =>
          (Ok (clinical_result rs_id info),
           logged (LogInfo ("[API] Successfully extracted clinical data for "
                              +:+ Server.normalize rs_id)) s')
      | Raise e =>
          (Ok (clinical_failure rs_id (str_exn e)),
           logged (LogError ("[Error] Failed to parse clinical significance: "
                               +:+ str_exn e)) s')
      end
    else (Ok (JObj fields), s').
Proof.
  intros start Hget. subst start.
  cbv [logged] in Hget.
  cbv [Server.get_snp_clinical_significance log_info log_error emit mbind
       M_bind lift try_except mret M_ret logged clinical_result
       clinical_failure].
  rewrite Hget. cbn [Py.get].
  destruct (Py.truthy _); cbn [negb]; [|done].
  destruct (Server.clinical_info _); done.
Qed.

(** X19. When [get_snp_by_rs] reports a failure,
    [get_snp_clinical_significance] returns the very dict it got from
    it, without an "rs_id", and does nothing more. *)
Theorem clinical_failure_is_passed_through (w : world) (p : platform)
    (rs_id : string) (s s' : state) (fields : list (string * json)) :
  Server.get_snp_by_rs w p (Server.normalize rs_id)
    (logged (LogInfo ("[API] Requesting clinical significance data for "
                        +:+ Server.normalize rs_id)) s)
    = (Ok (JObj fields), s') →
  Py.assoc "success" fields = Some (JBool false) →
  Server.get_snp_clinical_significance w p rs_id s = (Ok (JObj fields), s')
  ∧ Py.assoc "rs_id" fields = None.
Proof.
  intros Hget Hfail. split.
  - rewrite (clinical_after w p rs_id s s' fields Hget). by rewrite Hfail.
  - pose proof (get_snp_by_rs_cases w p (Server.normalize rs_id)
                  (logged (LogInfo
                             ("[API] Requesting clinical significance data for "
                                +:+ Server.normalize rs_id)) s)) as H.
    cbv zeta in H. rewrite Hget in H.
    repeat case_match; simplify_eq; done.
Qed.

Lemma clinical_failure_is_passed_through_witness :
  Server.get_snp_clinical_significance refusing_world sample_platform
    "rs6311" init
  = (Ok (failure "connection refused"),
     after_request "[API] Requesting SNP data for rs6311"
       "https://api.ncbi.nlm.nih.gov/variation/v0/refsnp/rs6311"
       [LogError "[Error] Failed to retrieve SNP data: connection refused"]
       (logged (LogInfo
                  "[API] Requesting clinical significance data for rs6311")
          init))
  ∧ Py.assoc "rs_id"
      [("success", JBool false); ("error", JStr "connection refused")] = None.
Proof.
  apply (clinical_failure_is_passed_through refusing_world sample_platform
           "rs6311" init); reflexivity.
Defined.

Lemma clinical_on_data (w : world) (p : platform) (rs_id : string) (s : state)
    (resp : response) (data : json) :
  http_get w (st_clock s) (refsnp_url (Server.normalize rs_id)) true
    = Ok resp →
  status_code resp = 200%Z →
  json_body resp = Ok data →
  Server.get_snp_clinical_significance w p rs_id s =
    match Server.clinical_info data with
    | Ok info =>
        (Ok (clinical_result rs_id info),
         after_clinical rs_id
           (LogInfo ("[API] Successfully extracted clinical data for "
                       +:+ Server.normalize rs_id)) s)
    | Raise e =>
        (Ok (clinical_failure rs_id (str_exn e)),
         after_clinical rs_id
           (LogError ("[Error] Failed to parse clinical significance: "
                        +:+ str_exn e)) s)
    end.
Proof.
  intros Hget Hcode Hjson.
  pose proof (get_snp_by_rs_cases w p (Server.normalize rs_id)
                (logged (LogInfo
                           ("[API] Requesting clinical significance data for "
                              +:+ Server.normalize rs_id)) s)) as H.
  cbv zeta in H. cbn [logged st_clock] in H.
  rewrite Hget, Hcode, Hjson in H. cbn [Z.eqb Pos.eqb] in H.
  by rewrite (clinical_after w p rs_id s _ _ H).
Qed.

Lemma http_requests_logged (ev : event) (s : state) :
  is_http_get ev = false →
  http_requests (st_trace (logged ev s)) = http_requests (st_trace s).
Proof.
  intros Hev. cbn [logged st_trace]. rewrite http_requests_app.
  unfold http_requests at 2. cbn [List.filter]. rewrite Hev. cbn. lia.
Qed.

Lemma http_requests_after (first url : string) (logs : list event)
    (s : state) :
  Forall (λ ev, is_http_get ev = false) logs →
  http_requests (st_trace (after_request first url logs s))
    = S (http_requests (st_trace s)).
Proof. intros Hlogs. cbn [after_request st_trace]. by apply http_requests_step. Qed.

(** X20. [get_snp_clinical_significance] never raises, whatever the
    service answers and whatever the shape of the data: it returns a
    dict whose "success" is a boolean, after exactly one HTTP request,
    and it touches no file. *)
Theorem clinical_significance_always_answers (w : world) (p : platform)
    (rs_id : string) (s : state) :
  ∃ fields ok s',
    Server.get_snp_clinical_significance w p rs_id s = (Ok (JObj fields), s')
    ∧ Py.assoc "success" fields = Some (JBool ok)
    ∧ http_requests (st_trace s') = S (http_requests (st_trace s))
    ∧ st_files s' = st_files s.
Proof.
  set (start := logged (LogInfo
                          ("[API] Requesting clinical significance data for "
                             +:+ Server.normalize rs_id)) s).
  pose proof (get_snp_by_rs_cases w p (Server.normalize rs_id) start) as H.
  cbv zeta in H.
  assert (Hstart : http_requests (st_trace start) = http_requests (st_trace s))
    by by apply http_requests_logged.
  destruct (http_get w (st_clock start) _ true) as [resp|e].
  - destruct (status_code resp =? 200)%Z.
    + destruct (json_body resp) as [data|e].
      * rewrite (clinical_after w p rs_id s _ _ H). cbn [Py.assoc String.eqb
          Ascii.eqb Bool.eqb default from_option id Py.truthy].
        destruct (Server.clinical_info data) as [info|e].
        -- eexists _, true, _. split; [reflexivity|]. split; [done|].
           split; [|done].
           rewrite http_requests_logged, http_requests_after, Hstart;
             by repeat constructor.
        -- eexists _, false, _. split; [reflexivity|]. split; [done|].
           split; [|done].
           rewrite http_requests_logged, http_requests_after, Hstart;
             by repeat constructor.
      * rewrite (clinical_after w p rs_id s _ _ H).
        eexists _, false, _. split; [reflexivity|]. split; [done|].
        split; [|done].
        rewrite http_requests_after, Hstart; by repeat constructor.
    + rewrite (clinical_after w p rs_id s _ _ H).
      eexists _, false, _. split; [reflexivity|]. split; [done|].
      split; [|done].
      rewrite http_requests_after, Hstart; by repeat constructor.
  - rewrite (clinical_after w p rs_id s _ _ H).
    eexists _, false, _. split; [reflexivity|]. split; [done|].
    split; [|done].
    rewrite http_requests_after, Hstart; by repeat constructor.
Qed.

(** X21. A "primary_snapshot_data" that is present but is no dict, null
    for one, is not taken as missing: [get_snp_clinical_significance]
    then reports the failure "Failed to parse clinical data: '...' object
    has no attribute 'get'" with the name of the type of the value, after
    [get_snp_by_rs] had logged a success. *)
Theorem snapshot_that_is_no_dict_is_an_error (w : world) (p : platform)
    (rs_id : string) (s : state) (resp : response)
    (fields : list (string * json)) (v : json) :
  http_get w (st_clock s) (refsnp_url (Server.normalize rs_id)) true
    = Ok resp →
  status_code resp = 200%Z →
  json_body resp = Ok (JObj fields) →
  Py.assoc "primary_snapshot_data" fields = Some v →
  ¬ is_dict v →
  let msg := "'" +:+ Py.type_name v +:+ "' object has no attribute 'get'" in
  Server.get_snp_clinical_significance w p rs_id s =
    (Ok (clinical_failure rs_id msg),
     after_clinical rs_id
       (LogError ("[Error] Failed to parse clinical significance: " +:+ msg))
       s).
Proof.
  intros Hget Hcode Hjson Hv Hnd msg.
  rewrite (clinical_on_data w p rs_id s resp _ Hget Hcode Hjson).
  unfold Server.clinical_info. cbn [Py.get mbind outcome_bind].
  rewrite Hv. cbn [default from_option id].
  destruct v; first [done|by destruct Hnd].
Qed.

Lemma snapshot_that_is_no_dict_is_an_error_witness :
  Server.get_snp_clinical_significance (snp_world null_snapshot)
    sample_platform "rs6311" init =
    (Ok (clinical_failure "rs6311"
           "'NoneType' object has no attribute 'get'"),
     after_clinical "rs6311"
       (LogError ("[Error] Failed to parse clinical significance: "
                    +:+ "'NoneType' object has no attribute 'get'"))
       init).
Proof.
  apply (snapshot_that_is_no_dict_is_an_error (snp_world null_snapshot)
           sample_platform "rs6311" init (json_response null_snapshot)
           [("refsnp_id", JStr "6311"); ("primary_snapshot_data", JNull)]
           JNull).
  - reflexivity.
  - reflexivity.
  - reflexivity.
  - reflexivity.
  - intros [].
Defined.

Lemma map_all_Forall2 {A B} (f : A → outcome B) (P : A → B → Prop)
    (l : list A) :
  Forall (λ x, ∃ y, f x = Ok y ∧ P x y) l →
  ∃ ys, Pyx.map_all f l = Ok ys ∧ Forall2 P l ys.
Proof.
  induction 1 as [|x l (y & Hy & HP) _ (ys & Hys & HPs)].
  - by exists [].
  - exists (y :: ys). split; [|by constructor].
    cbn [Pyx.map_all]. rewrite Hy. cbn [mbind outcome_bind]. by rewrite Hys.
Qed.

Lemma disease_names_ok (ds : list json) :
  Forall is_dict ds → ∃ names, Pyx.map_all Server.disease_name ds = Ok names.
Proof.
  intros Hds.
  destruct (map_all_Forall2 Server.disease_name (λ _ _, True) ds)
    as (names & Hnames & _); [|by exists names].
  eapply Forall_impl; [exact Hds|]. intros [] Hd; try done.
  by eexists.
Qed.

Lemma clinical_entry_ok (clinical_annotation : json) :
  wf_clinical clinical_annotation →
  ∃ entry,
    Server.clinical_entry clinical_annotation = Ok entry
    ∧ is_clinical_entry entry.
Proof.
  intros (fields & ds & -> & Hds & Hdict).
  destruct (disease_names_ok ds Hdict) as [names Hnames].
  unfold Server.clinical_entry. cbn [Py.get mbind outcome_bind].
  rewrite Hds. cbn [Py.iter mbind outcome_bind]. rewrite Hnames.
  eexists. split; [reflexivity|]. by eexists _, _, _, _.
Qed.

Lemma annotation_entries_ok (annotation : json) :
  wf_annotation annotation →
  ∃ entries,
    Server.annotation_entries annotation = Ok entries
    ∧ length entries = length (clinical_of annotation)
    ∧ Forall is_clinical_entry entries.
Proof.
  intros (fields & clinical & -> & Hclinical & Hwf).
  destruct (map_all_Forall2 Server.clinical_entry
              (λ _ entry, is_clinical_entry entry) clinical)
    as (entries & Hentries & Hall).
  { eapply Forall_impl; [exact Hwf|]. intros ca Hca.
    by apply clinical_entry_ok. }
  exists entries. unfold Server.annotation_entries, clinical_of.
  cbn [Py.get mbind outcome_bind]. rewrite Hclinical.
  cbn [Py.iter mbind outcome_bind].
  split; [done|]. split; [by rewrite (Forall2_length _ _ _ Hall)|].
  clear Hentries Hclinical Hwf.
  induction Hall as [|x y l k Hxy _ IH]; [constructor|by constructor].
Qed.

Lemma clinical_entries_ok (annotations : list json) :
  Forall wf_annotation annotations →
  ∃ groups,
    Pyx.map_all Server.annotation_entries annotations = Ok groups
    ∧ length (concat groups) = clinical_count annotations
    ∧ Forall is_clinical_entry (concat groups).
Proof.
  induction 1 as [|a l Ha _ (groups & Hgroups & Hlen & Hall)].
  - by exists [].
  - destruct (annotation_entries_ok a Ha) as (entries & Hentries & Hn & He).
    exists (entries :: groups). cbn [Pyx.map_all]. rewrite Hentries.
    cbn [mbind outcome_bind]. rewrite Hgroups.
    split; [done|]. cbn [concat]. split.
    + rewrite length_app, Hn, Hlen. reflexivity.
    + by apply Forall_app.
Qed.

(** X22. When the data is well formed (the snapshot is a dict or is
    missing, its allele annotations are dicts whose "clinical" is a list
    of dicts or is missing, and every "disease_names" is a list of dicts
    or is missing), [get_snp_clinical_significance] succeeds and returns
    one entry per clinical annotation, over all the allele annotations,
    each with exactly the keys "accession", "clinical_significance",
    "disease_names" and "review_status"; when there is no clinical
    annotation at all it returns the text
    "No clinical significance data found" in place of the list. *)
Theorem one_entry_per_clinical_annotation (w : world) (p : platform)
    (rs_id : string) (s : state) (resp : response)
    (fields snapshot : list (string * json)) (annotations : list json) :
  http_get w (st_clock s) (refsnp_url (Server.normalize rs_id)) true
    = Ok resp →
  status_code resp = 200%Z →
  json_body resp = Ok (JObj fields) →
  default (JObj []) (Py.assoc "primary_snapshot_data" fields)
    = JObj snapshot →
  default (JArr []) (Py.assoc "allele_annotations" snapshot)
    = JArr annotations →
  Forall wf_annotation annotations →
  ∃ entries,
    Server.get_snp_clinical_significance w p rs_id s =
      (Ok (JObj [("success", JBool true);
                 ("rs_id", JStr (Server.normalize rs_id));
                 ("clinical_significance",
                  if decide (clinical_count annotations = 0%nat)
                  then JStr "No clinical significance data found"
                  else JArr entries)]),
       after_clinical rs_id
         (LogInfo ("[API] Successfully extracted clinical data for "
                     +:+ Server.normalize rs_id)) s)
    ∧ length entries = clinical_count annotations
    ∧ Forall is_clinical_entry entries.
Proof.
  intros Hget Hcode Hjson Hsnapshot Hannotations Hwf.
  destruct (clinical_entries_ok annotations Hwf)
    as (groups & Hgroups & Hlen & Hall).
  exists (concat groups). split; [|done].
  rewrite (clinical_on_data w p rs_id s resp _ Hget Hcode Hjson).
  unfold Server.clinical_info. cbn [Py.get mbind outcome_bind].
  rewrite Hsnapshot. cbn [Py.get mbind outcome_bind].
  rewrite Hannotations. cbn [Py.iter mbind outcome_bind].
  rewrite Hgroups. unfold clinical_result. rewrite <- Hlen.
  cbn [mbind outcome_bind]. destruct (concat groups); done.
Qed.

Lemma one_entry_per_clinical_annotation_witness :
  ∃ entries,
    Server.get_snp_clinical_significance (snp_world two_clinical)
      sample_platform "rs397507444" init =
      (Ok (JObj [("success", JBool true);
                 ("rs_id", JStr "rs397507444");
                 ("clinical_significance", JArr entries)]),
       after_clinical "rs397507444"
         (LogInfo "[API] Successfully extracted clinical data for rs397507444")
         init)
    ∧ length entries = 2%nat
    ∧ Forall is_clinical_entry entries.
Proof.
  apply (one_entry_per_clinical_annotation (snp_world two_clinical)
           sample_platform "rs397507444" init (json_response two_clinical)
           [("refsnp_id", JStr "397507444");
            ("primary_snapshot_data",
             JObj [("allele_annotations", JArr two_annotations)])]
           [("allele_annotations", JArr two_annotations)] two_annotations).
  - reflexivity.
  - reflexivity.
  - reflexivity.
  - reflexivity.
  - reflexivity.
  - repeat constructor.
    + eexists _, _. split; [reflexivity|]. split; [reflexivity|].
      repeat constructor.
      * eexists _, _. split; [reflexivity|]. split; [reflexivity|].
        by repeat constructor.
      * eexists _, _. split; [reflexivity|]. split; [reflexivity|].
        by repeat constructor.
    + eexists _, _. split; [reflexivity|]. split; [reflexivity|].
      by repeat constructor.
Defined.

(** ** Searching *)

Ltac step_outcome :=
  match goal with
  | |- context [mbind _ ?o] => destruct o eqn:?; cbn [mbind outcome_bind]
  end.

Lemma search_result_shape (w : world) (p : platform) (term : string)
    (limit : Z) (data result : json) :
  Server.search_result w p term limit data = Ok result →
  ∃ fields, result = JObj fields ∧ Py.assoc "success" fields = Some (JBool true).
Proof.
  unfold Server.search_result. repeat step_outcome; try done.
  intros [= <-]. by eexists.
Qed.

(** X23. [search_snps] never raises, whatever the service answers and
    whatever the shape of the data: it returns a dict whose "success" is
    a boolean, after exactly one HTTP request, which follows redirects
    and goes to the esearch URL with the parameters db, term, retmode
    and retmax (and api_key when a key is configured). *)
Theorem search_snps_always_answers (w : world) (p : platform)
    (term : string) (limit : Z) (s : state) :
  ∃ fields ok logs,
    Server.search_snps w p term limit s =
      (Ok (JObj fields),
       after_request
         ("[API] Searching SNPs with term: " +:+ term +:+ ", limit: "
            +:+ Str.of_Z limit)
         (request_url p Server.ESEARCH_URL
            ([("db", "snp"); ("term", term); ("retmode", "json");
              ("retmax", Str.of_Z limit)]
             ++ match api_key p with
                | Some key => if String.eqb key "" then []
                              else [("api_key", key)]
                | None => []
                end))
         logs s)
    ∧ Forall (λ ev, is_http_get ev = false) logs
    ∧ Py.assoc "success" fields = Some (JBool ok).
Proof.
  pose proof (search_snps_cases w p term limit s) as H. cbv zeta in H.
  change (request_url p Server.ESEARCH_URL _) with (esearch_url p term limit).
  destruct (http_get w (st_clock s) (esearch_url p term limit) true)
    as [resp|e].
  - destruct (status_code resp =? 200)%Z.
    + destruct (json_body resp) as [data|e].
      * destruct (Server.search_result w p term limit data)
          as [result|e] eqn:Hresult.
        -- destruct (search_result_shape _ _ _ _ _ _ Hresult)
             as (fields & -> & Hfields).
           eexists _, true, _. split; [exact H|].
           split; [by repeat constructor|done].
        -- eexists _, false, _. split; [exact H|].
           split; [by repeat constructor|done].
      * eexists _, false, _. split; [exact H|].
        split; [by repeat constructor|done].
    + eexists _, false, _. split; [exact H|].
      split; [by repeat constructor|done].
  - eexists _, false, _. split; [exact H|].
    split; [by repeat constructor|done].
Qed.

Lemma search_on_data (w : world) (p : platform) (term : string) (limit : Z)
    (s : state) (resp : response) (data : json) :
  http_get w (st_clock s) (esearch_url p term limit) true = Ok resp →
  status_code resp = 200%Z →
  json_body resp = Ok data →
  let first := "[API] Searching SNPs with term: " +:+ term +:+ ", limit: "
                 +:+ Str.of_Z limit in
  let found := LogInfo ("[API] Successfully retrieved search results for '"
                          +:+ term +:+ "'") in
  Server.search_snps w p term limit s =
    match Server.search_result w p term limit data with
    | Ok result =>
        (Ok result, after_request first (esearch_url p term limit) [found] s)
    | Raise e =>
        (Ok (failure (str_exn e)),
         after_request first (esearch_url p term limit)
           [found;
            LogError ("[Error] Failed to search SNPs: " +:+ str_exn e)] s)
    end.
Proof.
  intros Hget Hcode Hjson first found.
  pose proof (search_snps_cases w p term limit s) as H. cbv zeta in H.
  rewrite Hget, Hcode, Hjson in H. cbn [Z.eqb Pos.eqb] in H.
  by destruct (Server.search_result w p term limit data).
Qed.

(** X24. When esearch answers with a list of identifiers (a missing
    "esearchresult" or "idlist" counts as an empty list) and a count
    that [int] accepts (a missing count is 0), [search_snps] with a
    limit that is not negative returns, as "results", one entry for each
    of the first [limit] identifiers, in order, with "rs" put before the
    identifier; "returned_count" is the length of the whole list of
    identifiers, not of "results". *)
Theorem search_results_follow_idlist (w : world) (p : platform)
    (term : string) (limit : Z) (s : state) (resp : response)
    (fields esr : list (string * json)) (ids : list json) (total : Z) :
  http_get w (st_clock s) (esearch_url p term limit) true = Ok resp →
  status_code resp = 200%Z →
  json_body resp = Ok (JObj fields) →
  default (JObj []) (Py.assoc "esearchresult" fields) = JObj esr →
  default (JArr []) (Py.assoc "idlist" esr) = JArr ids →
  Server.to_int p (default (JInt 0) (Py.assoc "count" esr)) = Ok total →
  (0 ≤ limit)%Z →
  Server.search_snps w p term limit s =
    (Ok (JObj [("success", JBool true);
               ("search_term", JStr term);
               ("total_count", JInt total);
               ("returned_count", JInt (Z.of_nat (length ids)));
               ("results",
                JArr (map (λ snp_id,
                             JObj [("rs_id", JStr ("rs" +:+ py_str w snp_id));
                                   ("numeric_id", snp_id)])
                        (take (Z.to_nat limit) ids)))]),
     after_request
       ("[API] Searching SNPs with term: " +:+ term +:+ ", limit: "
          +:+ Str.of_Z limit)
       (esearch_url p term limit)
       [LogInfo ("[API] Successfully retrieved search results for '"
                   +:+ term +:+ "'")] s).
Proof.
  intros Hget Hcode Hjson Hesr Hids Hcount Hlimit.
  rewrite (search_on_data w p term limit s resp _ Hget Hcode Hjson).
  unfold Server.search_result. cbn [Py.get mbind outcome_bind].
  rewrite Hesr. cbn [Py.get mbind outcome_bind]. rewrite Hids, Hcount.
  unfold Server.snp_details, Pyx.slice_to, Pyx.take_to.
  destruct (limit <? 0)%Z eqn:Hneg; [apply Z.ltb_lt in Hneg; lia|].
  destruct ids as [|snp_id ids].
  - cbn [Py.truthy mbind outcome_bind Pyx.len length]. by rewrite take_nil.
  - cbn [Py.truthy Py.iter mbind outcome_bind Pyx.len]. reflexivity.
Qed.

Lemma search_results_follow_idlist_witness :
  Server.search_snps (snp_world three_ids) sample_platform "BRCA1" 2 init =
    (Ok (JObj [("success", JBool true);
               ("search_term", JStr "BRCA1");
               ("total_count", JInt 12);
               ("returned_count", JInt 3);
               ("results",
                JArr [JObj [("rs_id", JStr "rs6311");
                            ("numeric_id", JStr "6311")];
                      JObj [("rs_id", JStr "rs6313");
                            ("numeric_id", JStr "6313")]])]),
     after_request "[API] Searching SNPs with term: BRCA1, limit: 2"
       (esearch_url sample_platform "BRCA1" 2)
       [LogInfo "[API] Successfully retrieved search results for 'BRCA1'"]
       init).
Proof.
  apply (search_results_follow_idlist (snp_world three_ids) sample_platform
           "BRCA1" 2 init (json_response three_ids)
           [("header", JObj [("type", JStr "esearch")]);
            ("esearchresult",
             JObj [("count", JStr "12"); ("retmax", JStr "3");
                   ("idlist", JArr [JStr "6311"; JStr "6313"; JStr "6314"])])]
           [("count", JStr "12"); ("retmax", JStr "3");
            ("idlist", JArr [JStr "6311"; JStr "6313"; JStr "6314"])]
           [JStr "6311"; JStr "6313"; JStr "6314"] 12).
  - reflexivity.
  - reflexivity.
  - reflexivity.
  - reflexivity.
  - reflexivity.
  - reflexivity.
  - lia.
Defined.

(** X25. An "idlist" that is null is not taken as missing: the loop is
    skipped, but [len] is then applied to it, and [search_snps] reports
    the failure "object of type 'NoneType' has no len()" after it had
    logged a success. *)
Theorem null_idlist_is_an_error (w : world) (p : platform)
    (term : string) (limit : Z) (s : state) (resp : response)
    (fields esr : list (string * json)) (total : Z) :
  http_get w (st_clock s) (esearch_url p term limit) true = Ok resp →
  status_code resp = 200%Z →
  json_body resp = Ok (JObj fields) →
  Py.assoc "esearchresult" fields = Some (JObj esr) →
  Py.assoc "idlist" esr = Some JNull →
  Server.to_int p (default (JInt 0) (Py.assoc "count" esr)) = Ok total →
  Server.search_snps w p term limit s =
    (Ok (JObj [("success", JBool false);
               ("error", JStr "object of type 'NoneType' has no len()")]),
     after_request
       ("[API] Searching SNPs with term: " +:+ term +:+ ", limit: "
          +:+ Str.of_Z limit)
       (esearch_url p term limit)
       [LogInfo ("[API] Successfully retrieved search results for '"
                   +:+ term +:+ "'");
        LogError ("[Error] Failed to search SNPs: "
                    +:+ "object of type 'NoneType' has no len()")] s).
Proof.
  intros Hget Hcode Hjson Hesr Hids Hcount.
  rewrite (search_on_data w p term limit s resp _ Hget Hcode Hjson).
  unfold Server.search_result. cbn [Py.get mbind outcome_bind].
  rewrite Hesr. cbn [default from_option id Py.get mbind outcome_bind].
  rewrite Hids. cbn [default from_option id]. rewrite Hcount.
  reflexivity.
Qed.

Lemma null_idlist_is_an_error_witness :
  Server.search_snps (snp_world null_idlist) sample_platform "xyz" 10 init =
    (Ok (JObj [("success", JBool false);
               ("error", JStr "object of type 'NoneType' has no len()")]),
     after_request "[API] Searching SNPs with term: xyz, limit: 10"
       (esearch_url sample_platform "xyz" 10)
       [LogInfo "[API] Successfully retrieved search results for 'xyz'";
        LogError ("[Error] Failed to search SNPs: "
                    +:+ "object of type 'NoneType' has no len()")] init).
Proof.
  apply (null_idlist_is_an_error (snp_world null_idlist) sample_platform
           "xyz" 10 init (json_response null_idlist)
           [("esearchresult",
             JObj [("count", JStr "0"); ("idlist", JNull)])]
           [("count", JStr "0"); ("idlist", JNull)] 0).
  - reflexivity.
  - reflexivity.
  - reflexivity.
  - reflexivity.
  - reflexivity.
  - reflexivity.
Defined.
